(** * Groundwater telemetry analytics and forecasting

    A shallow embedding of the analytic core of the groundwater backend:
    the anomaly detector, the pattern analyser and the batch processing of
    [app/services/data_processing.py], the forecasting service with its
    drought-risk and recharge estimators of
    [app/services/ml_forecasting.py], and the endpoints over it of
    [app/api/v1/endpoints/analytics.py].

    Conventions of the embedding.
    - The floats of the data processor are IEEE 754 binary64 numbers, as
      Python's and numpy's are: the kernel's primitive floats, with numpy's
      reductions written out as numpy computes them ([Np64]).  Its decisions
      (a guard on a deviation of zero, a threshold on a ratio of variances)
      are the ones the code takes, rounding included.
    - The levels, scores and estimates of the forecasting service are read as
      real numbers ([R]) with numpy's reductions as their exact values
      ([Np]); rounding there is not modelled.
    - A Python exception is a value of [Py.exn]; a computation that may raise
      has type [Py.result A]; [try ... except Exception] is [Py.try_except].
    - The time-series store, the clock, string formatting and the fitted
      scikit-learn objects are collaborators outside the repository; they are
      gathered in records and section variables.
    - The relational store is a record of tables; [db.add] followed by
      [db.commit] appends a row (sessions are assumed to open and commit).
    - The artifact directory is a map from paths to the objects dumped
      there; making the directory and creating a file may fail, as the
      file system decides. *)

From Stdlib Require Import PrimFloat.
From Stdlib Require Uint63 FloatAxioms SpecFloat.
From Stdlib Require Import Reals Lra Lia List Sorted String Ascii ZArith Bool.
From stdpp Require Import base gmap strings.
Import ListNotations.

Open Scope string_scope.
Open Scope list_scope.
Open Scope R_scope.

#[local] Set Warnings "-inexact-float".

(** ** Python: exceptions and keyword binding *)

Module Py.

Inductive exn_kind : Set :=
| TypeError | NameError | AttributeError | IndexError | KeyError
| ValueError | RuntimeError | OSError.

Record exn : Set := Exn { kind : exn_kind; message : string }.

Inductive result (A : Type) : Type :=
| Ok (a : A)
| Raise (e : exn).
Arguments Ok {A} a.
Arguments Raise {A} e.

Definition bind {A B : Type} (m : result A) (k : A -> result B) : result B :=
  match m with
  | Ok a => k a
  | Raise e => Raise e
  end.

(** [try: body except Exception as e: handler e] *)
Definition try_except {A : Type} (body : result A) (handler : exn -> A) : A :=
  match body with
  | Ok a => a
  | Raise e => handler e
  end.

(** Keyword parameters of a [def], each with its default value. *)
Definition keywords : Type := list (string * Z).

Fixpoint set_keyword (k : string) (v : Z) (ps : keywords) : keywords :=
  match ps with
  | [] => []
  | (k', v') :: ps' =>
      if String.eqb k k' then (k', v) :: ps' else (k', v') :: set_keyword k v ps'
  end.

(** Binding of the keyword arguments of a call against the keyword
    parameters of the callee: a keyword the callee does not declare raises
    [TypeError] before the body runs. *)
Fixpoint bind_keywords (fname : string) (params given : keywords)
  : result keywords :=
  match given with
  | [] => Ok params
  | (k, v) :: rest =>
      if existsb (String.eqb k) (map fst params)
      then bind_keywords fname (set_keyword k v params) rest
      else Raise (Exn TypeError
                    (fname ++ "() got an unexpected keyword argument '" ++ k ++ "'")%string)
  end.

Fixpoint get_keyword (k : string) (ps : keywords) : Z :=
  match ps with
  | [] => 0%Z
  | (k', v) :: ps' => if String.eqb k k' then v else get_keyword k ps'
  end.

(** [s.replace('Z', '+00:00')] *)
Fixpoint replace_Z (s : string) : string :=
  match s with
  | EmptyString => EmptyString
  | String c s' =>
      if Ascii.eqb c "Z"%char then ("+00:00" ++ replace_Z s')%string
      else String c (replace_Z s')
  end.

(** Truthiness of a list: [not l] *)
Definition not_ {A : Type} (l : list A) : bool :=
  match l with [] => true | _ => false end.

End Py.

Notation "'let*' x ':=' m 'in' k" := (Py.bind m (fun x => k))
  (at level 10, x name, m at level 100, k at level 200).

(** ** numpy: the reductions the services use *)

Module Np.

Definition sum (l : list R) : R := fold_right Rplus 0 l.

(** [np.mean] *)
Definition mean (l : list R) : R := sum l / INR (length l).

(** [np.var]: population variance, the mean of the squared deviations. *)
Definition var (l : list R) : R :=
  mean (map (fun x => Rsqr (x - mean l)) l).

(** [np.std]: population standard deviation. *)
Definition std (l : list R) : R := sqrt (var l).

(** [np.min]; numpy raises on an empty array, and every call below is
    guarded by a non-emptiness test. *)
Definition min (l : list R) : R := fold_right Rmin (hd 0 l) l.

(** [range(n)] as reals *)
Definition arange (n : nat) : list R := map INR (seq 0 n).

(** [np.polyfit(xs, ys, 1)[0]]: the slope of the least-squares line. *)
Definition polyfit_slope (xs ys : list R) : R :=
  let mx := mean xs in
  let my := mean ys in
  sum (map (fun p => (fst p - mx) * (snd p - my)) (combine xs ys))
  / sum (map (fun x => Rsqr (x - mx)) xs).

End Np.

(** ** numpy on float64 arrays: the reductions of the data processor

    [np.mean], [np.var] and [np.std] of a list convert it to a float64
    array and reduce it with [add.reduce], which sums pairwise: fewer than
    eight elements in order; up to 128 elements through eight running sums
    that are added up as a tree, the elements left over in order; more by
    halves.  The results below are the doubles numpy returns. *)

Module Np64.

(** The length of an array as a double. *)
Definition of_nat (n : nat) : float := PrimFloat.of_uint63 (Uint63.of_Z (Z.of_nat n)).

(** [res += a[i]] for the elements of [a] in order *)
Definition add_in_order (res : float) (a : list float) : float :=
  fold_left PrimFloat.add a res.

Fixpoint add_pointwise (r a : list float) : list float :=
  match r, a with
  | x :: r', y :: a' => PrimFloat.add x y :: add_pointwise r' a'
  | _, _ => r
  end.

(** [r[j] += a[i + j]] for so many blocks of eight; the rest of [a] *)
Fixpoint add_blocks (blocks : nat) (r a : list float) : list float * list float :=
  match blocks with
  | O => (r, a)
  | S k => add_blocks k (add_pointwise r (firstn 8 a)) (skipn 8 a)
  end.

(** An array of 8 to 128 elements. *)
Definition sum_unrolled (a : list float) : float :=
  let '(r, rest) := add_blocks (length a / 8 - 1) (firstn 8 a) (skipn 8 a) in
  match r with
  | [r0; r1; r2; r3; r4; r5; r6; r7] =>
      add_in_order (((r0 + r1) + (r2 + r3)) + ((r4 + r5) + (r6 + r7)))%float rest
  | _ => add_in_order (-0)%float a
  end.

(** The recursion by halves; [fuel] bounds its depth and the length of the
    array is enough of it. *)
Fixpoint pairwise_sum (fuel : nat) (a : list float) : float :=
  let n := length a in
  if (n <? 8)%nat then add_in_order (-0)%float a
  else if (n <=? 128)%nat then sum_unrolled a
  else
    match fuel with
    | O => sum_unrolled a
    | S fuel' =>
        let n2 := (n / 2 - (n / 2) mod 8)%nat in
        (pairwise_sum fuel' (firstn n2 a) + pairwise_sum fuel' (skipn n2 a))%float
    end.

(** [np.sum] *)
Definition sum (a : list float) : float := pairwise_sum (length a) a.

(** [np.mean] *)
Definition mean (a : list float) : float := (sum a / of_nat (length a))%float.

(** [np.var]: the mean of the squares of the deviations from the mean. *)
Definition var (a : list float) : float :=
  let arrmean := mean a in
  let x := map (fun v => v - arrmean)%float a in
  let x := map (fun v => v * v)%float x in
  (sum x / of_nat (length a))%float.

(** [np.std] *)
Definition std (a : list float) : float := PrimFloat.sqrt (var a).

End Np64.

(** Comparisons of real numbers as booleans. *)
Definition Rltb (x y : R) : bool := if Rlt_dec x y then true else false.
Definition Rleb (x y : R) : bool := if Rle_dec x y then true else false.
Definition Reqb (x y : R) : bool := if Req_dec_T x y then true else false.

(** ** External collaborators *)

(** A [datetime] is a number of seconds; the clock and the ISO-8601
    conversions belong to the Python runtime. *)
Definition datetime : Set := Z.

(** The [datetime.datetime] object a timestamp string parses to: the date
    and time of day it shows, counted in seconds from 1970-01-01T00:00:00 on
    its own clock, and its offset from UTC in seconds when it carries one.
    [hour] and [weekday()] read the own clock. *)
Record pydatetime : Set := {
  wall_clock : Z;
  utcoffset : option Z;
}.

Record Runtime : Type := {
  now : datetime;
  isoformat : datetime -> string;
  fromisoformat : string -> Py.result pydatetime;
  (** [f"{x:.2f}"] *)
  format_2f : float -> string;
  (** [os.makedirs(path, exist_ok=True)], and whether a file can be created
      at a path: a name with a '/' in it points into a directory that need
      not exist, and a NUL is no file name at all. *)
  makedirs : string -> Py.result unit;
  creatable : string -> bool;
}.

(** The time-series store: a Flux query over a measurement, filtered by
    station (and sensor or field), from a start time on, sorted by time.  A
    query may fail (store unreachable).  The forecasting service reads the
    values of a sensor as reals ([query_sensor_data]), the data processor as
    the doubles they are ([query_sensor_values]). *)
Record InfluxStore : Type := {
  query_sensor_data :
    string -> string -> datetime -> Py.result (list (datetime * R));
  query_sensor_values :
    string -> string -> datetime -> Py.result (list (datetime * float));
  query_weather_data :
    string -> datetime -> Py.result (list (datetime * (string * R)));
  query_weather_field :
    string -> string -> datetime -> Py.result (list (datetime * R));
}.

(** ** The relational tables written by the services

    The ORM classes are declared in [app/models], outside the files read
    here; each record carries the keyword arguments the services pass to the
    constructor of its class. *)

Record AnomalyDetection : Type := {
  an_sensor_id : string;
  an_station_id : string;
  an_timestamp : pydatetime;
  an_anomaly_type : string;
  an_severity : string;
  an_anomaly_score : float;
  an_expected_value : float;
  an_actual_value : float;
  an_description : string;
}.

Record Alert : Type := {
  al_station_id : string;
  al_alert_type : string;
  al_severity : string;
  al_title : string;
  al_message : string;
  al_meta_sensor_id : string;
  al_meta_anomaly_score : float;
  al_meta_expected_value : float;
  al_meta_actual_value : float;
}.

Record WaterLevelForecast : Type := {
  wf_station_id : string;
  wf_forecast_date : pydatetime;
  wf_predicted_level : R;
  wf_confidence_interval_lower : R;
  wf_confidence_interval_upper : R;
  wf_model_name : string;
  wf_model_version : string;
  wf_forecast_horizon_days : R;
}.

Record DroughtRiskAssessment : Type := {
  dr_station_id : string;
  dr_assessment_date : datetime;
  dr_risk_level : string;
  dr_risk_score : R;
  dr_days_to_drought : Z;
  dr_current_level_m : R;
  dr_historical_average_m : R;
  dr_trend : string;
  dr_current_vs_average : R;
  dr_trend_slope : R;
  dr_factor_risk_score : R;
}.

Record RechargeEstimate : Type := {
  re_station_id : string;
  re_date : datetime;
  re_recharge_mm : R;
  re_method : string;
  re_rainfall_mm : R;
  re_pumping_mm : R;
  re_evapotranspiration_mm : R;
  re_confidence_score : R;
}.

Record RelDb : Type := {
  anomaly_detections : list AnomalyDetection;
  alerts : list Alert;
  water_level_forecasts : list WaterLevelForecast;
  drought_risk_assessments : list DroughtRiskAssessment;
  recharge_estimates : list RechargeEstimate;
}.

Definition add_anomaly (a : AnomalyDetection) (db : RelDb) : RelDb :=
  {| anomaly_detections := anomaly_detections db ++ [a];
     alerts := alerts db;
     water_level_forecasts := water_level_forecasts db;
     drought_risk_assessments := drought_risk_assessments db;
     recharge_estimates := recharge_estimates db |}.

Definition add_alert (a : Alert) (db : RelDb) : RelDb :=
  {| anomaly_detections := anomaly_detections db;
     alerts := alerts db ++ [a];
     water_level_forecasts := water_level_forecasts db;
     drought_risk_assessments := drought_risk_assessments db;
     recharge_estimates := recharge_estimates db |}.

Definition add_forecasts (fs : list WaterLevelForecast) (db : RelDb) : RelDb :=
  {| anomaly_detections := anomaly_detections db;
     alerts := alerts db;
     water_level_forecasts := water_level_forecasts db ++ fs;
     drought_risk_assessments := drought_risk_assessments db;
     recharge_estimates := recharge_estimates db |}.

Definition add_assessment (a : DroughtRiskAssessment) (db : RelDb) : RelDb :=
  {| anomaly_detections := anomaly_detections db;
     alerts := alerts db;
     water_level_forecasts := water_level_forecasts db;
     drought_risk_assessments := drought_risk_assessments db ++ [a];
     recharge_estimates := recharge_estimates db |}.

Definition add_estimate (e : RechargeEstimate) (db : RelDb) : RelDb :=
  {| anomaly_detections := anomaly_detections db;
     alerts := alerts db;
     water_level_forecasts := water_level_forecasts db;
     drought_risk_assessments := drought_risk_assessments db;
     recharge_estimates := recharge_estimates db ++ [e] |}.

(** ** [DataProcessor]: the anomaly detector *)

(** An incoming payload after validation: [timestamp], [value], [unit]. *)
Record SensorPayload : Type := {
  p_timestamp : string;
  p_value : float;
  p_unit : string;
}.

(** A row of the historical window: [{'timestamp': ..., 'value': ...}] *)
Record HistPoint : Type := {
  h_timestamp : string;
  h_value : float;
}.

Section DataProcessor.

Variable rt : Runtime.
Variable influx : InfluxStore.

Definition seconds_per_day : Z := 86400.

(** [DataProcessor._get_historical_data(self, station_id, sensor_id, days=30)] *)
Definition _get_historical_data (station_id sensor_id : string)
    (kwargs : Py.keywords) : Py.result (list HistPoint) :=
  let* kw := Py.bind_keywords "_get_historical_data" [("days", 30%Z)] kwargs in
  Py.Ok
    (Py.try_except
       (let start_time := (now rt - Py.get_keyword "days" kw * seconds_per_day)%Z in
        let* result := query_sensor_values influx station_id sensor_id start_time in
        Py.Ok (map (fun rec =>
                      {| h_timestamp := isoformat rt (fst rec);
                         h_value := snd rec |}) result))
       (fun _ => [])).

(** [DataProcessor._create_anomaly_alert] *)
Definition _create_anomaly_alert (db : RelDb) (station_id sensor_id : string)
    (data : SensorPayload) (z_score expected_value std_dev : float) : RelDb :=
  Py.try_except
    (let* ts := fromisoformat rt (Py.replace_Z (p_timestamp data)) in
     let anomaly :=
       {| an_sensor_id := sensor_id;
          an_station_id := station_id;
          an_timestamp := ts;
          an_anomaly_type := "statistical_outlier";
          an_severity := if PrimFloat.ltb 5 z_score then "high" else "medium";
          an_anomaly_score := z_score;
          an_expected_value := expected_value;
          an_actual_value := p_value data;
          an_description :=
            ("Statistical anomaly detected: z-score=" ++ format_2f rt z_score)%string |} in
     let db1 := add_anomaly anomaly db in
     let alert :=
       {| al_station_id := station_id;
          al_alert_type := "sensor_anomaly";
          al_severity := an_severity anomaly;
          al_title := ("Sensor Anomaly Detected - " ++ sensor_id)%string;
          al_message :=
            ("Statistical anomaly detected in sensor " ++ sensor_id
             ++ ". Z-score: " ++ format_2f rt z_score)%string;
          al_meta_sensor_id := sensor_id;
          al_meta_anomaly_score := z_score;
          al_meta_expected_value := expected_value;
          al_meta_actual_value := p_value data |} in
     Py.Ok (add_alert alert db1))
    (fun _ => db).

(** [DataProcessor.detect_anomalies] *)
Definition detect_anomalies (db : RelDb) (station_id sensor_id : string)
    (data : SensorPayload) : RelDb :=
  Py.try_except
    (let* historical_data := _get_historical_data station_id sensor_id [("days", 30%Z)] in
     if Py.not_ historical_data || (length historical_data <? 10)%nat
     then Py.Ok db
     else
       let current_value := p_value data in
       let values := map h_value historical_data in
       let mean_val := Np64.mean values in
       let std_val := Np64.std values in
       if PrimFloat.eqb std_val 0 then Py.Ok db
       else
         let z_score := (PrimFloat.abs (current_value - mean_val) / std_val)%float in
         let anomaly_threshold := 3%float in
         if PrimFloat.ltb anomaly_threshold z_score
         then Py.Ok (_create_anomaly_alert db station_id sensor_id data
                       z_score mean_val std_val)
         else Py.Ok db)
    (fun _ => db).

(** The window the detector reads: the store's rows for the last 30
    days, or no row when the query fails. *)
Definition historical_window (station_id sensor_id : string) : list HistPoint :=
  Py.try_except
    (let* result := query_sensor_values influx station_id sensor_id
                 (now rt - 30 * seconds_per_day)%Z in
     Py.Ok (map (fun rec =>
                   {| h_timestamp := isoformat rt (fst rec);
                      h_value := snd rec |}) result))
    (fun _ => []).

End DataProcessor.

(** ** [DataProcessor]: the pattern analyser *)

(** [timestamp.hour] and [timestamp.weekday()]: the hour and the day of the
    week the datetime shows on its own clock (1970-01-01 was a Thursday,
    weekday 3). *)
Definition hour (t : pydatetime) : Z := ((wall_clock t / 3600) mod 24)%Z.
Definition weekday (t : pydatetime) : Z := ((wall_clock t / 86400 + 3) mod 7)%Z.

(** A Python dict from integers to lists of floats, in insertion order. *)
Definition groups : Type := list (Z * list float).

(** [if k not in d: d[k] = []] followed by [d[k].append(v)] *)
Fixpoint group_append (k : Z) (v : float) (d : groups) : groups :=
  match d with
  | [] => [(k, [v])]
  | (k', vs) :: d' =>
      if Z.eqb k k' then (k', vs ++ [v]) :: d'
      else (k', vs) :: group_append k v d'
  end.

(** [for i, timestamp in enumerate(timestamps): ... values[i]]; an index
    past the end of [values] raises [IndexError]. *)
Fixpoint group_values (key : pydatetime -> Z) (values : list float)
    (timestamps : list pydatetime) (i : nat) (d : groups) : Py.result groups :=
  match timestamps with
  | [] => Py.Ok d
  | timestamp :: rest =>
      match nth_error values i with
      | Some v => group_values key values rest (S i) (group_append (key timestamp) v d)
      | None => Py.Raise (Py.Exn Py.IndexError "list index out of range")
      end
  end.

Record Pattern : Type := {
  pattern_type : string;
  averages : list (Z * float);
  pat_variance : float;
  pat_confidence : float;
}.

(** The builtin [min] of two floats: the second when it is less than the
    first, else the first. *)
Definition min2 (a b : float) : float := if PrimFloat.ltb b a then b else a.

(** The body shared by the daily and the weekly detector: they differ in
    the grouping key, the least number of groups, the share of the variance
    and the name of the pattern. *)
Definition detect_grouped_pattern (name : string) (key : pydatetime -> Z)
    (min_groups : nat) (share : float)
    (values : list float) (timestamps : list pydatetime) : option Pattern :=
  Py.try_except
    (let* grouped := group_values key values timestamps 0 [] in
     let avg := map (fun kv => (fst kv, Np64.mean (snd kv))) grouped in
     if (length avg <? min_groups)%nat then Py.Ok None
     else
       let avg_values := map snd avg in
       let variance := Np64.var avg_values in
       if PrimFloat.ltb (Np64.var values * share)%float variance
       then Py.Ok (Some {| pattern_type := name;
                          averages := avg;
                          pat_variance := variance;
                          pat_confidence := min2 1 (variance / Np64.var values)%float |})
       else Py.Ok None)
    (fun _ => None).

(** [DataProcessor._detect_daily_pattern] *)
Definition _detect_daily_pattern (values : list float) (timestamps : list pydatetime)
  : option Pattern :=
  detect_grouped_pattern "daily" hour 12 0.1%float values timestamps.

(** [DataProcessor._detect_weekly_pattern] *)
Definition _detect_weekly_pattern (values : list float) (timestamps : list pydatetime)
  : option Pattern :=
  detect_grouped_pattern "weekly" weekday 4 0.05%float values timestamps.

(** [DataProcessor._detect_patterns] *)
Definition _detect_patterns (values : list float) (timestamps : list pydatetime)
  : list Pattern :=
  let patterns := [] in
  if (length values <? 24)%nat then patterns
  else
    let patterns :=
      match _detect_daily_pattern values timestamps with
      | Some daily_pattern => patterns ++ [daily_pattern]
      | None => patterns
      end in
    let patterns :=
      match _detect_weekly_pattern values timestamps with
      | Some weekly_pattern => patterns ++ [weekly_pattern]
      | None => patterns
      end in
    patterns.

(** What the analyser is meant to compute, stated without the dict: the
    distinct keys in order of first appearance, and the values recorded
    under one key. *)
Fixpoint distinct (ks : list Z) : list Z :=
  match ks with
  | [] => []
  | k :: ks' => k :: List.filter (fun k' => negb (Z.eqb k' k)) (distinct ks')
  end.

Definition values_at (key : pydatetime -> Z) (k : Z)
    (timestamps : list pydatetime) (values : list float) : list float :=
  map snd (List.filter (fun tv => Z.eqb (key (fst tv)) k) (combine timestamps values)).

(** ** [MLForecastingService]: collaborators *)

(** A row of the feature matrix. *)
Definition FeatureRow : Type := list R.

(** A value of a row of the training data: the time of the record or a
    number. *)
Inductive cell : Type :=
| CTime (t : datetime)
| CNum (x : R).

(** A row of the training data: the dict [data_point], its keys in the
    order they were inserted. *)
Definition TrainRow : Type := list (string * cell).

(** A row of the prediction context: [{'timestamp': ..., 'water_level': ...}] *)
Record LevelRow : Type := {
  lv_timestamp : datetime;
  lv_water_level : R;
}.

(** scikit-learn and pandas, as the service uses them.  [Regressor] is a
    fitted [RandomForestRegressor], [Scaler] a fitted [StandardScaler]; every
    call may raise.  [build_feature_table] stands for the DataFrame code of
    [_prepare_features] up to and including [dropna] (one pair of feature row
    and target per remaining row, in time order); [prediction_features] for
    the DataFrame code of [_prepare_prediction_features], which reads
    [pred_time.dayofyear] of a [datetime.datetime] and so may well raise on
    every call: the properties below hold for every behaviour of it. *)
Class Learning (Regressor Scaler : Type) : Type := {
  scaler_fit : list FeatureRow -> Py.result Scaler;
  scaler_transform : Scaler -> list FeatureRow -> Py.result (list FeatureRow);
  regressor_fit : list FeatureRow -> list R -> Py.result Regressor;
  regressor_predict : Regressor -> list FeatureRow -> Py.result (list R);
  build_feature_table : list TrainRow -> Py.result (list (FeatureRow * R));
  prediction_features : list LevelRow -> datetime -> Py.result FeatureRow;
}.

(** Python objects held by the registry and by the artifact files. *)
Inductive pyobj (Regressor Scaler : Type) : Type :=
| ORegressor (m : Regressor)
| OScaler (s : Scaler).
Arguments ORegressor {Regressor Scaler} m.
Arguments OScaler {Regressor Scaler} s.

(** The service object: [self.models] and [self.scalers], with the artifact
    directory. *)
Record Service (Regressor Scaler : Type) : Type := {
  models : gmap string (pyobj Regressor Scaler);
  scalers : gmap string (pyobj Regressor Scaler);
  disk : gmap string (pyobj Regressor Scaler);
}.
Arguments models {Regressor Scaler} s.
Arguments scalers {Regressor Scaler} s.
Arguments disk {Regressor Scaler} s.

(** The names bound at module level of [ml_forecasting.py] (its imports,
    [logger] and the class).  [_save_model] imports [os] inside its own body,
    which binds the name there and nowhere else. *)
Definition ml_forecasting_globals : list string :=
  ["asyncio"; "logging"; "np"; "pd"; "datetime"; "timedelta"; "Dict"; "List";
   "Optional"; "Any"; "Tuple"; "joblib"; "RandomForestRegressor";
   "IsolationForest"; "StandardScaler"; "mean_absolute_error";
   "mean_squared_error"; "tf"; "keras"; "get_influx_client"; "get_db";
   "WaterLevelForecast"; "DroughtRiskAssessment"; "RechargeEstimate"; "logger";
   "MLForecastingService"].

(** Evaluation of a global name of a module. *)
Definition lookup_global (globals : list string) (name : string) : Py.result unit :=
  if existsb (String.eqb name) globals then Py.Ok tt
  else Py.Raise (Py.Exn Py.NameError ("name '" ++ name ++ "' is not defined")%string).

(** [sklearn.metrics] *)
Definition mean_absolute_error (y_true y_pred : list R) : R :=
  Np.mean (map (fun p => Rabs (fst p - snd p)) (combine y_true y_pred)).

Definition mean_squared_error (y_true y_pred : list R) : R :=
  Np.mean (map (fun p => Rsqr (fst p - snd p)) (combine y_true y_pred)).

(** [int(x)] of a float: truncation towards zero. *)
Definition py_int (x : R) : Z :=
  if Rle_dec 0 x then Int_part x else (- Int_part (- x))%Z.

(** The outcome of training: [{'status': ...}] with its other keys. *)
Inductive TrainResult : Type :=
| InsufficientData
| InsufficientFeatures
| Success (mae rmse : R) (training_samples test_samples : nat)
| Error (message : string).

Definition status (r : TrainResult) : string :=
  match r with
  | InsufficientData => "insufficient_data"
  | InsufficientFeatures => "insufficient_features"
  | Success _ _ _ _ => "success"
  | Error _ => "error"
  end.

(** A forecast point as [predict_water_level] returns it. *)
Record ForecastPoint : Type := {
  fp_timestamp : string;
  predicted_level : R;
  confidence_lower : R;
  confidence_upper : R;
  horizon_hours : Z;
}.

(** The result of a drought-risk assessment: the two keys every result
    has, and the four more of a completed assessment. *)
Record RiskDetails : Type := {
  current_level : R;
  historical_average : R;
  trend : string;
  days_to_drought : Z;
}.

Record RiskAssessment : Type := {
  risk_level : string;
  risk_score : R;
  risk_details : option RiskDetails;
}.

(** The result of a recharge estimate. *)
Record RechargeDetails : Type := {
  rainfall_mm : R;
  level_change_m : R;
  period_days : Z;
}.

Record RechargeResult : Type := {
  recharge_mm : R;
  method : string;
  recharge_details : option RechargeDetails;
}.

(** ** [MLForecastingService]: training *)

(** [d[k] = v] on a dict that is only ever read through [sorted(d.keys())]:
    the entries are kept in key order. *)
Fixpoint upsert {V : Type} (k : Z) (v : V) (d : list (Z * V)) : list (Z * V) :=
  match d with
  | [] => [(k, v)]
  | (k', v') :: d' =>
      if (k <? k')%Z then (k, v) :: d
      else if (k =? k')%Z then (k, v) :: d'
      else (k', v') :: upsert k v d'
  end.

Fixpoint lookup_ts {V : Type} (k : Z) (d : list (Z * V)) : option V :=
  match d with
  | [] => None
  | (k', v) :: d' => if (k =? k')%Z then Some v else lookup_ts k d'
  end.

(** [d[f] = v] on a dict with string keys: the value of a key that is
    there is replaced, a new key comes last. *)
Fixpoint set_field {V : Type} (f : string) (v : V) (fs : list (string * V))
  : list (string * V) :=
  match fs with
  | [] => [(f, v)]
  | (f', v') :: fs' =>
      if String.eqb f f' then (f', v) :: fs' else (f', v') :: set_field f v fs'
  end.

(** [d.get(f)] *)
Fixpoint get_field {V : Type} (f : string) (fs : list (string * V)) : option V :=
  match fs with
  | [] => None
  | (f', v) :: fs' => if String.eqb f f' then Some v else get_field f fs'
  end.

(** [data_point.update(fields)]: every field of the weather dict is set in
    the row, a key the row has already included. *)
Definition dict_update (data_point : TrainRow) (fields : list (string * R)) : TrainRow :=
  fold_left (fun d kv => set_field (fst kv) (CNum (snd kv)) d) fields data_point.

Definition add_weather (rec : datetime * (string * R))
    (d : list (Z * list (string * R))) : list (Z * list (string * R)) :=
  let fields := match lookup_ts (fst rec) d with Some fs => fs | None => [] end in
  upsert (fst rec) (set_field (fst (snd rec)) (snd (snd rec)) fields) d.

(** The row of a reading in [combined_data]: timestamp and level, updated
    with the weather fields of the same timestamp if there are any. *)
Definition data_point (timestamp : datetime) (water_level : R)
    (weather_data : list (Z * list (string * R))) : TrainRow :=
  let data_point := [("timestamp", CTime timestamp); ("water_level", CNum water_level)] in
  match lookup_ts timestamp weather_data with
  | Some fields => dict_update data_point fields
  | None => data_point
  end.

Section MLForecastingService.

Context {Regressor Scaler : Type} {L : Learning Regressor Scaler}.
Variable rt : Runtime.
Variable influx : InfluxStore.
Variable module_globals : list string.

Definition seconds_per_hour : Z := 3600.

(** [self.model_path] and the key of a sensor's model *)
Definition model_path : string := "models/".

Definition model_key (station_id sensor_id : string) : string :=
  (station_id ++ "_" ++ sensor_id)%string.

Definition model_file (key : string) : string :=
  (model_path ++ key ++ "_model.joblib")%string.

Definition scaler_file (key : string) : string :=
  (model_path ++ key ++ "_scaler.joblib")%string.

(** [_get_training_data(self, station_id, sensor_id, days=365)] *)
Definition _get_training_data (station_id sensor_id : string)
    (kwargs : Py.keywords) : Py.result (list TrainRow) :=
  let* kw := Py.bind_keywords "_get_training_data" [("days", 365%Z)] kwargs in
  Py.Ok
    (Py.try_except
       (let start_time := (now rt - Py.get_keyword "days" kw * seconds_per_day)%Z in
        let* sensor_result := query_sensor_data influx station_id sensor_id start_time in
        let* weather_result := query_weather_data influx station_id start_time in
        let sensor_data :=
          fold_left (fun d rec => upsert (fst rec) (snd rec) d) sensor_result [] in
        let weather_data := fold_left (fun d rec => add_weather rec d) weather_result [] in
        Py.Ok (map (fun kv => data_point (fst kv) (snd kv) weather_data) sensor_data))
       (fun _ => [])).

(** [_prepare_features]: [(None, None)] is [None] *)
Definition _prepare_features (data : list TrainRow)
  : option (list FeatureRow * list R) :=
  Py.try_except
    (if Py.not_ data then Py.Ok None
     else
       let* df := build_feature_table data in
       if (length df <? 10)%nat then Py.Ok None
       else Py.Ok (Some (map fst df, map snd df)))
    (fun _ => None).

(** [joblib.dump(obj, path)]: the file holds the object, or creating it
    raises. *)
Definition joblib_dump (files : gmap string (pyobj Regressor Scaler))
    (obj : pyobj Regressor Scaler) (path : string)
  : Py.result (gmap string (pyobj Regressor Scaler)) :=
  if creatable rt path then Py.Ok (<[path := obj]> files)
  else Py.Raise (Py.Exn Py.OSError
                   ("[Errno 2] No such file or directory: '" ++ path ++ "'")%string).

(** [_save_model]: the directory is made, the model is dumped, then the
    scaler; whatever raises is logged and dropped, and a file written before
    stays. *)
Definition _save_model (s : Service Regressor Scaler)
    (model scaler : pyobj Regressor Scaler) (key : string)
  : Service Regressor Scaler :=
  match
    (let* _ := makedirs rt model_path in
     joblib_dump (disk s) model (model_file key))
  with
  | Py.Raise _ => s
  | Py.Ok files1 =>
      match joblib_dump files1 scaler (scaler_file key) with
      | Py.Raise _ => {| models := models s; scalers := scalers s; disk := files1 |}
      | Py.Ok files2 => {| models := models s; scalers := scalers s; disk := files2 |}
      end
  end.

(** [int(len(X) * 0.8)] *)
Definition split_idx (n : nat) : nat := Z.to_nat (py_int (INR n * 0.8)).

(** [train_water_level_model] *)
Definition train_water_level_model (s : Service Regressor Scaler)
    (station_id sensor_id : string) : TrainResult * Service Regressor Scaler :=
  Py.try_except
    (let* data := _get_training_data station_id sensor_id [("days", 365%Z)] in
     if (length data <? 100)%nat then Py.Ok (InsufficientData, s)
     else
       match _prepare_features data with
       | None => Py.Ok (InsufficientFeatures, s)
       | Some (X, y) =>
           if (length X <? 50)%nat then Py.Ok (InsufficientFeatures, s)
           else
             let split_idx := split_idx (length X) in
             let X_train := firstn split_idx X in
             let X_test := skipn split_idx X in
             let y_train := firstn split_idx y in
             let y_test := skipn split_idx y in
             let* scaler := scaler_fit X_train in
             let* X_train_scaled := scaler_transform scaler X_train in
             let* X_test_scaled := scaler_transform scaler X_test in
             let* model := regressor_fit X_train_scaled y_train in
             let* y_pred := regressor_predict model X_test_scaled in
             let mae := mean_absolute_error y_test y_pred in
             let rmse := sqrt (mean_squared_error y_test y_pred) in
             let key := model_key station_id sensor_id in
             let s1 :=
               {| models := <[key := ORegressor model]> (models s);
                  scalers := <[key := OScaler scaler]> (scalers s);
                  disk := disk s |} in
             let s2 := _save_model s1 (ORegressor model) (OScaler scaler) key in
             Py.Ok (Success mae rmse (length X_train) (length X_test), s2)
       end)
    (fun e => (Error (Py.message e), s)).

(** ** [MLForecastingService]: loading and predicting *)

(** [joblib.load] *)
Definition joblib_load (s : Service Regressor Scaler) (path : string)
  : Py.result (pyobj Regressor Scaler) :=
  match disk s !! path with
  | Some o => Py.Ok o
  | None => Py.Raise (Py.Exn Py.RuntimeError "No such file or directory")
  end.

(** [os.path.exists] *)
Definition path_exists (s : Service Regressor Scaler) (path : string) : bool :=
  bool_decide (is_Some (disk s !! path)).

(** [load_model]; the name [os] is looked up in the module's globals. *)
Definition load_model (s : Service Regressor Scaler)
    (station_id sensor_id : string) : bool * Service Regressor Scaler :=
  Py.try_except
    (let key := model_key station_id sensor_id in
     let* _os := lookup_global module_globals "os" in
     if path_exists s (model_file key) && path_exists s (scaler_file key)
     then
       let* model := joblib_load s (model_file key) in
       let* scaler := joblib_load s (scaler_file key) in
       Py.Ok (true, {| models := <[key := model]> (models s);
                       scalers := <[key := scaler]> (scalers s);
                       disk := disk s |})
     else Py.Ok (false, s))
    (fun _ => (false, s)).

(** [_get_recent_data(self, station_id, sensor_id, hours=48)] *)
Definition _get_recent_data (station_id sensor_id : string)
    (kwargs : Py.keywords) : Py.result (list LevelRow) :=
  let* kw := Py.bind_keywords "_get_recent_data" [("hours", 48%Z)] kwargs in
  Py.Ok
    (Py.try_except
       (let start_time := (now rt - Py.get_keyword "hours" kw * seconds_per_hour)%Z in
        let* result := query_sensor_data influx station_id sensor_id start_time in
        Py.Ok (map (fun rec =>
                      {| lv_timestamp := fst rec; lv_water_level := snd rec |}) result))
       (fun _ => [])).

(** [_prepare_prediction_features] *)
Definition _prepare_prediction_features (data : list LevelRow) (horizon_hours : Z)
  : option FeatureRow :=
  Py.try_except
    (if Py.not_ data then Py.Ok None
     else
       let pred_time := (now rt + horizon_hours * seconds_per_hour)%Z in
       let* X := prediction_features data pred_time in
       Py.Ok (Some X))
    (fun _ => None).

(** [scaler.transform] and [model.predict] on the objects of the registry *)
Definition transform (o : pyobj Regressor Scaler) (X : list FeatureRow)
  : Py.result (list FeatureRow) :=
  match o with
  | OScaler sc => scaler_transform sc X
  | ORegressor _ =>
      Py.Raise (Py.Exn Py.AttributeError "object has no attribute 'transform'")
  end.

Definition predict (o : pyobj Regressor Scaler) (X : list FeatureRow)
  : Py.result (list R) :=
  match o with
  | ORegressor m => regressor_predict m X
  | OScaler _ =>
      Py.Raise (Py.Exn Py.AttributeError "object has no attribute 'predict'")
  end.

(** [ys[0]] *)
Definition item0 (ys : list R) : Py.result R :=
  match ys with
  | y :: _ => Py.Ok y
  | [] => Py.Raise (Py.Exn Py.IndexError "index 0 is out of bounds")
  end.

(** [d[key]] *)
Definition getitem {V : Type} (d : gmap string V) (key : string) : Py.result V :=
  match d !! key with
  | Some v => Py.Ok v
  | None => Py.Raise (Py.Exn Py.KeyError key)
  end.

(** The loop [for hour in range(1, horizon_hours + 1)] of
    [predict_water_level], over the hours still to do. *)
Fixpoint forecast_loop (model scaler : pyobj Regressor Scaler) (hours : list Z)
    (predictions : list ForecastPoint) (current_data : list LevelRow)
  : Py.result (list ForecastPoint) :=
  match hours with
  | [] => Py.Ok predictions
  | hour :: rest =>
      match _prepare_prediction_features current_data hour with
      | None => Py.Ok predictions
      | Some X =>
          let* X_scaled := transform scaler [X] in
          let* ys := predict model X_scaled in
          let* prediction := item0 ys in
          let confidence_interval := 0.1 * Rabs prediction in
          forecast_loop model scaler rest
            (predictions ++
               [{| fp_timestamp := isoformat rt (now rt + hour * seconds_per_hour)%Z;
                   predicted_level := prediction;
                   confidence_lower := prediction - confidence_interval;
                   confidence_upper := prediction + confidence_interval;
                   horizon_hours := hour |}])
            (current_data ++
               [{| lv_timestamp := (now rt + hour * seconds_per_hour)%Z;
                   lv_water_level := prediction |}])
      end
  end.

(** [range(1, horizon_hours + 1)] *)
Definition hours_range (horizon_hours : Z) : list Z :=
  map Z.of_nat (seq 1 (Z.to_nat horizon_hours)).

Fixpoint forecast_rows (station_id : string) (predictions : list ForecastPoint)
  : Py.result (list WaterLevelForecast) :=
  match predictions with
  | [] => Py.Ok []
  | pred :: rest =>
      let* date := fromisoformat rt (Py.replace_Z (fp_timestamp pred)) in
      let* rows := forecast_rows station_id rest in
      Py.Ok ({| wf_station_id := station_id;
                wf_forecast_date := date;
                wf_predicted_level := predicted_level pred;
                wf_confidence_interval_lower := confidence_lower pred;
                wf_confidence_interval_upper := confidence_upper pred;
                wf_model_name := "random_forest";
                wf_model_version := "1.0";
                wf_forecast_horizon_days := IZR (horizon_hours pred) / 24 |} :: rows)
  end.

(** [_store_predictions]: the rows are committed together, or not at all. *)
Definition _store_predictions (db : RelDb) (station_id sensor_id : string)
    (predictions : list ForecastPoint) : RelDb :=
  Py.try_except
    (let* rows := forecast_rows station_id predictions in
     Py.Ok (add_forecasts rows db))
    (fun _ => db).

(** [predict_water_level] *)
Definition predict_water_level (s : Service Regressor Scaler) (db : RelDb)
    (station_id sensor_id : string) (horizon_hours : Z)
  : list ForecastPoint * Service Regressor Scaler * RelDb :=
  let key := model_key station_id sensor_id in
  let '(loaded, s1) :=
    if bool_decide (is_Some (models s !! key)) then (true, s)
    else load_model s station_id sensor_id in
  if negb loaded then ([], s1, db)
  else
    Py.try_except
      (let* model := getitem (models s1) key in
       let* scaler := getitem (scalers s1) key in
       let* recent_data := _get_recent_data station_id sensor_id [("hours", 48%Z)] in
       if Py.not_ recent_data then Py.Ok ([], s1, db)
       else
         let* predictions :=
           forecast_loop model scaler (hours_range horizon_hours) [] recent_data in
         let db1 := _store_predictions db station_id sensor_id predictions in
         Py.Ok (predictions, s1, db1))
      (fun _ => ([], s1, db)).

End MLForecastingService.

(** ** [MLForecastingService]: drought risk and recharge *)

(** Lines 445-464 of [assess_drought_risk]: the additive score. *)
Definition drought_risk_score
    (current_level mean_level std_level min_level recent_trend : R) : R :=
  let risk_score := 0 in
  (* Current level relative to historical average *)
  let risk_score :=
    if Rltb current_level (mean_level - std_level) then risk_score + 0.3
    else if Rltb current_level mean_level then risk_score + 0.1
    else risk_score in
  (* Trend analysis *)
  let risk_score :=
    if Rltb recent_trend (-0.01) then risk_score + 0.2
    else if Rltb recent_trend (-0.005) then risk_score + 0.1
    else risk_score in
  (* Proximity to historical minimum *)
  let risk_score :=
    if Rltb current_level (min_level * 1.1) then risk_score + 0.3
    else if Rltb current_level (min_level * 1.2) then risk_score + 0.1
    else risk_score in
  risk_score.

(** Lines 466-474: the level of a score. *)
Definition drought_risk_level (risk_score : R) : string :=
  if Rleb 0.7 risk_score then "critical"
  else if Rleb 0.5 risk_score then "high"
  else if Rleb 0.3 risk_score then "medium"
  else "low".

(** Lines 439-443: the slope over the last seven levels. *)
Definition recent_trend_of (historical_levels : list R) : R :=
  if (7 <? length historical_levels)%nat
  then Np.polyfit_slope (Np.arange 7)
         (skipn (length historical_levels - 7) historical_levels)
  else 0.

(** Lines 476-480. *)
Definition days_to_drought_of (current_level min_level recent_trend : R) : Z :=
  if Rltb recent_trend 0
  then py_int ((current_level - min_level) / Rabs recent_trend * 24)
  else 999%Z.

(** ['decreasing' if trend < 0 else 'increasing' if trend > 0 else 'stable'] *)
Definition trend_name (recent_trend : R) : string :=
  if Rltb recent_trend 0 then "decreasing"
  else if Rltb 0 recent_trend then "increasing"
  else "stable".

Definition unknown_risk : RiskAssessment :=
  {| risk_level := "unknown"; risk_score := 0; risk_details := None |}.

Section Estimators.

Variable rt : Runtime.
Variable influx : InfluxStore.

(** [_store_drought_assessment] *)
Definition _store_drought_assessment (db : RelDb) (station_id risk_level : string)
    (risk_score current_level historical_average trend : R) (days_to_drought : Z)
  : RelDb :=
  add_assessment
    {| dr_station_id := station_id;
       dr_assessment_date := now rt;
       dr_risk_level := risk_level;
       dr_risk_score := risk_score;
       dr_days_to_drought := days_to_drought;
       dr_current_level_m := current_level;
       dr_historical_average_m := historical_average;
       dr_trend := trend_name trend;
       dr_current_vs_average := current_level - historical_average;
       dr_trend_slope := trend;
       dr_factor_risk_score := risk_score |}
    db.

(** [assess_drought_risk] from line 427 on: the assessment of the rows
    that [_get_recent_data] returned. *)
Definition assess_recent_data (db : RelDb) (station_id : string)
    (recent_data : list LevelRow) : RiskAssessment * RelDb :=
  if Py.not_ recent_data then (unknown_risk, db)
  else
    let current_level :=
      lv_water_level (List.last recent_data {| lv_timestamp := 0%Z; lv_water_level := 0 |}) in
    let historical_levels := map lv_water_level recent_data in
    let mean_level := Np.mean historical_levels in
    let std_level := Np.std historical_levels in
    let min_level := Np.min historical_levels in
    let recent_trend := recent_trend_of historical_levels in
    let risk_score :=
      drought_risk_score current_level mean_level std_level min_level recent_trend in
    let risk_level := drought_risk_level risk_score in
    let days_to_drought := days_to_drought_of current_level min_level recent_trend in
    let db1 :=
      _store_drought_assessment db station_id risk_level risk_score
        current_level mean_level recent_trend days_to_drought in
    ({| risk_level := risk_level;
        risk_score := risk_score;
        risk_details :=
          Some {| current_level := current_level;
                  historical_average := mean_level;
                  trend := trend_name recent_trend;
                  days_to_drought := days_to_drought |} |},
     db1).

(** [assess_drought_risk]: the rows are asked for with [days=90]. *)
Definition assess_drought_risk (db : RelDb) (station_id sensor_id : string)
  : RiskAssessment * RelDb :=
  Py.try_except
    (let* recent_data :=
       _get_recent_data rt influx station_id sensor_id [("days", 90%Z)] in
     Py.Ok (assess_recent_data db station_id recent_data))
    (fun _ => (unknown_risk, db)).

(** [_get_rainfall_data(self, station_id, days=30)] *)
Definition _get_rainfall_data (station_id : string) (kwargs : Py.keywords)
  : Py.result (list (datetime * R)) :=
  let* kw := Py.bind_keywords "_get_rainfall_data" [("days", 30%Z)] kwargs in
  Py.Ok
    (Py.try_except
       (let start_time := (now rt - Py.get_keyword "days" kw * seconds_per_day)%Z in
        query_weather_field influx station_id "rainfall_mm" start_time)
       (fun _ => [])).

(** [_store_recharge_estimate] *)
Definition _store_recharge_estimate (db : RelDb) (station_id : string)
    (recharge rainfall level_change : R) : RelDb :=
  add_estimate
    {| re_station_id := station_id;
       re_date := now rt;
       re_recharge_mm := recharge;
       re_method := "water_balance";
       re_rainfall_mm := rainfall;
       re_pumping_mm := 0;
       re_evapotranspiration_mm := 0;
       re_confidence_score := 0.7 |}
    db.

(** [estimate_recharge] from line 537 on: the estimate from the level rows
    and the rainfall rows. *)
Definition recharge_from_data (db : RelDb) (station_id : string) (days : Z)
    (water_data : list LevelRow) (rainfall_data : list (datetime * R))
  : RechargeResult * RelDb :=
  if Py.not_ water_data || (length water_data <? 7)%nat
  then ({| recharge_mm := 0; method := "insufficient_data"; recharge_details := None |}, db)
  else
    let water_levels := map lv_water_level water_data in
    let level_change := List.last water_levels 0 - List.hd 0 water_levels in
    let total_rainfall :=
      if Py.not_ rainfall_data then 0 else Np.sum (map snd rainfall_data) in
    let recharge := Rmax 0 (level_change * 1000) + total_rainfall in
    let db1 := _store_recharge_estimate db station_id recharge total_rainfall level_change in
    ({| recharge_mm := recharge;
        method := "water_balance";
        recharge_details :=
          Some {| rainfall_mm := total_rainfall;
                  level_change_m := level_change;
                  period_days := days |} |},
     db1).

(** [estimate_recharge(self, station_id, days=30)]: the level rows are
    asked for with [days=days]. *)
Definition estimate_recharge (db : RelDb) (station_id : string) (days : Z)
  : RechargeResult * RelDb :=
  Py.try_except
    (let* water_data :=
       _get_recent_data rt influx station_id "water_level" [("days", days)] in
     let* rainfall_data := _get_rainfall_data station_id [("days", days)] in
     Py.Ok (recharge_from_data db station_id days water_data rainfall_data))
    (fun _ => ({| recharge_mm := 0; method := "error"; recharge_details := None |}, db)).

End Estimators.

(** ** A bench for the examples *)

Definition empty_db : RelDb :=
  {| anomaly_detections := [];
     alerts := [];
     water_level_forecasts := [];
     drought_risk_assessments := [];
     recharge_estimates := [] |}.

(** A runtime whose clock stands at 2024-01-01T00:00:00Z and which reads
    that one timestamp. *)
Definition demo_runtime : Runtime :=
  {| now := 1704067200%Z;
     isoformat := fun _ => "2024-01-01T00:00:00+00:00";
     fromisoformat := fun s =>
       if String.eqb s "2024-01-01T00:00:00+00:00"
       then Py.Ok {| wall_clock := 1704067200%Z; utcoffset := Some 0%Z |}
       else Py.Raise (Py.Exn Py.ValueError "Invalid isoformat string");
     format_2f := fun _ => "z";
     makedirs := fun _ => Py.Ok tt;
     creatable := fun _ => true |}.

(** A store that holds one series of hourly levels and one of rainfall
    readings, whatever the station and the sensor. *)
Definition hourly {A : Type} (values : list A) : list (datetime * A) :=
  combine (map (fun i => (3600 * Z.of_nat i)%Z) (seq 0 (length values))) values.

Definition demo_store (levels rainfall : list R) : InfluxStore :=
  {| query_sensor_data := fun _ _ _ => Py.Ok (hourly levels);
     query_sensor_values := fun _ _ _ => Py.Ok [];
     query_weather_data := fun _ _ => Py.Ok [];
     query_weather_field := fun _ _ _ => Py.Ok (hourly rainfall) |}.

(** A store that answers the data processor with one series of hourly
    values, whatever the station and the sensor. *)
Definition window_store (values : list float) : InfluxStore :=
  {| query_sensor_data := fun _ _ _ => Py.Ok [];
     query_sensor_values := fun _ _ _ => Py.Ok (hourly values);
     query_weather_data := fun _ _ => Py.Ok [];
     query_weather_field := fun _ _ _ => Py.Ok [] |}.

Definition demo_payload (v : float) : SensorPayload :=
  {| p_timestamp := "2024-01-01T00:00:00Z"; p_value := v; p_unit := "meters" |}.

(** Ten readings with mean 1 and standard deviation 1, and ten readings
    that do not vary at all. *)
Definition demo_window : list float := [0; 0; 0; 0; 0; 2; 2; 2; 2; 2]%float.

Definition constant_window : list float := repeat 0.3%float 10.

(** The rows [_get_recent_data] makes of a series of the bench store. *)
Definition level_rows (levels : list R) : list LevelRow :=
  map (fun rec => {| lv_timestamp := fst rec; lv_water_level := snd rec |})
    (hourly levels).

(** Seven levels that rise by 0.01 m from the first to the last. *)
Definition rising_levels : list R := [0; 0; 0; 0; 0; 0; 0.01].

(** The three signals of the drought-risk score, each on its own. *)
Definition level_signal (current_level mean_level std_level : R) : R :=
  if Rltb current_level (mean_level - std_level) then 0.3
  else if Rltb current_level mean_level then 0.1 else 0.

Definition trend_signal (recent_trend : R) : R :=
  if Rltb recent_trend (-0.01) then 0.2
  else if Rltb recent_trend (-0.005) then 0.1 else 0.

Definition minimum_signal (current_level min_level : R) : R :=
  if Rltb current_level (min_level * 1.1) then 0.3
  else if Rltb current_level (min_level * 1.2) then 0.1 else 0.

Ltac real_cases :=
  unfold Rltb, Rleb, Reqb;
  repeat match goal with
         | |- context [Rlt_dec ?a ?b] => destruct (Rlt_dec a b)
         | |- context [Rle_dec ?a ?b] => destruct (Rle_dec a b)
         | |- context [Req_dec_T ?a ?b] => destruct (Req_dec_T a b)
         end.

(** The dict of the analyser after a run over rows of timestamp and value,
    and the same stated from the rows alone. *)
Definition snoc_key (ks : list Z) (k : Z) : list Z :=
  if existsb (Z.eqb k) ks then ks else ks ++ [k].

Definition append_rows (key : pydatetime -> Z) (d : groups)
    (tvs : list (pydatetime * float)) : groups :=
  fold_left (fun d tv => group_append (key (fst tv)) (snd tv) d) tvs d.

Definition rows_at (key : pydatetime -> Z) (k : Z) (tvs : list (pydatetime * float))
  : list float :=
  map snd (List.filter (fun tv => Z.eqb (key (fst tv)) k) tvs).

Definition grouped (key : pydatetime -> Z) (tvs : list (pydatetime * float)) : groups :=
  map (fun k => (k, rows_at key k tvs)) (distinct (map (fun tv => key (fst tv)) tvs)).

(** A timestamp in UTC, so many seconds after 1970-01-01T00:00:00. *)
Definition utc (seconds : Z) : pydatetime :=
  {| wall_clock := seconds; utcoffset := Some 0%Z |}.

(** Twenty-four hourly readings, low in the first half of the day and
    high in the second; and twenty-four hourly readings of 0.1. *)
Definition day_values : list float :=
  [0; 0; 0; 0; 0; 0; 0; 0; 0; 0; 0; 0; 2; 2; 2; 2; 2; 2; 2; 2; 2; 2; 2; 2]%float.

Definition day_timestamps : list pydatetime :=
  map (fun i => utc (3600 * Z.of_nat i)) (seq 0 24).

Definition steady_values : list float := repeat 0.1%float 24.

(** Thirty-two readings of 0.1 on twelve hours of the day over three days:
    three readings on each of the first eight hours, two on each of the
    other four. *)
Definition uneven_values : list float := repeat 0.1%float 32.

Definition uneven_timestamps : list pydatetime :=
  map (fun i => utc (3600 * Z.of_nat (i mod 12) + 86400 * Z.of_nat (i / 12))) (seq 0 32).

(** The number in the column ['water_level'] of a training row, 0 where
    there is none. *)
Definition water_level_of (row : TrainRow) : R :=
  match get_field "water_level" row with
  | Some (CNum x) => x
  | _ => 0
  end.

(** The field of a timestamp in the dict of weather dicts. *)
Definition field_of (t : Z) (f : string) (d : list (Z * list (string * R))) : option R :=
  match lookup_ts t d with
  | Some fs => get_field f fs
  | None => None
  end.

(** The value the store gave last for a weather field at a timestamp. *)
Definition weather_value (timestamp : datetime) (field : string)
    (weather_result : list (datetime * (string * R))) : option R :=
  fold_left (fun acc rec =>
               if (timestamp =? fst rec)%Z && String.eqb field (fst (snd rec))
               then Some (snd (snd rec)) else acc)
            weather_result None.

(** The rows [_get_training_data] returns for [days=365]: the store's
    levels of the last year by timestamp, each updated with its weather
    fields, or no row when a query fails. *)
Definition training_rows (rt : Runtime) (influx : InfluxStore)
    (station_id sensor_id : string) : list TrainRow :=
  Py.try_except
    (let start_time := (now rt - 365 * seconds_per_day)%Z in
     let* sensor_result := query_sensor_data influx station_id sensor_id start_time in
     let* weather_result := query_weather_data influx station_id start_time in
     let sensor_data :=
       fold_left (fun d rec => upsert (fst rec) (snd rec) d) sensor_result [] in
     let weather_data := fold_left (fun d rec => add_weather rec d) weather_result [] in
     Py.Ok (map (fun kv => data_point (fst kv) (snd kv) weather_data) sensor_data))
    (fun _ => []).

(** A learning bench: the scaler is the identity, the regressor predicts
    0, the feature table has one row per training row, and the features of a
    prediction need a context of at most three rows. *)
Definition demo_learning : Learning unit unit :=
  {| scaler_fit := fun _ => Py.Ok tt;
     scaler_transform := fun _ X => Py.Ok X;
     regressor_fit := fun _ _ => Py.Ok tt;
     regressor_predict := fun _ X => Py.Ok (map (fun _ => 0) X);
     build_feature_table := fun data =>
       Py.Ok (map (fun r => ([water_level_of r], water_level_of r)) data);
     prediction_features := fun data _ =>
       if (length data <=? 3)%nat then Py.Ok [INR (length data)]
       else Py.Raise (Py.Exn Py.AttributeError "dayofyear") |}.

Definition empty_service : Service unit unit :=
  {| models := ∅; scalers := ∅; disk := ∅ |}.

(** A hundred hourly levels of 1 m. *)
Definition flat_levels : list R := repeat 1 100.

(** The feature table of the bench for the flat levels. *)
Definition flat_table : list (FeatureRow * R) := repeat ([1], 1) 100.

(** The band of a forecast point is symmetric about the prediction, a
    tenth of its magnitude on either side. *)
Definition symmetric_band (p : ForecastPoint) : Prop :=
  confidence_upper p - predicted_level p = 0.1 * Rabs (predicted_level p)
  /\ predicted_level p - confidence_lower p = 0.1 * Rabs (predicted_level p).

(** The context row [predict_water_level] appends for a forecast point. *)
Definition context_row (rt : Runtime) (p : ForecastPoint) : LevelRow :=
  {| lv_timestamp := (now rt + horizon_hours p * seconds_per_hour)%Z;
     lv_water_level := predicted_level p |}.

(** A service that holds a fitted pair for S1/W1 in memory. *)
Definition trained_service : Service unit unit :=
  {| models := {[ "S1_W1" := ORegressor tt ]};
     scalers := {[ "S1_W1" := OScaler tt ]};
     disk := ∅ |}.

(** Four weeks of daily readings at midnight, high on the first three days
    of each week of the series and low on the other four. *)
Definition week_values : list float :=
  [2; 2; 2; 0; 0; 0; 0; 2; 2; 2; 0; 0; 0; 0;
   2; 2; 2; 0; 0; 0; 0; 2; 2; 2; 0; 0; 0; 0]%float.

Definition week_timestamps : list pydatetime :=
  map (fun i => utc (86400 * Z.of_nat i)) (seq 0 28).

(** A stored forecast row agrees with a returned point: it is dated with
    the datetime the point's timestamp parses to, and carries the point's
    level and band. *)
Definition row_of_point (rt : Runtime) (station_id : string) (p : ForecastPoint)
    (r : WaterLevelForecast) : Prop :=
  wf_station_id r = station_id
  /\ fromisoformat rt (Py.replace_Z (fp_timestamp p)) = Py.Ok (wf_forecast_date r)
  /\ wf_predicted_level r = predicted_level p
  /\ wf_confidence_interval_lower r = confidence_lower p
  /\ wf_confidence_interval_upper r = confidence_upper p
  /\ wf_model_name r = "random_forest"
  /\ wf_model_version r = "1.0"
  /\ wf_forecast_horizon_days r = IZR (horizon_hours p) / 24.

(** A learning bench whose feature code for predictions raises on every
    call. *)
Definition featureless_learning : Learning unit unit :=
  {| scaler_fit := fun _ => Py.Ok tt;
     scaler_transform := fun _ X => Py.Ok X;
     regressor_fit := fun _ _ => Py.Ok tt;
     regressor_predict := fun _ X => Py.Ok (map (fun _ => 0) X);
     build_feature_table := fun data =>
       Py.Ok (map (fun r => ([water_level_of r], water_level_of r)) data);
     prediction_features := fun _ _ =>
       Py.Raise (Py.Exn Py.AttributeError
                   "'datetime.datetime' object has no attribute 'dayofyear'") |}.

(** ** [api/v1/endpoints/analytics.py]: the endpoints over the forecasting service *)

(** How a request handler ends: it returns a body, or
    [raise HTTPException(status_code, detail)]. *)
Inductive http (A : Type) : Type :=
| Respond (body : A)
| HTTPException (status_code : Z) (detail : string).
Arguments Respond {A} body.
Arguments HTTPException {A} status_code detail.

(** [result.get('message', default)] on the dict of a training result:
    only the 'error' result has the key. *)
Definition get_message (result : TrainResult) (default : string) : string :=
  match result with
  | Error message => message
  | _ => default
  end.

(** [result.get('mae')] and the like: [None] where the key is missing. *)
Definition get_mae (result : TrainResult) : option R :=
  match result with Success mae _ _ _ => Some mae | _ => None end.
Definition get_rmse (result : TrainResult) : option R :=
  match result with Success _ rmse _ _ => Some rmse | _ => None end.
Definition get_training_samples (result : TrainResult) : option nat :=
  match result with Success _ _ n _ => Some n | _ => None end.
Definition get_test_samples (result : TrainResult) : option nat :=
  match result with Success _ _ _ n => Some n | _ => None end.

(** The body [train_forecasting_model] returns. *)
Record TrainingMetrics : Type := {
  tm_mae : option R;
  tm_rmse : option R;
  tm_training_samples : option nat;
  tm_test_samples : option nat;
}.

Record TrainingResponse : Type := {
  resp_message : string;
  resp_station_id : string;
  resp_sensor_id : string;
  training_metrics : TrainingMetrics;
}.

Section AnalyticsEndpoints.

Context {Regressor Scaler : Type} {L : Learning Regressor Scaler}.
Variable rt : Runtime.
Variable influx : InfluxStore.
Variable module_globals : list string.

(** [MLForecastingService()]: every handler makes a service object of its
    own, with an empty registry; the artifact directory is what is on disk. *)
Definition new_MLForecastingService (files : gmap string (pyobj Regressor Scaler))
  : Service Regressor Scaler :=
  {| models := ∅; scalers := ∅; disk := files |}.

(** [get_water_level_forecast]: the result, the artifact directory and the
    relational store after the request. *)
Definition get_water_level_forecast (files : gmap string (pyobj Regressor Scaler))
    (db : RelDb) (station_id sensor_id : string) (horizon_days : Z)
  : http (list ForecastPoint) * gmap string (pyobj Regressor Scaler) * RelDb :=
  let ml_service := new_MLForecastingService files in
  let '(model_loaded, s1) := load_model module_globals ml_service station_id sensor_id in
  let '(raised, s2) :=
    if negb model_loaded then
      let '(training_result, s2) :=
        train_water_level_model rt influx s1 station_id sensor_id in
      if negb (String.eqb (status training_result) "success")
      then (Some ("Failed to train model: "
                  ++ get_message training_result "Unknown error")%string, s2)
      else (None, s2)
    else (None, s1) in
  match raised with
  | Some detail => (HTTPException 400 detail, disk s2, db)
  | None =>
      let horizon_hours := (horizon_days * 24)%Z in
      let '(predictions, s3, db1) :=
        predict_water_level rt influx module_globals s2 db station_id sensor_id
          horizon_hours in
      if Py.not_ predictions
      then (HTTPException 404 "No forecast data available", disk s3, db1)
      else (Respond predictions, disk s3, db1)
  end.

(** [get_drought_risk_assessment]; the assessment is a dict with two keys
    at least, so [not assessment] is false. *)
Definition get_drought_risk_assessment (db : RelDb) (station_id sensor_id : string)
  : http RiskAssessment * RelDb :=
  let '(assessment, db1) := assess_drought_risk rt influx db station_id sensor_id in
  if String.eqb (risk_level assessment) "unknown"
  then (HTTPException 404 "Drought risk assessment not available", db1)
  else (Respond assessment, db1).

(** [get_recharge_estimate] *)
Definition get_recharge_estimate (db : RelDb) (station_id : string) (days : Z)
  : http RechargeResult * RelDb :=
  let '(estimate, db1) := estimate_recharge rt influx db station_id days in
  if String.eqb (method estimate) "error"
  then (HTTPException 404 "Recharge estimate not available", db1)
  else (Respond estimate, db1).

(** [train_forecasting_model] *)
Definition train_forecasting_model (files : gmap string (pyobj Regressor Scaler))
    (station_id sensor_id : string) (force_retrain : bool)
  : http TrainingResponse * gmap string (pyobj Regressor Scaler) :=
  let ml_service := new_MLForecastingService files in
  let '(model_exists, s1) :=
    if negb force_retrain
    then load_model module_globals ml_service station_id sensor_id
    else (false, ml_service) in
  if model_exists
  then (HTTPException 400 "Model already exists. Use force_retrain=true to retrain.",
        disk s1)
  else
    let '(result, s2) := train_water_level_model rt influx s1 station_id sensor_id in
    if negb (String.eqb (status result) "success")
    then (HTTPException 400
            ("Model training failed: " ++ get_message result "Unknown error")%string,
          disk s2)
    else (Respond {| resp_message := "Model trained successfully";
                     resp_station_id := station_id;
                     resp_sensor_id := sensor_id;
                     training_metrics :=
                       {| tm_mae := get_mae result;
                          tm_rmse := get_rmse result;
                          tm_training_samples := get_training_samples result;
                          tm_test_samples := get_test_samples result |} |},
          disk s2).

End AnalyticsEndpoints.

(** ** [DataProcessor]: batches of readings *)

(** The names bound at module level of [data_processing.py]: its imports,
    [logger] and the class.  [Point], which the three functions that write to
    the time-series store call, is bound nowhere. *)
Definition data_processing_globals : list string :=
  ["asyncio"; "logging"; "np"; "pd"; "datetime"; "timedelta"; "Dict"; "List";
   "Optional"; "Any"; "Tuple"; "Session"; "get_db"; "get_influx_client";
   "AnomalyDetection"; "Alert"; "SensorReading"; "MLForecastingService";
   "logger"; "DataProcessor"].

(** A reading of a batch: a dict with the keys [station_id], [sensor_id],
    [timestamp] and [value], the ids and the timestamp strings and the value
    a float. *)
Record BatchReading : Type := {
  b_station_id : string;
  b_sensor_id : string;
  b_timestamp : string;
  b_value : float;
}.

(** A point handed to the time-series store. *)
Record InfluxPoint : Type := {
  measurement : string;
  point_tags : list (string * string);
  point_fields : list (string * float);
  point_time : datetime;
}.

(** The hash [_update_sensor_health] keeps of a sensor. *)
Record SensorHealth : Type := {
  data_availability : float;
  value_range : float;
  value_std : float;
  last_update : string;
  updated_at : string;
}.

(** What the batch functions write to: the points accepted by the
    time-series store, and the hashes of the cache with their expiry in
    seconds. *)
Record Stores : Type := {
  written : list InfluxPoint;
  cache : gmap string SensorHealth;
  cache_expiry : gmap string Z;
}.

(** [s.split(sep)] for a separator of one character. *)
Fixpoint split (sep : ascii) (s : string) : list string :=
  match s with
  | EmptyString => [EmptyString]
  | String c rest =>
      if Ascii.eqb c sep then EmptyString :: split sep rest
      else
        match split sep rest with
        | piece :: pieces => String c piece :: pieces
        | [] => [String c EmptyString]
        end
  end.

(** [f"{data['station_id']}_{data['sensor_id']}"] *)
Definition batch_key (data : BatchReading) : string :=
  (b_station_id data ++ "_" ++ b_sensor_id data)%string.

(** [if key not in grouped_data: grouped_data[key] = []] followed by
    [grouped_data[key].append(data)], the dict in insertion order. *)
Fixpoint grouped_append (key : string) (data : BatchReading)
    (grouped_data : list (string * list BatchReading))
  : list (string * list BatchReading) :=
  match grouped_data with
  | [] => [(key, [data])]
  | (key', group_data) :: rest =>
      if String.eqb key key' then (key', group_data ++ [data]) :: rest
      else (key', group_data) :: grouped_append key data rest
  end.

Definition group_batch (data_batch : list BatchReading)
  : list (string * list BatchReading) :=
  fold_left (fun grouped_data data => grouped_append (batch_key data) data grouped_data)
    data_batch [].

(** [data.sort(key=lambda x: x['timestamp'])]: a stable sort by the
    timestamp strings, compared as Python compares strings. *)
Fixpoint insert_by_timestamp (d : BatchReading) (sorted : list BatchReading)
  : list BatchReading :=
  match sorted with
  | [] => [d]
  | x :: rest =>
      if String.ltb (b_timestamp d) (b_timestamp x) then d :: x :: rest
      else x :: insert_by_timestamp d rest
  end.

Definition sort_by_timestamp (data : list BatchReading) : list BatchReading :=
  fold_left (fun sorted d => insert_by_timestamp d sorted) data [].

(** The builtins [max] and [min] of a list of floats: the first element,
    replaced by each later one that compares greater (less).  The calls
    below are guarded by a non-emptiness test. *)
Definition py_max (l : list float) : float :=
  match l with
  | [] => 0%float
  | x :: rest => fold_left (fun m v => if PrimFloat.ltb m v then v else m) rest x
  end.

Definition py_min (l : list float) : float :=
  match l with
  | [] => 0%float
  | x :: rest => fold_left (fun m v => if PrimFloat.ltb v m then v else m) rest x
  end.

(** [float(n)] of an integer *)
Definition float_of_Z (z : Z) : float :=
  if (z <? 0)%Z then (- PrimFloat.of_uint63 (Uint63.of_Z (- z)))%float
  else PrimFloat.of_uint63 (Uint63.of_Z z).

(** [(a - b).total_seconds()]: both datetimes carry an offset or neither
    does, else the subtraction raises.  Fractions of a second are not
    modelled. *)
Definition total_seconds_between (a b : pydatetime) : Py.result float :=
  match utcoffset a, utcoffset b with
  | Some oa, Some ob =>
      Py.Ok (float_of_Z ((wall_clock a - oa) - (wall_clock b - ob)))
  | None, None => Py.Ok (float_of_Z (wall_clock a - wall_clock b))
  | _, _ =>
      Py.Raise (Py.Exn Py.TypeError
                  "can't subtract offset-naive and offset-aware datetimes")
  end.

(** The dict [_calculate_trend] returns; [None] stands for the empty dict. *)
Record Trend : Type := {
  trend_slope : float;
  trend_correlation : float;
  rate_of_change_per_hour : float;
  trend_direction : string;
}.

(** [trend.get('slope', 0)] and the like *)
Definition get_slope (trend : option Trend) : float :=
  match trend with Some t => trend_slope t | None => 0%float end.
Definition get_correlation (trend : option Trend) : float :=
  match trend with Some t => trend_correlation t | None => 0%float end.
Definition get_rate_of_change_per_hour (trend : option Trend) : float :=
  match trend with Some t => rate_of_change_per_hour t | None => 0%float end.

Section BatchProcessing.

Variable rt : Runtime.
Variable module_globals : list string.

(** [write_api.write(bucket=..., record=point)]: the store accepts the
    point or the call raises. *)
Variable write_api_write : InfluxPoint -> Py.result unit.

(** The answer to the Flux query of [downsample_data]: the window means
    of the last seven days, by target interval. *)
Variable query_downsampled :
  string -> string -> string -> datetime -> datetime
  -> Py.result (list (datetime * float)).

(** [np.polyfit(x, y, 1)[0]] and [np.corrcoef(x, y)[0, 1]]: numpy's least
    squares and correlation routines, whose doubles are taken as they come;
    the least squares may raise (on values that are not finite). *)
Variable np_polyfit_slope : list float -> list float -> Py.result float.
Variable np_corrcoef : list float -> list float -> float.

Definition add_point (st : Stores) (point : InfluxPoint) : Stores :=
  {| written := written st ++ [point];
     cache := cache st;
     cache_expiry := cache_expiry st |}.

(** [DataProcessor._calculate_trend]; an index into an empty list of
    timestamps and a subtraction that raises end in the empty dict. *)
Definition _calculate_trend (values : list float) (timestamps : list pydatetime)
  : option Trend :=
  Py.try_except
    (if (length values <? 2)%nat then Py.Ok None
     else
       let x := map Np64.of_nat (seq 0 (length values)) in
       let y := values in
       let* slope := np_polyfit_slope x y in
       let correlation := np_corrcoef x y in
       match timestamps with
       | t_first :: _ =>
           let t_last := List.last timestamps t_first in
           let* seconds := total_seconds_between t_last t_first in
           let time_diff := (seconds / 3600)%float in
           let rate_of_change :=
             if PrimFloat.ltb 0 time_diff
             then ((List.last values 0 - List.hd 0 values) / time_diff)%float
             else 0%float in
           Py.Ok (Some {| trend_slope := slope;
                          trend_correlation := correlation;
                          rate_of_change_per_hour := rate_of_change;
                          trend_direction :=
                            if PrimFloat.ltb 0 slope then "increasing"
                            else if PrimFloat.ltb slope 0 then "decreasing"
                            else "stable" |})
       | [] => Py.Raise (Py.Exn Py.IndexError "list index out of range")
       end)
    (fun _ => None).

(** [DataProcessor._store_trend_data] *)
Definition _store_trend_data (st : Stores) (station_id sensor_id : string)
    (trend : option Trend) : Stores :=
  Py.try_except
    (let* _ := lookup_global module_globals "Point" in
     let point :=
       {| measurement := "trend_data";
          point_tags := [("station_id", station_id); ("sensor_id", sensor_id)];
          point_fields := [("slope", get_slope trend);
                           ("correlation", get_correlation trend);
                           ("rate_of_change_per_hour", get_rate_of_change_per_hour trend)];
          point_time := now rt |} in
     let* _ := write_api_write point in
     Py.Ok (add_point st point))
    (fun _ => st).

(** [DataProcessor._store_pattern_data]: the points written before a
    call raises stay written. *)
Fixpoint _store_pattern_data (st : Stores) (station_id sensor_id : string)
    (patterns : list Pattern) : Stores :=
  match patterns with
  | [] => st
  | pattern :: rest =>
      match
        (let* _ := lookup_global module_globals "Point" in
         let point :=
           {| measurement := "pattern_data";
              point_tags := [("station_id", station_id); ("sensor_id", sensor_id);
                             ("pattern_type", pattern_type pattern)];
              point_fields := [("variance", pat_variance pattern);
                               ("confidence", pat_confidence pattern)];
              point_time := now rt |} in
         let* _ := write_api_write point in
         Py.Ok (add_point st point))
      with
      | Py.Ok st1 => _store_pattern_data st1 station_id sensor_id rest
      | Py.Raise _ => st
      end
  end.

(** [f"sensor_health:{station_id}:{sensor_id}"] *)
Definition health_key (station_id sensor_id : string) : string :=
  ("sensor_health:" ++ station_id ++ ":" ++ sensor_id)%string.

(** [DataProcessor._update_sensor_health]: the metrics are computed, the
    client is asked for with [get_redis_client()] - a name of the module's
    globals - and the five fields are set with [hset], to [expire] after 24
    hours.  Whatever raises is logged and dropped. *)
Definition _update_sensor_health (st : Stores) (station_id sensor_id : string)
    (data : list BatchReading) : Stores :=
  Py.try_except
    (let values := map b_value data in
     let health_metrics :=
       {| data_availability := (Np64.of_nat (length data) / 24)%float;
          value_range :=
            if Py.not_ values then 0%float else (py_max values - py_min values)%float;
          value_std := if (1 <? length values)%nat then Np64.std values else 0%float;
          last_update :=
            match data with
            | [] => EmptyString
            | _ => b_timestamp (List.last data {| b_station_id := EmptyString;
                                                  b_sensor_id := EmptyString;
                                                  b_timestamp := EmptyString;
                                                  b_value := 0%float |})
            end;
          updated_at := isoformat rt (now rt) |} in
     let* _ := lookup_global module_globals "get_redis_client" in
     let health_key := health_key station_id sensor_id in
     Py.Ok {| written := written st;
              cache := <[health_key := health_metrics]> (cache st);
              cache_expiry := <[health_key := 86400%Z]> (cache_expiry st) |})
    (fun _ => st).

(** [[datetime.fromisoformat(d['timestamp'].replace('Z', '+00:00')) for d in data]] *)
Fixpoint parse_timestamps (data : list BatchReading) : Py.result (list pydatetime) :=
  match data with
  | [] => Py.Ok []
  | d :: rest =>
      let* t := fromisoformat rt (Py.replace_Z (b_timestamp d)) in
      let* ts := parse_timestamps rest in
      Py.Ok (t :: ts)
  end.

(** [DataProcessor._process_sensor_group]: the list is sorted in place, so
    the health update sees it sorted. *)
Definition _process_sensor_group (st : Stores) (station_id sensor_id : string)
    (data : list BatchReading) : Stores :=
  let data := sort_by_timestamp data in
  let values := map b_value data in
  match parse_timestamps data with
  | Py.Raise _ => st
  | Py.Ok timestamps =>
      let st1 :=
        if (1 <? length values)%nat
        then _store_trend_data st station_id sensor_id (_calculate_trend values timestamps)
        else st in
      let patterns := _detect_patterns values timestamps in
      let st2 :=
        if Py.not_ patterns then st1
        else _store_pattern_data st1 station_id sensor_id patterns in
      _update_sensor_health st2 station_id sensor_id data
  end.

(** The second loop of [process_batch_data]: a key that does not split
    into two parts raises [ValueError], which ends the loop; the groups
    before it stay processed. *)
Fixpoint process_groups (st : Stores) (grouped_data : list (string * list BatchReading))
  : Stores :=
  match grouped_data with
  | [] => st
  | (key, group_data) :: rest =>
      match split "_" key with
      | [station_id; sensor_id] =>
          process_groups (_process_sensor_group st station_id sensor_id group_data) rest
      | _ => st
      end
  end.

(** [DataProcessor.process_batch_data] *)
Definition process_batch_data (st : Stores) (data_batch : list BatchReading) : Stores :=
  process_groups st (group_batch data_batch).

(** The loop of [downsample_data] over the records of the answer. *)
Fixpoint write_downsampled (st : Stores) (station_id sensor_id target_interval : string)
    (records : list (datetime * float)) : Stores :=
  match records with
  | [] => st
  | record :: rest =>
      match
        (let* _ := lookup_global module_globals "Point" in
         let point :=
           {| measurement := "sensor_data_downsampled";
              point_tags := [("station_id", station_id); ("sensor_id", sensor_id);
                             ("interval", target_interval)];
              point_fields := [("value", snd record)];
              point_time := fst record |} in
         let* _ := write_api_write point in
         Py.Ok (add_point st point))
      with
      | Py.Ok st1 => write_downsampled st1 station_id sensor_id target_interval rest
      | Py.Raise _ => st
      end
  end.

(** [DataProcessor.downsample_data] *)
Definition downsample_data (st : Stores) (station_id sensor_id : string)
    (source_interval target_interval : string) : Stores :=
  let end_time := now rt in
  let start_time := (end_time - 7 * seconds_per_day)%Z in
  match query_downsampled station_id sensor_id target_interval start_time end_time with
  | Py.Raise _ => st
  | Py.Ok result => write_downsampled st station_id sensor_id target_interval result
  end.

End BatchProcessing.

(** The readings of a batch that are the first of their sensor, in batch
    order; the readings of the sensor of a reading; and the readings before
    the first one with an underscore in an id. *)
Definition same_sensor (d d' : BatchReading) : bool :=
  String.eqb (b_station_id d') (b_station_id d)
  && String.eqb (b_sensor_id d') (b_sensor_id d).

Fixpoint first_readings (data_batch : list BatchReading) : list BatchReading :=
  match data_batch with
  | [] => []
  | d :: rest =>
      d :: List.filter (fun d' => negb (same_sensor d d')) (first_readings rest)
  end.

Fixpoint has_underscore (s : string) : bool :=
  match s with
  | EmptyString => false
  | String c rest => Ascii.eqb c "_" || has_underscore rest
  end.

Definition plain_ids (d : BatchReading) : bool :=
  negb (has_underscore (b_station_id d)) && negb (has_underscore (b_sensor_id d)).

Fixpoint plain_prefix (data_batch : list BatchReading) : list BatchReading :=
  match data_batch with
  | [] => []
  | d :: rest => if plain_ids d then d :: plain_prefix rest else []
  end.

(** The keys of a batch in order of first appearance, the readings filed
    under a key, and the dict the first loop of [process_batch_data] builds,
    stated without the loop. *)
Fixpoint distinct_keys (ks : list string) : list string :=
  match ks with
  | [] => []
  | k :: ks' => k :: List.filter (fun k' => negb (String.eqb k' k)) (distinct_keys ks')
  end.

Definition readings_of_key (k : string) (data_batch : list BatchReading)
  : list BatchReading :=
  List.filter (fun d => String.eqb (batch_key d) k) data_batch.

Definition grouped_batch (data_batch : list BatchReading)
  : list (string * list BatchReading) :=
  map (fun k => (k, readings_of_key k data_batch))
    (distinct_keys (map batch_key data_batch)).

(** Two readings for the bench, both stamped with the one timestamp the
    bench runtime reads. *)
Definition bench_reading (value : float) : BatchReading :=
  {| b_station_id := "S1";
     b_sensor_id := "W1";
     b_timestamp := "2024-01-01T00:00:00+00:00";
     b_value := value |}.

Definition empty_stores : Stores :=
  {| written := []; cache := ∅; cache_expiry := ∅ |}.

(** A store that accepts every point. *)
Definition accept_point (point : InfluxPoint) : Py.result unit := Py.Ok tt.

(** Stand-ins for numpy's least squares and correlation on the bench. *)
Definition bench_polyfit (x y : list float) : Py.result float := Py.Ok 0%float.
Definition bench_corrcoef (x y : list float) : float := 0%float.

(** * Properties *)

(** ** Comparisons *)

Lemma Rltb_true x y : Rltb x y = true <-> x < y.
Proof. unfold Rltb. destruct (Rlt_dec x y); split; intros; congruence || assumption. Qed.

Lemma Rltb_false x y : Rltb x y = false <-> ~ x < y.
Proof. unfold Rltb. destruct (Rlt_dec x y); split; intros; congruence || tauto. Qed.

Lemma Rleb_true x y : Rleb x y = true <-> x <= y.
Proof. unfold Rleb. destruct (Rle_dec x y); split; intros; congruence || assumption. Qed.

Lemma Rleb_false x y : Rleb x y = false <-> ~ x <= y.
Proof. unfold Rleb. destruct (Rle_dec x y); split; intros; congruence || tauto. Qed.

Lemma Reqb_true x y : Reqb x y = true <-> x = y.
Proof. unfold Reqb. destruct (Req_dec_T x y); split; intros; congruence || assumption. Qed.

Lemma Reqb_false x y : Reqb x y = false <-> x <> y.
Proof. unfold Reqb. destruct (Req_dec_T x y); split; intros; congruence || tauto. Qed.

Lemma float_ltb_leb (x y : float) : PrimFloat.ltb x y = true -> PrimFloat.leb x y = true.
Proof.
  rewrite FloatAxioms.ltb_spec, FloatAxioms.leb_spec.
  unfold SpecFloat.SFltb, SpecFloat.SFleb.
  destruct (SpecFloat.SFcompare _ _) as [[]|]; auto.
Qed.

(** ** The anomaly detector: a record above three sigmas *)

Section AnomalyDetector.

Variable rt : Runtime.
Variable influx : InfluxStore.

Lemma _get_historical_data_days30 station_id sensor_id :
  _get_historical_data rt influx station_id sensor_id [("days", 30%Z)]
  = Py.Ok (historical_window rt influx station_id sensor_id).
Proof. reflexivity. Qed.

Lemma app_singleton_neq {A : Type} (l : list A) (a : A) : l ++ [a] <> l.
Proof.
  intros H. apply (f_equal (@length A)) in H.
  rewrite length_app in H. simpl in H. lia.
Qed.

Lemma app_singleton_inj {A : Type} (l : list A) (a b : A) :
  l ++ [a] = l ++ [b] -> a = b.
Proof. intros H. apply app_inv_head in H. congruence. Qed.

Lemma not_short_window {A : Type} (l : list A) :
  Py.not_ l || (length l <? 10)%nat = false <-> (10 <= length l)%nat.
Proof.
  destruct l as [|x l]; simpl.
  - split; [discriminate | lia].
  - destruct (Nat.ltb_spec (S (length l)) 10); split; intros; try lia; congruence.
Qed.

Lemma _create_anomaly_alert_parsed db station_id sensor_id data z mean_val std_val ts :
  fromisoformat rt (Py.replace_Z (p_timestamp data)) = Py.Ok ts ->
  exists a,
    anomaly_detections
      (_create_anomaly_alert rt db station_id sensor_id data z mean_val std_val)
    = anomaly_detections db ++ [a]
    /\ an_timestamp a = ts
    /\ an_severity a = (if PrimFloat.ltb 5 z then "high" else "medium")
    /\ an_anomaly_score a = z
    /\ an_expected_value a = mean_val
    /\ an_actual_value a = p_value data.
Proof.
  intros Hts. unfold _create_anomaly_alert. rewrite Hts. simpl.
  eexists. split; [reflexivity|]. simpl. auto.
Qed.

Lemma _create_anomaly_alert_unparsed db station_id sensor_id data z mean_val std_val e :
  fromisoformat rt (Py.replace_Z (p_timestamp data)) = Py.Raise e ->
  _create_anomaly_alert rt db station_id sensor_id data z mean_val std_val = db.
Proof. intros Hts. unfold _create_anomaly_alert. now rewrite Hts. Qed.

(** The detector unfolded: the window, the two guards, the threshold. *)
Lemma detect_anomalies_steps db station_id sensor_id data :
  let window := historical_window rt influx station_id sensor_id in
  let mean_val := Np64.mean (map h_value window) in
  let std_val := Np64.std (map h_value window) in
  let z := (PrimFloat.abs (p_value data - mean_val) / std_val)%float in
  detect_anomalies rt influx db station_id sensor_id data
  = if Py.not_ window || (length window <? 10)%nat then db
    else if PrimFloat.eqb std_val 0 then db
    else if PrimFloat.ltb 3 z
         then _create_anomaly_alert rt db station_id sensor_id data z mean_val std_val
         else db.
Proof.
  intros window mean_val std_val z.
  unfold detect_anomalies. rewrite _get_historical_data_days30. simpl.
  fold window. destruct (Py.not_ window || (length window <? 10)%nat); [reflexivity|].
  fold mean_val std_val. destruct (PrimFloat.eqb std_val 0); [reflexivity|].
  fold z. destruct (PrimFloat.ltb 3 z); reflexivity.
Qed.

(** The detector as the code decides, in the doubles it computes: an
    anomaly record is added if and only if the window has at least 10
    points, the deviation numpy returns for it is not zero, the ratio
    z = |value - mean| / std exceeds 3, and the timestamp of the reading
    parses.  The record then has severity high iff z > 5 and medium
    otherwise, z as score, the mean as expected and the reading as actual
    value, and the parsed timestamp. *)
Theorem detect_anomalies_record_iff
    (db : RelDb) (station_id sensor_id : string) (data : SensorPayload) :
  let window := historical_window rt influx station_id sensor_id in
  let mean_val := Np64.mean (map h_value window) in
  let std_val := Np64.std (map h_value window) in
  let z := (PrimFloat.abs (p_value data - mean_val) / std_val)%float in
  let db' := detect_anomalies rt influx db station_id sensor_id data in
  ((exists a, anomaly_detections db' = anomaly_detections db ++ [a])
   <-> ((10 <= length window)%nat
        /\ PrimFloat.eqb std_val 0 = false
        /\ PrimFloat.ltb 3 z = true
        /\ exists ts, fromisoformat rt (Py.replace_Z (p_timestamp data)) = Py.Ok ts))
  /\ (anomaly_detections db' = anomaly_detections db
      \/ exists a, anomaly_detections db' = anomaly_detections db ++ [a])
  /\ (forall a, anomaly_detections db' = anomaly_detections db ++ [a] ->
        (an_severity a = "high" <-> PrimFloat.ltb 5 z = true)
        /\ (an_severity a = "medium" <-> PrimFloat.ltb 5 z = false)
        /\ an_anomaly_score a = z
        /\ an_expected_value a = mean_val
        /\ an_actual_value a = p_value data
        /\ fromisoformat rt (Py.replace_Z (p_timestamp data)) = Py.Ok (an_timestamp a)).
Proof.
  intros window mean_val std_val z db'.
  pose proof (detect_anomalies_steps db station_id sensor_id data) as Hdb'.
  cbv zeta in Hdb'. fold window mean_val std_val z db' in Hdb'.
  set (cond := (10 <= length window)%nat
               /\ PrimFloat.eqb std_val 0 = false
               /\ PrimFloat.ltb 3 z = true
               /\ exists ts, fromisoformat rt (Py.replace_Z (p_timestamp data)) = Py.Ok ts).
  assert (Hcases :
    (~ cond /\ anomaly_detections db' = anomaly_detections db)
    \/ (cond /\ exists a0,
          anomaly_detections db' = anomaly_detections db ++ [a0]
          /\ fromisoformat rt (Py.replace_Z (p_timestamp data)) = Py.Ok (an_timestamp a0)
          /\ an_severity a0 = (if PrimFloat.ltb 5 z then "high" else "medium")
          /\ an_anomaly_score a0 = z
          /\ an_expected_value a0 = mean_val
          /\ an_actual_value a0 = p_value data)).
  { rewrite Hdb'. unfold cond.
    destruct (Py.not_ window || (length window <? 10)%nat) eqn:Hlen.
    { left. split; [|reflexivity]. intros (Hge & _).
      apply not_short_window in Hge. congruence. }
    apply not_short_window in Hlen.
    destruct (PrimFloat.eqb std_val 0) eqn:Hstd.
    { left. split; [intros (_ & H0 & _); discriminate | reflexivity]. }
    destruct (PrimFloat.ltb 3 z) eqn:Hz.
    2:{ left. split; [intros (_ & _ & H3 & _); discriminate | reflexivity]. }
    destruct (fromisoformat rt (Py.replace_Z (p_timestamp data))) as [ts|e] eqn:Hts.
    - right. split; [repeat split; eauto|].
      destruct (_create_anomaly_alert_parsed db station_id sensor_id data z mean_val
                  std_val ts Hts) as (a0 & Ha0 & Hat & Hsev & Hscore & Hexp & Hact).
      exists a0. rewrite Hat. repeat split; assumption.
    - left. split; [intros (_ & _ & _ & ts & Hok); discriminate|].
      now rewrite (_create_anomaly_alert_unparsed db station_id sensor_id data z mean_val
                     std_val e Hts). }
  destruct Hcases as [[Hno Hsame] | [Hyes (a0 & Hadd & Hts0 & Hsev & Hscore & Hexp & Hact)]].
  - split; [|split].
    + split; [|tauto]. intros [a Ha]. rewrite Hsame in Ha.
      symmetry in Ha. destruct (app_singleton_neq _ _ Ha).
    + now left.
    + intros a Ha. rewrite Hsame in Ha.
      symmetry in Ha. destruct (app_singleton_neq _ _ Ha).
  - split; [|split].
    + split; [tauto | eauto].
    + right; eauto.
    + intros a Ha. rewrite Hadd in Ha. apply app_singleton_inj in Ha. subst a0.
      rewrite Hsev. destruct (PrimFloat.ltb 5 z);
        repeat split; auto; try discriminate; try congruence.
Qed.

End AnomalyDetector.

(** The bench window has mean 1 and standard deviation 1: a reading of 5
    is four sigmas out and gives one record of medium severity. *)
Lemma detect_anomalies_on_bench :
  Np64.mean demo_window = 1%float
  /\ Np64.std demo_window = 1%float
  /\ exists a,
       anomaly_detections
         (detect_anomalies demo_runtime (window_store demo_window) empty_db
            "S1" "W1" (demo_payload 5)) = [a]
       /\ an_severity a = "medium"
       /\ an_anomaly_score a = 4%float
       /\ an_expected_value a = 1%float
       /\ an_actual_value a = 5%float.
Proof.
  split; [vm_compute; reflexivity|]. split; [vm_compute; reflexivity|].
  eexists. split; [vm_compute; reflexivity|]. repeat split.
Qed.

(** C1. A window of ten readings of 0.3 does not vary, and the claim has
    no record for it.  The code does: the mean numpy returns is
    0.29999999999999993, the deviation 5.55e-17 and not 0, so the guard
    [std_val == 0] lets the window through, and a reading of 0.4 is 1.8e15
    deviations out: one record of severity high and one alert are added. *)
Theorem detect_anomalies_constant_window :
  map h_value (historical_window demo_runtime (window_store constant_window) "S1" "W1")
  = constant_window
  /\ Np64.mean constant_window = 0.29999999999999993%float
  /\ Np64.std constant_window = 5.551115123125783e-17%float
  /\ exists a al,
       detect_anomalies demo_runtime (window_store constant_window) empty_db
         "S1" "W1" (demo_payload 0.4)
       = {| anomaly_detections := [a];
            alerts := [al];
            water_level_forecasts := [];
            drought_risk_assessments := [];
            recharge_estimates := [] |}
       /\ an_severity a = "high"
       /\ an_anomaly_score a = 1801439850948200%float
       /\ an_expected_value a = 0.29999999999999993%float
       /\ an_actual_value a = 0.4%float
       /\ al_severity al = "high".
Proof.
  split; [reflexivity|]. split; [vm_compute; reflexivity|].
  split; [vm_compute; reflexivity|].
  do 2 eexists. split; [vm_compute; reflexivity|]. repeat split.
Qed.

(** ** Keyword binding of the fetch calls *)

Section FetchCalls.

Variable rt : Runtime.
Variable influx : InfluxStore.

(** [_get_recent_data] declares [hours], not [days]: a call with [days=...]
    raises before its body runs. *)
Lemma _get_recent_data_days station_id sensor_id (days : Z) :
  _get_recent_data rt influx station_id sensor_id [("days", days)]
  = Py.Raise (Py.Exn Py.TypeError
                "_get_recent_data() got an unexpected keyword argument 'days'").
Proof. reflexivity. Qed.

(** With [hours=48], as [predict_water_level] calls it, the rows of the
    store come back (or none when the query fails). *)
Lemma _get_recent_data_hours station_id sensor_id :
  exists rows,
    _get_recent_data rt influx station_id sensor_id [("hours", 48%Z)] = Py.Ok rows.
Proof. eexists. reflexivity. Qed.

(** Every call of [assess_drought_risk] ends in its [except] branch. *)
Lemma assess_drought_risk_unknown db station_id sensor_id :
  assess_drought_risk rt influx db station_id sensor_id = (unknown_risk, db).
Proof. reflexivity. Qed.

(** Every call of [estimate_recharge] ends in its [except] branch. *)
Lemma estimate_recharge_error db station_id days :
  estimate_recharge rt influx db station_id days
  = ({| recharge_mm := 0; method := "error"; recharge_details := None |}, db).
Proof. reflexivity. Qed.

End FetchCalls.

(** ** The drought-risk score *)

Lemma drought_risk_score_signals c m sd mn tr :
  drought_risk_score c m sd mn tr
  = level_signal c m sd + trend_signal tr + minimum_signal c mn.
Proof.
  unfold drought_risk_score, level_signal, trend_signal, minimum_signal.
  real_cases; lra.
Qed.

Lemma level_signal_bounds c m sd : 0 <= level_signal c m sd <= 0.3.
Proof. unfold level_signal. real_cases; lra. Qed.

Lemma trend_signal_bounds tr : 0 <= trend_signal tr <= 0.2.
Proof. unfold trend_signal. real_cases; lra. Qed.

Lemma minimum_signal_bounds c mn : 0 <= minimum_signal c mn <= 0.3.
Proof. unfold minimum_signal. real_cases; lra. Qed.

Lemma drought_risk_score_bounds c m sd mn tr :
  0 <= drought_risk_score c m sd mn tr <= 0.8.
Proof.
  rewrite drought_risk_score_signals.
  pose proof (level_signal_bounds c m sd).
  pose proof (trend_signal_bounds tr).
  pose proof (minimum_signal_bounds c mn). lra.
Qed.

(** A two-branch threshold signal never grows with the level, wherever
    the thresholds lie. *)
Lemma threshold_signal_antitone (t1 t2 c1 c2 : R) :
  c2 <= c1 ->
  (if Rltb c1 t1 then 0.3 else if Rltb c1 t2 then 0.1 else 0)
  <= (if Rltb c2 t1 then 0.3 else if Rltb c2 t2 then 0.1 else 0).
Proof. intros Hc. real_cases; lra. Qed.

(** C8. For fixed mean, standard deviation, minimum and trend slope, the
    score does not decrease when the current level decreases: for c2 <= c1
    the score at c2 is at least the score at c1. *)
Theorem drought_risk_score_monotone (mean_level std_level min_level recent_trend c1 c2 : R) :
  c2 <= c1 ->
  drought_risk_score c1 mean_level std_level min_level recent_trend
  <= drought_risk_score c2 mean_level std_level min_level recent_trend.
Proof.
  intros Hc. rewrite !drought_risk_score_signals.
  pose proof (threshold_signal_antitone (mean_level - std_level) mean_level c1 c2 Hc) as Ha.
  pose proof (threshold_signal_antitone (min_level * 1.1) (min_level * 1.2) c1 c2 Hc) as Hm.
  unfold level_signal, minimum_signal. lra.
Qed.

(** Below mean - std and within a tenth of the minimum the score of a level
    of 1 is 0.6; at 2 it was 0.1. *)
Lemma drought_risk_score_monotone_witness :
  1 <= 2
  /\ drought_risk_score 2 3 1 1 0 <= drought_risk_score 1 3 1 1 0
  /\ drought_risk_score 2 3 1 1 0 = 0.1
  /\ drought_risk_score 1 3 1 1 0 = 0.6.
Proof.
  split; [lra|]. split.
  - apply (drought_risk_score_monotone 3 1 1 0 2 1). lra.
  - split; unfold drought_risk_score; real_cases; lra.
Defined.

(** C9. The score lies in [0, 1]: for every level and every statistics in
    the scoring block, for the result and the stored assessment computed
    from any fetched rows, and for the result of [assess_drought_risk]
    itself, which stores nothing more. *)
Theorem drought_risk_score_unit_interval :
  (forall c m sd mn tr, 0 <= drought_risk_score c m sd mn tr <= 1)
  /\ (forall rt db station_id recent_data,
        let out := assess_recent_data rt db station_id recent_data in
        0 <= risk_score (fst out) <= 1
        /\ exists added,
             drought_risk_assessments (snd out) = drought_risk_assessments db ++ added
             /\ Forall (fun a => 0 <= dr_risk_score a <= 1) added)
  /\ (forall rt influx db station_id sensor_id,
        let out := assess_drought_risk rt influx db station_id sensor_id in
        0 <= risk_score (fst out) <= 1
        /\ drought_risk_assessments (snd out) = drought_risk_assessments db).
Proof.
  split; [|split].
  - intros. pose proof (drought_risk_score_bounds c m sd mn tr). lra.
  - intros rt db station_id recent_data out. subst out. unfold assess_recent_data.
    destruct (Py.not_ recent_data).
    + simpl. split; [lra|]. exists []. rewrite app_nil_r. split; [reflexivity | constructor].
    + simpl.
      match goal with
      | |- context [drought_risk_score ?c ?m ?sd ?mn ?tr] =>
          pose proof (drought_risk_score_bounds c m sd mn tr) as Hb
      end.
      split; [lra|]. eexists. split; [reflexivity|].
      constructor; [simpl; lra | constructor].
  - intros. subst out. rewrite assess_drought_risk_unknown. simpl. split; [lra | reflexivity].
Qed.

(** ** The assessment of fetched rows, and the call that never fetches *)

Section RiskOfRows.

Variable rt : Runtime.

(** Of the rows a fetch returned, the block computes the sum of the three
    signals, the level by the thresholds 0.7, 0.5 and 0.3, and 999 days
    when the slope is not negative.  This is the block read over the real
    numbers: at a level that sits on a threshold, or on a series whose exact
    slope is 0, the doubles of the code may round to the other side. *)
Lemma assess_recent_data_score db station_id (recent_data : list LevelRow) :
  recent_data <> [] ->
  let levels := map lv_water_level recent_data in
  let current := List.last levels 0 in
  let slope :=
    if (7 <? length levels)%nat
    then Np.polyfit_slope (Np.arange 7) (skipn (length levels - 7) levels)
    else 0 in
  let r := fst (assess_recent_data rt db station_id recent_data) in
  risk_score r
  = level_signal current (Np.mean levels) (Np.std levels)
    + trend_signal slope + minimum_signal current (Np.min levels)
  /\ (0.7 <= risk_score r -> risk_level r = "critical")
  /\ (0.5 <= risk_score r < 0.7 -> risk_level r = "high")
  /\ (0.3 <= risk_score r < 0.5 -> risk_level r = "medium")
  /\ (risk_score r < 0.3 -> risk_level r = "low")
  /\ (~ slope < 0 ->
      exists d, risk_details r = Some d /\ days_to_drought d = 999%Z).
Proof.
  intros Hne levels current slope r.
  assert (Hcur : lv_water_level
                   (List.last recent_data {| lv_timestamp := 0%Z; lv_water_level := 0 |})
                 = current).
  { unfold current, levels. clear -Hne.
    induction recent_data as [|x l IH]; [congruence|].
    destruct l as [|y l']; [reflexivity|].
    change (List.last (x :: y :: l') ?d) with (List.last (y :: l') d).
    change (map lv_water_level (x :: y :: l'))
      with (lv_water_level x :: map lv_water_level (y :: l')).
    change (List.last (lv_water_level x :: map lv_water_level (y :: l')) 0)
      with (List.last (map lv_water_level (y :: l')) 0).
    apply IH. discriminate. }
  unfold r, assess_recent_data.
  destruct recent_data as [|x l]; [congruence|].
  cbn [Py.not_ fst risk_score risk_level risk_details].
  rewrite Hcur. fold levels. fold slope.
  change (recent_trend_of levels) with slope.
  rewrite drought_risk_score_signals.
  set (s := level_signal current (Np.mean levels) (Np.std levels)
            + trend_signal slope + minimum_signal current (Np.min levels)).
  split; [reflexivity|].
  unfold drought_risk_level.
  repeat split.
  - intros H. real_cases; try reflexivity; lra.
  - intros H. real_cases; try reflexivity; lra.
  - intros H. real_cases; try reflexivity; lra.
  - intros H. real_cases; try reflexivity; lra.
  - intros H. eexists. split; [reflexivity|]. cbn [days_to_drought].
    unfold days_to_drought_of, Rltb. destruct (Rlt_dec slope 0); [contradiction | reflexivity].
Qed.

End RiskOfRows.

Lemma mean_3_1 : Np.mean [3; 1] = 2.
Proof. unfold Np.mean, Np.sum. simpl. lra. Qed.

Lemma std_3_1 : Np.std [3; 1] = 1.
Proof.
  unfold Np.std, Np.var. rewrite mean_3_1. unfold Np.mean, Np.sum, Rsqr. simpl.
  match goal with |- sqrt ?x = 1 => replace x with 1 by lra end. apply sqrt_1.
Qed.

Lemma min_3_1 : Np.min [3; 1] = 1.
Proof.
  unfold Np.min. simpl. rewrite (Rmin_left 1 3) by lra. apply Rmin_right. lra.
Qed.

(** C2, at a store that holds the levels 3 and 1 for the sensor: the rows
    are there for a fetch that names [hours], and their assessment would be
    0.1 (below the mean) + 0.3 (within a tenth of the minimum) = 0.4,
    'medium', 999 days; [assess_drought_risk] asks with [days=90], the call
    raises, and the result is 'unknown' with score 0 and nothing stored. *)
Theorem assess_drought_risk_never_assesses :
  let influx := demo_store [3; 1] [] in
  let rows := level_rows [3; 1] in
  _get_recent_data demo_runtime influx "S1" "W1" [("hours", 48%Z)] = Py.Ok rows
  /\ risk_score (fst (assess_recent_data demo_runtime empty_db "S1" rows)) = 0.4
  /\ risk_level (fst (assess_recent_data demo_runtime empty_db "S1" rows)) = "medium"
  /\ assess_drought_risk demo_runtime influx empty_db "S1" "W1"
     = ({| risk_level := "unknown"; risk_score := 0; risk_details := None |}, empty_db).
Proof.
  intros influx rows.
  assert (Hscore :
    risk_score (fst (assess_recent_data demo_runtime empty_db "S1" rows)) = 0.4).
  { unfold assess_recent_data, rows.
    change (map lv_water_level (level_rows [3; 1])) with [3; 1].
    change (Py.not_ (level_rows [3; 1])) with false. cbv iota.
    cbn [fst risk_score]. rewrite mean_3_1, std_3_1, min_3_1.
    change (lv_water_level (List.last (level_rows [3; 1]) _)) with 1.
    change (recent_trend_of [3; 1]) with 0.
    unfold drought_risk_score. real_cases; lra. }
  split; [reflexivity|]. split; [exact Hscore|]. split; [|reflexivity].
  revert Hscore. unfold assess_recent_data, rows.
  change (Py.not_ (level_rows [3; 1])) with false. cbv iota.
  cbn [fst risk_score risk_level]. intros ->.
  unfold drought_risk_level. real_cases; try reflexivity; lra.
Qed.

(** ** The recharge estimate of fetched rows, and the call that never fetches *)

Section RechargeOfRows.

Variable rt : Runtime.

(** Of at least seven level rows the block estimates
    max(0, (last - first) * 1000) plus the rainfall total (0 without
    rainfall rows); of fewer it reports 'insufficient_data' and 0. *)
Lemma recharge_from_data_value db station_id days
    (water_data : list LevelRow) (rainfall_data : list (datetime * R)) :
  let levels := map lv_water_level water_data in
  let r := fst (recharge_from_data rt db station_id days water_data rainfall_data) in
  ((7 <= length water_data)%nat ->
     recharge_mm r
     = Rmax 0 ((List.last levels 0 - List.hd 0 levels) * 1000)
       + Np.sum (map snd rainfall_data)
     /\ method r = "water_balance")
  /\ ((length water_data < 7)%nat ->
     recharge_mm r = 0 /\ method r = "insufficient_data").
Proof.
  intros levels r. unfold r, recharge_from_data. split; intros Hlen.
  - destruct water_data as [|x l]; [simpl in Hlen; lia|].
    cbn [Py.not_ orb].
    destruct (Nat.ltb_spec (length (x :: l)) 7) as [Hlt|_]; [lia|].
    cbn [fst recharge_mm method]. fold levels. split; [|reflexivity].
    destruct rainfall_data; reflexivity.
  - destruct water_data as [|x l]; [split; reflexivity|].
    cbn [Py.not_ orb].
    destruct (Nat.ltb_spec (length (x :: l)) 7) as [_|Hge]; [|lia].
    split; reflexivity.
Qed.

End RechargeOfRows.

(** Seven levels from 0 up to 0.01 and one rainfall reading of 5. *)
Lemma recharge_of_demo_rows :
  recharge_mm
    (fst (recharge_from_data demo_runtime empty_db "S1" 30
            (level_rows rising_levels) (hourly [5]))) = 15.
Proof.
  unfold recharge_from_data.
  change (Py.not_ (level_rows rising_levels)
          || (length (level_rows rising_levels) <? 7)%nat) with false.
  cbv iota. cbn [fst recharge_mm].
  change (map lv_water_level (level_rows rising_levels)) with rising_levels.
  change (Py.not_ (hourly [5])) with false. cbv iota.
  change (List.last rising_levels 0) with 0.01.
  change (List.hd 0 rising_levels) with 0.
  change (Np.sum (map snd (hourly [5]))) with (5 + 0).
  rewrite Rmax_right by lra. lra.
Qed.

(** C4, at a store that holds seven levels rising by 0.01 m and 5 mm of
    rainfall: the rows are there for a fetch that names [hours], and their
    estimate would be 10 + 5 = 15 mm by water balance; [estimate_recharge]
    asks with [days=days], the call raises, and the result is method 'error'
    with 0 mm and nothing stored. *)
Theorem estimate_recharge_never_estimates :
  let influx := demo_store rising_levels [5] in
  let water_data := level_rows rising_levels in
  _get_recent_data demo_runtime influx "S1" "water_level" [("hours", 48%Z)]
  = Py.Ok water_data
  /\ _get_rainfall_data demo_runtime influx "S1" [("days", 30%Z)] = Py.Ok (hourly [5])
  /\ recharge_mm
       (fst (recharge_from_data demo_runtime empty_db "S1" 30 water_data (hourly [5])))
     = 15
  /\ estimate_recharge demo_runtime influx empty_db "S1" 30
     = ({| recharge_mm := 0; method := "error"; recharge_details := None |}, empty_db).
Proof.
  intros influx water_data.
  split; [reflexivity|]. split; [reflexivity|].
  split; [exact recharge_of_demo_rows | reflexivity].
Qed.

(** ** Grouping by hour or weekday *)

Section Grouping.

Variable key : pydatetime -> Z.

Lemma existsb_filter_ne (k k0 : Z) (ks : list Z) :
  k <> k0 ->
  existsb (Z.eqb k) (List.filter (fun k' => negb (Z.eqb k' k0)) ks) = existsb (Z.eqb k) ks.
Proof.
  intros Hne. induction ks as [|a ks IH]; [reflexivity|].
  cbn [List.filter existsb].
  destruct (Z.eqb_spec a k0) as [->|Ha]; cbn [negb existsb].
  - destruct (Z.eqb_spec k k0); [contradiction | exact IH].
  - now rewrite IH.
Qed.

Lemma filter_snoc_key (k k0 : Z) (ks : list Z) :
  List.filter (fun k' => negb (Z.eqb k' k0)) (snoc_key ks k)
  = if Z.eqb k k0 then List.filter (fun k' => negb (Z.eqb k' k0)) ks
    else snoc_key (List.filter (fun k' => negb (Z.eqb k' k0)) ks) k.
Proof.
  unfold snoc_key. destruct (Z.eqb_spec k k0) as [->|Hne].
  - destruct (existsb (Z.eqb k0) ks); [reflexivity|].
    rewrite List.filter_app. simpl. rewrite Z.eqb_refl. simpl. apply app_nil_r.
  - rewrite existsb_filter_ne by assumption.
    destruct (existsb (Z.eqb k) ks); [reflexivity|].
    rewrite List.filter_app. simpl. destruct (Z.eqb_spec k k0); [contradiction | reflexivity].
Qed.

Lemma distinct_snoc (ks : list Z) (k : Z) :
  distinct (ks ++ [k]) = snoc_key (distinct ks) k.
Proof.
  induction ks as [|k0 ks IH]; [reflexivity|].
  simpl. rewrite IH, filter_snoc_key. unfold snoc_key. simpl.
  destruct (Z.eqb_spec k k0) as [->|Hne]; simpl; [reflexivity|].
  destruct (existsb _ _); reflexivity.
Qed.

Lemma distinct_In (ks : list Z) (k : Z) : In k (distinct ks) <-> In k ks.
Proof.
  induction ks as [|k0 ks IH]; [tauto|]. simpl.
  rewrite filter_In, IH. destruct (Z.eqb_spec k k0); simpl; intuition congruence.
Qed.

Lemma distinct_NoDup (ks : list Z) : List.NoDup (distinct ks).
Proof.
  induction ks as [|k0 ks IH]; simpl; constructor.
  - rewrite filter_In. intros [_ H]. rewrite Z.eqb_refl in H. discriminate.
  - now apply List.NoDup_filter.
Qed.

Lemma rows_at_snoc (k : Z) (tvs : list (pydatetime * float)) (tv : pydatetime * float) :
  rows_at key k (tvs ++ [tv])
  = rows_at key k tvs ++ (if Z.eqb (key (fst tv)) k then [snd tv] else []).
Proof.
  unfold rows_at. rewrite List.filter_app, map_app. simpl.
  destruct (Z.eqb (key (fst tv)) k); reflexivity.
Qed.

Lemma rows_at_absent (k : Z) (tvs : list (pydatetime * float)) :
  ~ In k (map (fun tv => key (fst tv)) tvs) -> rows_at key k tvs = [].
Proof.
  unfold rows_at. induction tvs as [|tv tvs IH]; [reflexivity|]. simpl. intros Hn.
  destruct (Z.eqb_spec (key (fst tv)) k); [tauto|]. apply IH. tauto.
Qed.

Lemma group_append_map (f : Z -> list float) (k : Z) (v : float) (ks : list Z) :
  List.NoDup ks ->
  (~ In k ks -> f k = []) ->
  group_append k v (map (fun k' => (k', f k')) ks)
  = map (fun k' => (k', f k' ++ (if Z.eqb k k' then [v] else []))) (snoc_key ks k).
Proof.
  intros Hnd Hfresh. unfold snoc_key.
  induction ks as [|k0 ks IH].
  - simpl. rewrite Z.eqb_refl, Hfresh by tauto. reflexivity.
  - inversion Hnd as [|? ? Hk0 Hnd']; subst. simpl.
    destruct (Z.eqb_spec k k0) as [->|Hne]; simpl.
    + rewrite Z.eqb_refl. f_equal. apply map_ext_in. intros a Ha.
      destruct (Z.eqb_spec k0 a) as [->|_]; [contradiction|]. now rewrite app_nil_r.
    + rewrite IH; [| assumption | intros Hn; apply Hfresh; simpl; intuition congruence].
      destruct (existsb (Z.eqb k) ks); simpl;
        rewrite (proj2 (Z.eqb_neq k k0) Hne), app_nil_r; reflexivity.
Qed.

Lemma grouped_snoc (tvs : list (pydatetime * float)) (tv : pydatetime * float) :
  grouped key (tvs ++ [tv]) = group_append (key (fst tv)) (snd tv) (grouped key tvs).
Proof.
  unfold grouped. rewrite map_app. simpl. rewrite distinct_snoc.
  rewrite (group_append_map (fun k => rows_at key k tvs)).
  - apply map_ext. intros k. now rewrite rows_at_snoc.
  - apply distinct_NoDup.
  - intros Hn. apply rows_at_absent. now rewrite <- distinct_In.
Qed.

Lemma append_rows_grouped (tvs : list (pydatetime * float)) : append_rows key [] tvs = grouped key tvs.
Proof.
  unfold append_rows. induction tvs as [|tv tvs IH] using rev_ind; [reflexivity|].
  rewrite fold_left_app. simpl. rewrite IH. symmetry. apply grouped_snoc.
Qed.

Lemma group_values_rows (values : list float) (timestamps : list pydatetime) (i : nat) (d : groups) :
  (i + length timestamps <= length values)%nat ->
  group_values key values timestamps i d
  = Py.Ok (append_rows key d (combine timestamps (skipn i values))).
Proof.
  revert i d. induction timestamps as [|t ts IH]; intros i d Hlen; [reflexivity|].
  simpl in Hlen. simpl group_values.
  destruct (nth_error values i) as [v|] eqn:Hv.
  - rewrite IH by lia.
    assert (Hs : skipn i values = v :: skipn (S i) values).
    { clear -Hv. revert values Hv. induction i as [|i IHi]; intros [|x values] Hv;
        simpl in Hv; try discriminate.
      - now inversion Hv.
      - apply IHi in Hv. exact Hv. }
    rewrite Hs. reflexivity.
  - apply nth_error_None in Hv. lia.
Qed.

End Grouping.


(** ** Daily and weekly patterns *)

Lemma combine_keys (key : pydatetime -> Z) (timestamps : list pydatetime)
    (values : list float) :
  length values = length timestamps ->
  map (fun tv => key (fst tv)) (combine timestamps values) = map key timestamps.
Proof.
  revert values. induction timestamps as [|t ts IH]; intros [|v vs] Hlen;
    simpl in *; try reflexivity; try discriminate.
  f_equal. apply IH. lia.
Qed.

(** The detector, read off the rows: the groups are the distinct keys in
    order of first appearance, each with the mean of its values. *)
Lemma detect_grouped_pattern_rows name key min_groups share
    (values : list float) (timestamps : list pydatetime) :
  length values = length timestamps ->
  let ks := distinct (map key timestamps) in
  let means := map (fun k => Np64.mean (values_at key k timestamps values)) ks in
  detect_grouped_pattern name key min_groups share values timestamps
  = if (length ks <? min_groups)%nat then None
    else if PrimFloat.ltb (Np64.var values * share)%float (Np64.var means)
         then Some {| pattern_type := name;
                      averages :=
                        map (fun k => (k, Np64.mean (values_at key k timestamps values))) ks;
                      pat_variance := Np64.var means;
                      pat_confidence := min2 1 (Np64.var means / Np64.var values)%float |}
         else None.
Proof.
  intros Hlen ks means. unfold detect_grouped_pattern.
  rewrite group_values_rows by (simpl; lia).
  change (skipn 0 values) with values.
  rewrite append_rows_grouped. unfold grouped.
  rewrite combine_keys by assumption. fold ks.
  cbn [Py.bind Py.try_except].
  rewrite !map_map. cbn [fst snd].
  rewrite !length_map.
  change (map (fun k => Np64.mean (rows_at key k (combine timestamps values))) ks)
    with means.
  destruct (length ks <? min_groups)%nat; [reflexivity|].
  destruct (PrimFloat.ltb (Np64.var values * share)%float (Np64.var means)); reflexivity.
Qed.

Lemma detect_grouped_pattern_name (name : string) (key : pydatetime -> Z)
    (min_groups : nat) (share : float) (values : list float)
    (timestamps : list pydatetime) (p : Pattern) :
  detect_grouped_pattern name key min_groups share values timestamps = Some p ->
  pattern_type p = name.
Proof.
  unfold detect_grouped_pattern.
  destruct (group_values key values timestamps 0 []) as [grouped|e]; [|discriminate].
  cbn [Py.bind]. destruct (_ <? min_groups)%nat; [discriminate|].
  destruct (PrimFloat.ltb _ _); [|discriminate].
  cbn. intros H. now inversion H.
Qed.

(** The daily detector as the code decides, in the doubles it computes.
    For a batch with as many values as timestamps: a daily pattern record is
    produced if and only if the batch has at least 24 readings, its
    timestamps show at least 12 distinct hours of the day on their own
    clocks, and the variance numpy returns for the per-hour means exceeds
    the product of the variance it returns for the values and 0.1; the
    record carries that variance and the confidence
    min(1.0, variance / variance of the values). *)
Theorem daily_pattern_iff (values : list float) (timestamps : list pydatetime) :
  length values = length timestamps ->
  let hours := distinct (map hour timestamps) in
  let hourly_means :=
    map (fun h => Np64.mean (values_at hour h timestamps values)) hours in
  let pattern_variance := Np64.var hourly_means in
  let raw_variance := Np64.var values in
  let exceeds := PrimFloat.ltb (raw_variance * 0.1)%float pattern_variance in
  let daily :=
    List.filter (fun p => String.eqb (pattern_type p) "daily")
      (_detect_patterns values timestamps) in
  ((24 <= length values)%nat /\ (12 <= length hours)%nat /\ exceeds = true ->
   exists p, daily = [p]
             /\ pat_variance p = pattern_variance
             /\ pat_confidence p = min2 1 (pattern_variance / raw_variance)%float
             /\ averages p
                = map (fun h => (h, Np64.mean (values_at hour h timestamps values))) hours)
  /\ (~ ((24 <= length values)%nat /\ (12 <= length hours)%nat /\ exceeds = true) ->
      daily = []).
Proof.
  intros Hlen hours hourly_means pattern_variance raw_variance exceeds daily.
  assert (Hweekly : forall l,
    List.filter (fun p => String.eqb (pattern_type p) "daily")
      (match _detect_weekly_pattern values timestamps with
       | Some weekly_pattern => l ++ [weekly_pattern]
       | None => l
       end)
    = List.filter (fun p => String.eqb (pattern_type p) "daily") l).
  { intros l.
    pose proof (detect_grouped_pattern_name "weekly" weekday 4 0.05%float
                  values timestamps) as Hw.
    fold (_detect_weekly_pattern values timestamps) in Hw.
    destruct (_detect_weekly_pattern values timestamps) as [w|]; [|reflexivity].
    rewrite List.filter_app. cbn [List.filter]. rewrite (Hw w eq_refl).
    cbn. apply app_nil_r. }
  assert (Hdaily : daily =
    if (length values <? 24)%nat then []
    else if (length hours <? 12)%nat then []
    else if exceeds
         then [{| pattern_type := "daily";
                  averages :=
                    map (fun h => (h, Np64.mean (values_at hour h timestamps values)))
                      hours;
                  pat_variance := pattern_variance;
                  pat_confidence := min2 1 (pattern_variance / raw_variance)%float |}]
         else []).
  { unfold daily, _detect_patterns.
    destruct (length values <? 24)%nat; [reflexivity|].
    rewrite Hweekly. unfold _detect_daily_pattern.
    rewrite detect_grouped_pattern_rows by assumption. cbv zeta.
    fold hours. fold hourly_means. fold pattern_variance. fold raw_variance.
    fold exceeds.
    destruct (length hours <? 12)%nat; [reflexivity|].
    destruct exceeds; reflexivity. }
  rewrite Hdaily. clear Hdaily Hweekly.
  destruct (Nat.ltb_spec (length values) 24) as [H24|H24].
  { split; [intros (? & _); lia | reflexivity]. }
  destruct (Nat.ltb_spec (length hours) 12) as [H12|H12].
  { split; [intros (_ & ? & _); lia | reflexivity]. }
  destruct exceeds.
  - split.
    + intros _. eexists. split; [reflexivity|]. repeat split.
    + intros Hn. exfalso. apply Hn. repeat split; assumption.
  - split; [|reflexivity]. intros (_ & _ & Hgt). discriminate.
Qed.

Lemma day_hours : distinct (map hour day_timestamps) = map Z.of_nat (seq 0 24).
Proof. vm_compute. reflexivity. Qed.

(** Twenty-four hourly readings, 0 before noon and 2 after: the hourly
    means vary as the readings do, and one daily record of variance 1 and
    confidence 1 is produced. *)
Lemma daily_pattern_iff_witness :
  length day_values = length day_timestamps
  /\ exists p,
       List.filter (fun p => String.eqb (pattern_type p) "daily")
         (_detect_patterns day_values day_timestamps) = [p]
       /\ pat_variance p = 1%float
       /\ pat_confidence p = 1%float.
Proof.
  split; [reflexivity|].
  pose proof (daily_pattern_iff day_values day_timestamps eq_refl) as H.
  cbv zeta in H. destruct H as [Hyes _].
  destruct Hyes as (p & Hp & Hvar & Hconf & _).
  { split; [simpl; lia|]. split; [rewrite day_hours; simpl; lia|].
    vm_compute. reflexivity. }
  exists p. split; [exact Hp|]. split.
  - rewrite Hvar. vm_compute. reflexivity.
  - rewrite Hconf. vm_compute. reflexivity.
Defined.

(** C5. Twenty-four hourly readings of 0.1 do not vary, and the claim has
    no daily pattern for them.  The code has: numpy returns the same tiny
    variance, 1.9e-34 and not 0, for the readings and for the 24 hourly
    means, which exceeds a tenth of itself, so a daily pattern of confidence
    1.0 is reported. *)
Theorem daily_pattern_of_steady_readings :
  length steady_values = 24%nat
  /\ Np64.var steady_values = 1.925929944387236e-34%float
  /\ exists p,
       _detect_daily_pattern steady_values day_timestamps = Some p
       /\ _detect_patterns steady_values day_timestamps = [p]
       /\ pattern_type p = "daily"
       /\ pat_variance p = 1.925929944387236e-34%float
       /\ pat_confidence p = 1%float.
Proof.
  split; [reflexivity|]. split; [vm_compute; reflexivity|].
  eexists. split; [vm_compute; reflexivity|].
  split; [vm_compute; reflexivity|]. repeat split.
Qed.

(** ** Training *)

Lemma append_cancel_l (p a b : string) : (p ++ a = p ++ b)%string -> a = b.
Proof.
  induction p as [|c p IH]; simpl; intros H; [exact H|].
  inversion H. auto.
Qed.

(** The two artifact files of a key are different files. *)
Lemma model_file_neq_scaler_file (key : string) : model_file key <> scaler_file key.
Proof.
  unfold model_file, scaler_file. intros H.
  apply append_cancel_l in H. apply append_cancel_l in H. discriminate.
Qed.


(** [int(n * 0.8)] is the integer quotient of [4 * n] by 5. *)
Lemma split_idx_quotient (n : nat) : split_idx n = (4 * n / 5)%nat.
Proof.
  unfold split_idx, py_int.
  pose proof (pos_INR n) as Hn.
  destruct (Rle_dec 0 (INR n * 0.8)) as [_|Hneg]; [|exfalso; lra].
  pose proof (Nat.div_mod_eq (4 * n) 5) as Hdm.
  pose proof (Nat.mod_upper_bound (4 * n) 5 ltac:(lia)) as Hm.
  set (q := (4 * n / 5)%nat) in *. set (m := ((4 * n) mod 5)%nat) in *.
  assert (HR : 4 * INR n = 5 * INR q + INR m).
  { apply (f_equal INR) in Hdm. rewrite plus_INR, !mult_INR in Hdm.
    simpl INR in Hdm. lra. }
  pose proof (pos_INR m) as Hm0.
  assert (Hm5 : INR m < 5).
  { apply lt_INR in Hm. simpl INR in Hm. lra. }
  rewrite <- (Int_part_spec (INR n * 0.8) (Z.of_nat q)).
  - apply Nat2Z.id.
  - rewrite <- INR_IZR_INZ. lra.
Qed.

Section Training.

Context {Regressor Scaler : Type} {L : Learning Regressor Scaler}.
Variable rt : Runtime.
Variable influx : InfluxStore.

Lemma _get_training_data_days365 station_id sensor_id :
  _get_training_data rt influx station_id sensor_id [("days", 365%Z)]
  = Py.Ok (training_rows rt influx station_id sensor_id).
Proof. reflexivity. Qed.

(** [_prepare_features] by the feature table pandas builds. *)
Lemma _prepare_features_table (data : list TrainRow) :
  _prepare_features data
  = match data with
    | [] => None
    | _ =>
        match build_feature_table data with
        | Py.Ok df =>
            if (length df <? 10)%nat then None else Some (map fst df, map snd df)
        | Py.Raise _ => None
        end
    end.
Proof.
  unfold _prepare_features. destruct data as [|r data]; [reflexivity|].
  cbn [Py.not_]. destruct (build_feature_table (r :: data)) as [df|e]; [|reflexivity].
  cbn [Py.bind]. destruct (length df <? 10)%nat; reflexivity.
Qed.

(** What [_save_model] can do: the registry is not its business; of the
    files only the two of the key can change, each to the object dumped; and
    when the directory can be made and both files created, both hold the
    objects. *)
Lemma _save_model_spec (s : Service Regressor Scaler)
    (model scaler : pyobj Regressor Scaler) (key : string) :
  let s' := _save_model rt s model scaler key in
  models s' = models s
  /\ scalers s' = scalers s
  /\ (forall path, path <> model_file key -> path <> scaler_file key ->
        disk s' !! path = disk s !! path)
  /\ (disk s' !! model_file key = Some model
      \/ disk s' !! model_file key = disk s !! model_file key)
  /\ (disk s' !! scaler_file key = Some scaler
      \/ disk s' !! scaler_file key = disk s !! scaler_file key)
  /\ ((exists u, makedirs rt model_path = Py.Ok u) ->
      creatable rt (model_file key) = true ->
      creatable rt (scaler_file key) = true ->
      disk s' !! model_file key = Some model
      /\ disk s' !! scaler_file key = Some scaler)
  /\ (creatable rt (model_file key) = false -> s' = s).
Proof.
  intros s'. subst s'. unfold _save_model, joblib_dump.
  assert (Hne : scaler_file key <> model_file key).
  { intros E. symmetry in E. now apply model_file_neq_scaler_file in E. }
  destruct (makedirs rt model_path) as [u|e]; cbn [Py.bind].
  2:{ split; [reflexivity|]. split; [reflexivity|]. split; [reflexivity|].
      split; [now right|]. split; [now right|].
      split; [intros [u Hu]; discriminate | reflexivity]. }
  destruct (creatable rt (model_file key)) eqn:Hm.
  2:{ split; [reflexivity|]. split; [reflexivity|]. split; [reflexivity|].
      split; [now right|]. split; [now right|].
      split; [intros _ Hc; discriminate | reflexivity]. }
  destruct (creatable rt (scaler_file key)) eqn:Hs; cbn [models scalers disk].
  - split; [reflexivity|]. split; [reflexivity|]. split.
    { intros path H1 H2. now rewrite !lookup_insert_ne by congruence. }
    split; [left; rewrite lookup_insert_ne by congruence; apply lookup_insert_eq|].
    split; [left; apply lookup_insert_eq|]. split; [|discriminate].
    intros _ _ _. split; [|apply lookup_insert_eq].
    rewrite lookup_insert_ne by congruence. apply lookup_insert_eq.
  - split; [reflexivity|]. split; [reflexivity|]. split.
    { intros path H1 H2. now rewrite lookup_insert_ne by congruence. }
    split; [left; apply lookup_insert_eq|].
    split; [right; now rewrite lookup_insert_ne by congruence|]. split; [|discriminate].
    intros _ _ Hc. discriminate.
Qed.

(** The body of [train_water_level_model] after the fetch, with the one
    [try] around the scikit-learn calls. *)
Lemma train_water_level_model_cases
    (s : Service Regressor Scaler) (station_id sensor_id : string) :
  let data := training_rows rt influx station_id sensor_id in
  train_water_level_model rt influx s station_id sensor_id =
    if (length data <? 100)%nat then (InsufficientData, s)
    else
      match _prepare_features data with
      | None => (InsufficientFeatures, s)
      | Some (X, y) =>
          if (length X <? 50)%nat then (InsufficientFeatures, s)
          else
            Py.try_except
              (let k := split_idx (length X) in
               let* scaler := scaler_fit (firstn k X) in
               let* X_train_scaled := scaler_transform scaler (firstn k X) in
               let* X_test_scaled := scaler_transform scaler (skipn k X) in
               let* model := regressor_fit X_train_scaled (firstn k y) in
               let* y_pred := regressor_predict model X_test_scaled in
               let key := model_key station_id sensor_id in
               Py.Ok (Success (mean_absolute_error (skipn k y) y_pred)
                        (sqrt (mean_squared_error (skipn k y) y_pred))
                        (length (firstn k X)) (length (skipn k X)),
                      _save_model rt
                        {| models := <[key := ORegressor model]> (models s);
                           scalers := <[key := OScaler scaler]> (scalers s);
                           disk := disk s |}
                        (ORegressor model) (OScaler scaler) key))
              (fun e => (Error (Py.message e), s))
      end.
Proof.
  intros data.
  unfold train_water_level_model. rewrite _get_training_data_days365.
  cbn [Py.bind]. fold data.
  destruct (length data <? 100)%nat; [reflexivity|].
  destruct (_prepare_features data) as [[X y]|]; [|reflexivity].
  destruct (length X <? 50)%nat; reflexivity.
Qed.


(** C6. When training succeeds, the feature table was split at the index
    4n/5 (the whole part of 0.8 n) in its own order: the first rows are the
    training set, the remaining ones the evaluation set, and together they
    are the table, unpermuted.  The scaler was fit on the training rows only
    and then applied to both parts; the regressor was fit on the scaled
    training rows and evaluated on the scaled evaluation rows; both are
    what the registry holds afterwards. *)
Theorem train_split_is_chronological
    (s s' : Service Regressor Scaler) (station_id sensor_id : string)
    (mae rmse : R) (n_train n_test : nat) :
  train_water_level_model rt influx s station_id sensor_id
  = (Success mae rmse n_train n_test, s') ->
  exists (df : list (FeatureRow * R)) (scaler : Scaler) (model : Regressor)
         (X_train_scaled X_test_scaled : list FeatureRow) (y_pred : list R),
    let X := map fst df in
    let y := map snd df in
    let k := (4 * length df / 5)%nat in
    build_feature_table (training_rows rt influx station_id sensor_id) = Py.Ok df
    /\ n_train = k /\ n_test = (length df - k)%nat
    /\ firstn k X ++ skipn k X = X
    /\ length (firstn k X) = k
    /\ scaler_fit (firstn k X) = Py.Ok scaler
    /\ scaler_transform scaler (firstn k X) = Py.Ok X_train_scaled
    /\ scaler_transform scaler (skipn k X) = Py.Ok X_test_scaled
    /\ regressor_fit X_train_scaled (firstn k y) = Py.Ok model
    /\ regressor_predict model X_test_scaled = Py.Ok y_pred
    /\ mae = mean_absolute_error (skipn k y) y_pred
    /\ rmse = sqrt (mean_squared_error (skipn k y) y_pred)
    /\ scalers s' !! model_key station_id sensor_id = Some (OScaler scaler)
    /\ models s' !! model_key station_id sensor_id = Some (ORegressor model).
Proof.
  intros Htrain.
  pose proof (train_water_level_model_cases s station_id sensor_id) as Hout.
  cbv zeta in Hout. rewrite Htrain in Hout. clear Htrain.
  set (data := training_rows rt influx station_id sensor_id) in *.
  destruct (length data <? 100)%nat; [discriminate|].
  rewrite _prepare_features_table in Hout.
  destruct data as [|r0 data0] eqn:Hdata; [discriminate|].
  rewrite <- Hdata in *. clear Hdata r0 data0.
  destruct (build_feature_table data) as [df|e0]; [|discriminate].
  destruct (length df <? 10)%nat; [discriminate|].
  rewrite !length_map in Hout.
  destruct (Nat.ltb_spec (length df) 50) as [|H50]; [discriminate|].
  rewrite split_idx_quotient in Hout.
  set (k := (4 * length df / 5)%nat) in *.
  set (X := map fst df) in *. set (y := map snd df) in *.
  destruct (scaler_fit (firstn k X)) as [scaler|e] eqn:Hfit; [|discriminate].
  cbn [Py.bind] in Hout.
  destruct (scaler_transform scaler (firstn k X)) as [Xtr|e] eqn:Htr; [|discriminate].
  cbn [Py.bind] in Hout.
  destruct (scaler_transform scaler (skipn k X)) as [Xte|e] eqn:Hte; [|discriminate].
  cbn [Py.bind] in Hout.
  destruct (regressor_fit Xtr (firstn k y)) as [model|e] eqn:Hreg; [|discriminate].
  cbn [Py.bind] in Hout.
  destruct (regressor_predict model Xte) as [y_pred|e] eqn:Hpred; [|discriminate].
  cbn [Py.bind Py.try_except] in Hout.
  inversion Hout as [[Hmae Hrmse Hntr Hnte Hs']]. clear Hout.
  assert (Hk : (k <= length df)%nat).
  { unfold k. apply Nat.Div0.div_le_upper_bound. lia. }
  exists df, scaler, model, Xtr, Xte, y_pred. cbv zeta. fold X y k.
  assert (HlenX : length X = length df) by apply length_map.
  repeat split; try reflexivity; try assumption.
  - rewrite length_firstn. lia.
  - rewrite length_skipn. lia.
  - apply firstn_skipn.
  - rewrite length_firstn. lia.
  - destruct (_save_model_spec
                {| models := <[model_key station_id sensor_id := ORegressor model]> (models s);
                   scalers := <[model_key station_id sensor_id := OScaler scaler]> (scalers s);
                   disk := disk s |}
                (ORegressor model) (OScaler scaler) (model_key station_id sensor_id))
      as (_ & Hsc & _).
    cbv zeta in Hsc. rewrite Hsc. cbn [scalers]. apply lookup_insert_eq.
  - destruct (_save_model_spec
                {| models := <[model_key station_id sensor_id := ORegressor model]> (models s);
                   scalers := <[model_key station_id sensor_id := OScaler scaler]> (scalers s);
                   disk := disk s |}
                (ORegressor model) (OScaler scaler) (model_key station_id sensor_id))
      as (Hmo & _).
    cbv zeta in Hmo. rewrite Hmo. cbn [models]. apply lookup_insert_eq.
Qed.

End Training.


(** ** Training rows are in time order *)

Lemma upsert_keys_Forall {V : Type} (P : Z -> Prop) (k : Z) (v : V) (d : list (Z * V)) :
  P k -> Forall P (map fst d) -> Forall P (map fst (upsert k v d)).
Proof.
  intros Hk. induction d as [|[k' v'] d IH]; intros Hd; simpl.
  - constructor; [exact Hk | constructor].
  - inversion Hd as [|? ? Hk' Hd']; subst.
    destruct (k <? k')%Z; [constructor; [exact Hk | exact Hd]|].
    destruct (k =? k')%Z; constructor; auto.
Qed.

Lemma upsert_sorted {V : Type} (k : Z) (v : V) (d : list (Z * V)) :
  StronglySorted Z.lt (map fst d) -> StronglySorted Z.lt (map fst (upsert k v d)).
Proof.
  induction d as [|[k' v'] d IH]; intros Hs; simpl.
  - constructor; constructor.
  - inversion Hs as [|? ? Hs' Hall]; subst.
    destruct (Z.ltb_spec k k') as [Hlt|Hge].
    + constructor; [exact Hs|]. constructor; [exact Hlt|].
      eapply List.Forall_impl; [|exact Hall]. simpl. intros a Ha. lia.
    + destruct (Z.eqb_spec k k') as [->|Hne].
      * constructor; assumption.
      * simpl. constructor; [apply IH; exact Hs'|].
        apply upsert_keys_Forall; [lia | exact Hall].
Qed.

Lemma fold_upsert_sorted {V : Type} (recs d : list (Z * V)) :
  StronglySorted Z.lt (map fst d) ->
  StronglySorted Z.lt
    (map fst (fold_left (fun d rec => upsert (fst rec) (snd rec) d) recs d)).
Proof.
  revert d. induction recs as [|rec recs IH]; intros d Hd; simpl; [exact Hd|].
  apply IH. now apply upsert_sorted.
Qed.

(** The rows training reads are built one per reading, from readings that
    are strictly increasing in time, whatever the order of the store's
    answer. *)
Lemma training_rows_chronological rt influx station_id sensor_id :
  exists (readings : list (datetime * R)) (weather_data : list (Z * list (string * R))),
    StronglySorted Z.lt (map fst readings)
    /\ training_rows rt influx station_id sensor_id
       = map (fun kv => data_point (fst kv) (snd kv) weather_data) readings.
Proof.
  unfold training_rows.
  destruct (query_sensor_data influx station_id sensor_id _) as [sensor_result|e];
    [|exists [], []; split; [constructor | reflexivity]].
  cbn [Py.bind].
  destruct (query_weather_data influx station_id _) as [weather_result|e];
    [|exists [], []; split; [constructor | reflexivity]].
  cbn [Py.bind Py.try_except]. do 2 eexists. split; [|reflexivity].
  apply (fold_upsert_sorted sensor_result []). constructor.
Qed.

(** ** Training on the bench *)

Lemma flat_feature_table :
  build_feature_table (Learning := demo_learning)
    (training_rows demo_runtime (demo_store flat_levels []) "S1" "W1")
  = Py.Ok flat_table.
Proof. reflexivity. Qed.

(** A hundred hourly levels train a model on the first 80 feature rows and
    evaluate it on the last 20. *)
Lemma train_on_flat_levels :
  exists mae rmse s',
    train_water_level_model (L := demo_learning) demo_runtime
      (demo_store flat_levels []) empty_service "S1" "W1"
    = (Success mae rmse 80 20, s').
Proof.
  rewrite train_water_level_model_cases. cbv zeta.
  rewrite _prepare_features_table, flat_feature_table.
  change (length (training_rows demo_runtime (demo_store flat_levels []) "S1" "W1")
          <? 100)%nat with false.
  cbv iota.
  change (training_rows demo_runtime (demo_store flat_levels []) "S1" "W1")
    with ([("timestamp", CTime 0%Z); ("water_level", CNum 1)]
          :: tl (training_rows demo_runtime (demo_store flat_levels []) "S1" "W1")).
  cbv iota.
  change (length flat_table <? 10)%nat with false. cbv iota.
  rewrite !length_map.
  change (length flat_table <? 50)%nat with false. cbv iota.
  rewrite split_idx_quotient.
  change (4 * length flat_table / 5)%nat with 80%nat.
  cbn [scaler_fit scaler_transform regressor_fit regressor_predict demo_learning
       Py.bind Py.try_except].
  do 3 eexists. reflexivity.
Qed.

(** On the bench the split is 80 and 20 rows of the 100, and the fitted
    pair is registered under the sensor's key. *)
Lemma train_split_is_chronological_witness :
  exists mae rmse s',
    train_water_level_model (L := demo_learning) demo_runtime
      (demo_store flat_levels []) empty_service "S1" "W1"
    = (Success mae rmse 80 20, s')
    /\ scalers s' !! model_key "S1" "W1" = Some (OScaler tt)
    /\ models s' !! model_key "S1" "W1" = Some (ORegressor tt).
Proof.
  destruct train_on_flat_levels as (mae & rmse & s' & Htrain).
  exists mae, rmse, s'. split; [exact Htrain|].
  destruct (train_split_is_chronological (L := demo_learning) demo_runtime
              (demo_store flat_levels []) empty_service s' "S1" "W1"
              mae rmse 80 20 Htrain)
    as (df & [] & [] & Xtr & Xte & y_pred & H).
  cbv zeta in H.
  destruct H as (_ & _ & _ & _ & _ & _ & _ & _ & _ & _ & _ & _ & Hsc & Hm).
  split; assumption.
Defined.


(** ** Loading and predicting *)

Section Predicting.

Context {Regressor Scaler : Type} {L : Learning Regressor Scaler}.
Variable rt : Runtime.
Variable influx : InfluxStore.
Variable module_globals : list string.

(** A failed feature construction is the loop's [break]. *)
Lemma forecast_loop_break (model scaler : pyobj Regressor Scaler)
    (hour : Z) (rest : list Z) (predictions : list ForecastPoint)
    (current_data : list LevelRow) :
  _prepare_prediction_features rt current_data hour = None ->
  forecast_loop rt model scaler (hour :: rest) predictions current_data
  = Py.Ok predictions.
Proof. intros H. cbn [forecast_loop]. now rewrite H. Qed.

(** One round of the loop that did not break: it makes a point with a
    symmetric band and goes on with the point and its row appended. *)
Lemma forecast_loop_step (model scaler : pyobj Regressor Scaler)
    (hour : Z) (rest : list Z) (predictions out : list ForecastPoint)
    (current_data : list LevelRow) (X : FeatureRow) :
  _prepare_prediction_features rt current_data hour = Some X ->
  forecast_loop rt model scaler (hour :: rest) predictions current_data = Py.Ok out ->
  exists p,
    symmetric_band p /\ horizon_hours p = hour
    /\ forall hours,
         forecast_loop rt model scaler (hour :: hours) predictions current_data
         = forecast_loop rt model scaler hours (predictions ++ [p])
             (current_data ++ [context_row rt p]).
Proof.
  intros HX Hloop. cbn [forecast_loop] in Hloop. rewrite HX in Hloop.
  destruct (transform scaler [X]) as [X_scaled|e] eqn:Ht; [|discriminate].
  cbn [Py.bind] in Hloop.
  destruct (predict model X_scaled) as [ys|e] eqn:Hp; [|discriminate].
  cbn [Py.bind] in Hloop.
  destruct (item0 ys) as [prediction|e] eqn:Hi; [|discriminate].
  clear Hloop.
  exists {| fp_timestamp := isoformat rt (now rt + hour * seconds_per_hour)%Z;
            predicted_level := prediction;
            confidence_lower := prediction - 0.1 * Rabs prediction;
            confidence_upper := prediction + 0.1 * Rabs prediction;
            horizon_hours := hour |}.
  split; [|split].
  - unfold symmetric_band. cbn. split; lra.
  - reflexivity.
  - intros hours. cbn [forecast_loop]. rewrite HX, Ht. cbn [Py.bind].
    rewrite Hp. cbn [Py.bind]. rewrite Hi. reflexivity.
Qed.


(** The loop only appends to the points it was given. *)
Lemma forecast_loop_length (model scaler : pyobj Regressor Scaler)
    (hours : list Z) (predictions out : list ForecastPoint)
    (current_data : list LevelRow) :
  forecast_loop rt model scaler hours predictions current_data = Py.Ok out ->
  (length predictions <= length out <= length predictions + length hours)%nat.
Proof.
  revert predictions current_data.
  induction hours as [|hour rest IH]; intros predictions current_data Hloop.
  - cbn in Hloop. inversion Hloop; subst. simpl. lia.
  - destruct (_prepare_prediction_features rt current_data hour) as [X|] eqn:HX.
    + destruct (forecast_loop_step _ _ _ _ _ _ _ _ HX Hloop) as (p & _ & _ & Hstep).
      rewrite Hstep in Hloop. apply IH in Hloop.
      rewrite length_app in Hloop. simpl in *. lia.
    + rewrite forecast_loop_break in Hloop by assumption.
      inversion Hloop; subst. simpl. lia.
Qed.




(** The points returned always come out of the loop, whatever the state. *)
Lemma predict_water_level_points
    (s : Service Regressor Scaler) (db : RelDb) (station_id sensor_id : string)
    (horizon_hours : Z) :
  let out := fst (fst (predict_water_level rt influx module_globals s db
                         station_id sensor_id horizon_hours)) in
  out = []
  \/ exists model scaler rows,
       forecast_loop rt model scaler (hours_range horizon_hours) [] rows = Py.Ok out.
Proof.
  unfold predict_water_level.
  destruct (if bool_decide (is_Some (models s !! model_key station_id sensor_id))
            then (true, s) else load_model module_globals s station_id sensor_id)
    as [loaded s1].
  destruct loaded; cbn [negb]; [|now left].
  destruct (getitem (models s1) (model_key station_id sensor_id)) as [model|e];
    [|now left].
  cbn [Py.bind].
  destruct (getitem (scalers s1) (model_key station_id sensor_id)) as [scaler|e];
    [|now left].
  cbn [Py.bind].
  destruct (_get_recent_data rt influx station_id sensor_id [("hours", 48%Z)])
    as [rows|e]; [|now left].
  cbn [Py.bind]. destruct (Py.not_ rows); [now left|].
  destruct (forecast_loop rt model scaler (hours_range horizon_hours) [] rows)
    as [predictions|e] eqn:Hloop; [|now left].
  cbn. right. eauto.
Qed.

(** When the feature code raises on every call (as the read of
    [pred_time.dayofyear] makes it do), the loop breaks in its first round
    and no point is ever returned. *)
Lemma predict_water_level_without_features
    (s : Service Regressor Scaler) (db : RelDb) (station_id sensor_id : string)
    (horizon_hours : Z) :
  (forall data pred_time, exists e, prediction_features data pred_time = Py.Raise e) ->
  fst (fst (predict_water_level rt influx module_globals s db station_id sensor_id
              horizon_hours)) = [].
Proof.
  intros Hraise.
  assert (Hnone : forall data hour, _prepare_prediction_features rt data hour = None).
  { intros data hour. unfold _prepare_prediction_features.
    destruct (Py.not_ data); [reflexivity|].
    destruct (Hraise data (now rt + hour * seconds_per_hour)%Z) as [e ->]. reflexivity. }
  destruct (predict_water_level_points s db station_id sensor_id horizon_hours)
    as [Hnil | (model & scaler & rows & Hloop)]; [exact Hnil|].
  destruct (hours_range horizon_hours) as [|hour rest].
  - cbn in Hloop. now inversion Hloop.
  - rewrite forecast_loop_break in Hloop by apply Hnone. now inversion Hloop.
Qed.


(** [load_model] without a resolvable [os], or without both artifact
    files, loads nothing and changes nothing. *)
Lemma load_model_absent (s : Service Regressor Scaler) (station_id sensor_id : string) :
  ~ (is_Some (disk s !! model_file (model_key station_id sensor_id))
     /\ is_Some (disk s !! scaler_file (model_key station_id sensor_id))) ->
  load_model module_globals s station_id sensor_id = (false, s).
Proof.
  intros Hfiles. unfold load_model.
  destruct (lookup_global module_globals "os") as [[]|e]; [|reflexivity].
  cbn [Py.bind]. unfold path_exists.
  destruct (bool_decide_reflect
              (is_Some (disk s !! model_file (model_key station_id sensor_id))));
    [|reflexivity].
  destruct (bool_decide_reflect
              (is_Some (disk s !! scaler_file (model_key station_id sensor_id))));
    [|reflexivity].
  tauto.
Qed.

(** C10. With no model for the key in the registry and not both artifact
    files on disk, [predict_water_level] returns the empty list and leaves
    the service (registry and artifacts: nothing was trained) and the
    relational store as they were; and with no recent rows as seed context it
    returns the empty list and stores nothing. *)
Theorem predict_without_model_or_context
    (s : Service Regressor Scaler) (db : RelDb) (station_id sensor_id : string)
    (horizon_hours : Z) :
  let key := model_key station_id sensor_id in
  let res := predict_water_level rt influx module_globals s db station_id sensor_id
               horizon_hours in
  (models s !! key = None ->
   ~ (is_Some (disk s !! model_file key) /\ is_Some (disk s !! scaler_file key)) ->
   res = ([], s, db))
  /\ (_get_recent_data rt influx station_id sensor_id [("hours", 48%Z)] = Py.Ok [] ->
      fst (fst res) = [] /\ snd res = db).
Proof.
  intros key res. split.
  - intros Hnone Hfiles. unfold res, predict_water_level. fold key.
    rewrite Hnone. rewrite bool_decide_eq_false_2 by (intros [? ?]; discriminate).
    rewrite load_model_absent by exact Hfiles. reflexivity.
  - intros Hrows. unfold res, predict_water_level. fold key.
    destruct (if bool_decide (is_Some (models s !! key))
              then (true, s) else load_model module_globals s station_id sensor_id)
      as [loaded s1].
    destruct loaded; cbn [negb]; [|split; reflexivity].
    destruct (getitem (models s1) key) as [model|e]; [|split; reflexivity].
    cbn [Py.bind].
    destruct (getitem (scalers s1) key) as [scaler|e]; [|split; reflexivity].
    cbn [Py.bind]. rewrite Hrows. split; reflexivity.
Qed.

End Predicting.


(** ** The module as written, and the bench *)

(** [ml_forecasting.py] binds no global [os]: [load_model] raises
    [NameError] inside its [try] and reports that nothing was loaded,
    whatever is on disk. *)
Lemma load_model_as_written {Regressor Scaler : Type}
    (s : Service Regressor Scaler) (station_id sensor_id : string) :
  load_model ml_forecasting_globals s station_id sensor_id = (false, s).
Proof. reflexivity. Qed.

(** On the bench the features can be built for a context of up to three
    rows: from two seed rows the loop makes two points and then stops. *)
Lemma predict_on_bench :
  exists p1 p2,
    fst (fst (predict_water_level (L := demo_learning) demo_runtime
                (demo_store [3; 1] []) ml_forecasting_globals trained_service
                empty_db "S1" "W1" 24))
    = [p1; p2]
    /\ horizon_hours p1 = 1%Z /\ horizon_hours p2 = 2%Z
    /\ predicted_level p1 = 0 /\ predicted_level p2 = 0.
Proof. do 2 eexists. split; [reflexivity|]. repeat split. Qed.


(** Two rows in the store are too few to train on. *)
Lemma train_on_two_levels :
  train_water_level_model (L := demo_learning) demo_runtime (demo_store [3; 1] [])
    empty_service "S1" "W1"
  = (InsufficientData, empty_service).
Proof. reflexivity. Qed.

(** With an empty registry and an empty artifact directory nothing is
    predicted and nothing changes. *)
Lemma predict_on_empty_service :
  predict_water_level (L := demo_learning) demo_runtime (demo_store [3; 1] [])
    ml_forecasting_globals empty_service empty_db "S1" "W1" 24
  = ([], empty_service, empty_db).
Proof. reflexivity. Qed.

(** * Further properties of the services *)

(** ** The anomaly detector: alerts, failures and the other tables *)

Section AnomalyAlerts.

Variable rt : Runtime.
Variable influx : InfluxStore.

(** What a call of the detector can do to the relational store: nothing,
    or one anomaly row and one alert row together. *)
Lemma detect_anomalies_outcomes (db : RelDb) (station_id sensor_id : string)
    (data : SensorPayload) :
  let db' := detect_anomalies rt influx db station_id sensor_id data in
  db' = db
  \/ exists z mean_val std_val ts,
       PrimFloat.ltb 3 z = true
       /\ fromisoformat rt (Py.replace_Z (p_timestamp data)) = Py.Ok ts
       /\ db' = _create_anomaly_alert rt db station_id sensor_id data z mean_val std_val.
Proof.
  intros db'. unfold db'. rewrite detect_anomalies_steps. cbv zeta.
  set (window := historical_window rt influx station_id sensor_id).
  destruct (Py.not_ window || (length window <? 10)%nat); [now left|].
  destruct (PrimFloat.eqb _ 0); [now left|].
  match goal with
  | |- context [PrimFloat.ltb 3 ?z] => destruct (PrimFloat.ltb 3 z) eqn:Hz
  end; [|now left].
  destruct (fromisoformat rt (Py.replace_Z (p_timestamp data))) as [ts|e] eqn:Hts.
  - right. do 4 eexists. split; [exact Hz|]. split; reflexivity.
  - left. unfold _create_anomaly_alert. rewrite Hts. reflexivity.
Qed.

(** The detector adds an alert exactly when it adds an anomaly record, one
    of each; the alert carries the station, the sensor, the severity, the
    score, the expected and the actual value of the record; the record's
    score exceeds 3 and its type is 'statistical_outlier'.  The tables of
    forecasts, assessments and estimates are never touched, and no row is
    ever removed. *)
Theorem detect_anomalies_alert_with_record (db : RelDb)
    (station_id sensor_id : string) (data : SensorPayload) :
  let db' := detect_anomalies rt influx db station_id sensor_id data in
  ((anomaly_detections db' = anomaly_detections db /\ alerts db' = alerts db)
   \/ exists a al,
        anomaly_detections db' = anomaly_detections db ++ [a]
        /\ alerts db' = alerts db ++ [al]
        /\ an_station_id a = station_id /\ an_sensor_id a = sensor_id
        /\ an_anomaly_type a = "statistical_outlier"
        /\ PrimFloat.ltb 3 (an_anomaly_score a) = true
        /\ an_actual_value a = p_value data
        /\ al_station_id al = station_id /\ al_meta_sensor_id al = sensor_id
        /\ al_alert_type al = "sensor_anomaly"
        /\ al_severity al = an_severity a
        /\ al_meta_anomaly_score al = an_anomaly_score a
        /\ al_meta_expected_value al = an_expected_value a
        /\ al_meta_actual_value al = an_actual_value a)
  /\ water_level_forecasts db' = water_level_forecasts db
  /\ drought_risk_assessments db' = drought_risk_assessments db
  /\ recharge_estimates db' = recharge_estimates db.
Proof.
  intros db'.
  destruct (detect_anomalies_outcomes db station_id sensor_id data)
    as [Hsame | (z & mean_val & std_val & ts & Hz & Hts & Hmade)];
    cbv zeta in *; subst db'.
  - rewrite Hsame. split; [left; split; reflexivity | repeat split].
  - rewrite Hmade. unfold _create_anomaly_alert. rewrite Hts.
    cbn [Py.bind Py.try_except]. split; [|repeat split].
    right. do 2 eexists. cbn. repeat split. exact Hz.
Qed.

(** A store that cannot be queried, or a timestamp that does not parse,
    leaves the relational store as it was: the detector neither raises nor
    writes. *)
Theorem detect_anomalies_failures_are_silent (db : RelDb)
    (station_id sensor_id : string) (data : SensorPayload) :
  (forall e,
     query_sensor_values influx station_id sensor_id (now rt - 30 * seconds_per_day)%Z
     = Py.Raise e ->
     detect_anomalies rt influx db station_id sensor_id data = db)
  /\ (forall e,
        fromisoformat rt (Py.replace_Z (p_timestamp data)) = Py.Raise e ->
        detect_anomalies rt influx db station_id sensor_id data = db).
Proof.
  split.
  - intros e He. unfold detect_anomalies. rewrite _get_historical_data_days30.
    unfold historical_window. rewrite He. reflexivity.
  - intros e He.
    destruct (detect_anomalies_outcomes db station_id sensor_id data)
      as [Hsame | (z & mean_val & std_val & ts & _ & Hts & _)]; [exact Hsame|].
    congruence.
Qed.

End AnomalyAlerts.

(** ** The pattern analyser: weekly patterns and shape *)

(** Fewer values than timestamps: the index runs past the values. *)
Lemma group_values_short (key : pydatetime -> Z) (values : list float)
    (timestamps : list pydatetime) (i : nat) (d : groups) :
  (i <= length values < i + length timestamps)%nat ->
  exists e, group_values key values timestamps i d = Py.Raise e.
Proof.
  revert i d. induction timestamps as [|t ts IH]; intros i d Hlen; simpl in Hlen; [lia|].
  simpl. destruct (nth_error values i) as [v|] eqn:Hv.
  - apply IH. assert (i < length values)%nat by (apply nth_error_Some; congruence). lia.
  - eauto.
Qed.

(** The analyser returns at most a daily and a weekly pattern, the daily
    one first; nothing for fewer than 24 readings; and nothing, rather than
    an exception, when there are fewer values than timestamps. *)
Theorem detect_patterns_shape (values : list float) (timestamps : list pydatetime) :
  let patterns := _detect_patterns values timestamps in
  ((length values < 24)%nat -> patterns = [])
  /\ ((length values < length timestamps)%nat -> patterns = [])
  /\ (patterns = []
      \/ (exists d, patterns = [d] /\ pattern_type d = "daily")
      \/ (exists w, patterns = [w] /\ pattern_type w = "weekly")
      \/ (exists d w, patterns = [d; w]
                      /\ pattern_type d = "daily" /\ pattern_type w = "weekly")).
Proof.
  intros patterns. unfold patterns, _detect_patterns. split; [|split].
  - intros Hlt. destruct (Nat.ltb_spec (length values) 24); [reflexivity | lia].
  - intros Hlt. destruct (length values <? 24)%nat; [reflexivity|].
    unfold _detect_daily_pattern, _detect_weekly_pattern, detect_grouped_pattern.
    destruct (group_values_short hour values timestamps 0 []) as [e ->]; [lia|].
    destruct (group_values_short weekday values timestamps 0 []) as [e' ->]; [lia|].
    reflexivity.
  - destruct (length values <? 24)%nat; [now left|].
    pose proof (detect_grouped_pattern_name "daily" hour 12 0.1%float values timestamps)
      as Hd.
    pose proof (detect_grouped_pattern_name "weekly" weekday 4 0.05%float values
                  timestamps) as Hw.
    fold (_detect_daily_pattern values timestamps) in Hd.
    fold (_detect_weekly_pattern values timestamps) in Hw.
    destruct (_detect_daily_pattern values timestamps) as [d|];
      destruct (_detect_weekly_pattern values timestamps) as [w|]; cbn.
    + right. right. right. exists d, w. auto.
    + right. left. exists d. auto.
    + right. right. left. exists w. auto.
    + now left.
Qed.

(** The weekly detector as the code decides, in the doubles it computes.
    For a batch with as many values as timestamps: a weekly pattern record
    is produced if and only if the batch has at least 24 readings, its
    timestamps show at least 4 distinct days of the week on their own
    clocks, and the variance numpy returns for the per-weekday means exceeds
    the product of the variance it returns for the values and 0.05; the
    record carries that variance and the confidence
    min(1.0, variance / variance of the values). *)
Theorem weekly_pattern_iff (values : list float) (timestamps : list pydatetime) :
  length values = length timestamps ->
  let weekdays := distinct (map weekday timestamps) in
  let daily_means :=
    map (fun d => Np64.mean (values_at weekday d timestamps values)) weekdays in
  let pattern_variance := Np64.var daily_means in
  let raw_variance := Np64.var values in
  let exceeds := PrimFloat.ltb (raw_variance * 0.05)%float pattern_variance in
  let weekly :=
    List.filter (fun p => String.eqb (pattern_type p) "weekly")
      (_detect_patterns values timestamps) in
  ((24 <= length values)%nat /\ (4 <= length weekdays)%nat /\ exceeds = true ->
   exists p, weekly = [p]
             /\ pat_variance p = pattern_variance
             /\ pat_confidence p = min2 1 (pattern_variance / raw_variance)%float
             /\ averages p
                = map (fun d => (d, Np64.mean (values_at weekday d timestamps values)))
                    weekdays)
  /\ (~ ((24 <= length values)%nat /\ (4 <= length weekdays)%nat /\ exceeds = true) ->
      weekly = []).
Proof.
  intros Hlen weekdays daily_means pattern_variance raw_variance exceeds weekly.
  assert (Hdaily : forall l,
    List.filter (fun p => String.eqb (pattern_type p) "weekly")
      (match _detect_daily_pattern values timestamps with
       | Some daily_pattern => [] ++ [daily_pattern]
       | None => []
       end ++ l)
    = List.filter (fun p => String.eqb (pattern_type p) "weekly") l).
  { intros l. pose proof (detect_grouped_pattern_name "daily" hour 12 0.1%float
                            values timestamps) as Hd.
    fold (_detect_daily_pattern values timestamps) in Hd.
    destruct (_detect_daily_pattern values timestamps) as [d|]; [|reflexivity].
    cbn [app List.filter]. rewrite (Hd d eq_refl). reflexivity. }
  assert (Hweekly : weekly =
    if (length values <? 24)%nat then []
    else if (length weekdays <? 4)%nat then []
    else if exceeds
         then [{| pattern_type := "weekly";
                  averages :=
                    map (fun d => (d, Np64.mean (values_at weekday d timestamps values)))
                      weekdays;
                  pat_variance := pattern_variance;
                  pat_confidence := min2 1 (pattern_variance / raw_variance)%float |}]
         else []).
  { unfold weekly, _detect_patterns.
    destruct (length values <? 24)%nat; [reflexivity|].
    set (dp := match _detect_daily_pattern values timestamps with
               | Some daily_pattern => [] ++ [daily_pattern]
               | None => []
               end).
    assert (Happ : match _detect_weekly_pattern values timestamps with
                   | Some weekly_pattern => dp ++ [weekly_pattern]
                   | None => dp
                   end
                   = dp ++ match _detect_weekly_pattern values timestamps with
                           | Some weekly_pattern => [weekly_pattern]
                           | None => []
                           end).
    { destruct (_detect_weekly_pattern values timestamps);
        [reflexivity | now rewrite app_nil_r]. }
    rewrite Happ. unfold dp. rewrite Hdaily.
    unfold _detect_weekly_pattern.
    rewrite detect_grouped_pattern_rows by assumption. cbv zeta.
    fold weekdays. fold daily_means. fold pattern_variance. fold raw_variance.
    fold exceeds.
    destruct (length weekdays <? 4)%nat; [reflexivity|].
    destruct exceeds; reflexivity. }
  rewrite Hweekly. clear Hweekly Hdaily.
  destruct (Nat.ltb_spec (length values) 24) as [H24|H24].
  { split; [intros (? & _); lia | reflexivity]. }
  destruct (Nat.ltb_spec (length weekdays) 4) as [H4|H4].
  { split; [intros (_ & ? & _); lia | reflexivity]. }
  destruct exceeds.
  - split.
    + intros _. eexists. split; [reflexivity|]. repeat split.
    + intros Hn. exfalso. apply Hn. repeat split; assumption.
  - split; [|reflexivity]. intros (_ & _ & Hgt). discriminate.
Qed.

(** *** The weekly bench *)

Lemma week_weekdays :
  distinct (map weekday week_timestamps) = [3; 4; 5; 6; 0; 1; 2]%Z.
Proof. vm_compute. reflexivity. Qed.

(** Four weeks of daily readings, high on three days of the week: the
    weekday means vary, and one weekly record is produced. *)
Lemma weekly_pattern_iff_witness :
  length week_values = length week_timestamps
  /\ exists p,
       List.filter (fun p => String.eqb (pattern_type p) "weekly")
         (_detect_patterns week_values week_timestamps) = [p]
       /\ map fst (averages p) = [3; 4; 5; 6; 0; 1; 2]%Z.
Proof.
  split; [reflexivity|].
  pose proof (weekly_pattern_iff week_values week_timestamps eq_refl) as H.
  cbv zeta in H. destruct H as [Hyes _].
  destruct Hyes as (p & Hp & _ & _ & Havg).
  { split; [simpl; lia|]. split; [rewrite week_weekdays; simpl; lia|].
    vm_compute. reflexivity. }
  exists p. split; [exact Hp|].
  rewrite Havg, map_map. cbn [fst]. rewrite map_id. apply week_weekdays.
Defined.

(** *** The confidence of a pattern *)

Lemma detect_grouped_pattern_fields (name : string) (key : pydatetime -> Z)
    (min_groups : nat) (share : float) (values : list float)
    (timestamps : list pydatetime) (p : Pattern) :
  detect_grouped_pattern name key min_groups share values timestamps = Some p ->
  PrimFloat.ltb (Np64.var values * share)%float (pat_variance p) = true
  /\ pat_confidence p = min2 1 (pat_variance p / Np64.var values)%float.
Proof.
  unfold detect_grouped_pattern.
  destruct (group_values key values timestamps 0 []) as [grouped|e]; [|discriminate].
  cbn [Py.bind]. destruct (_ <? min_groups)%nat; [discriminate|].
  destruct (PrimFloat.ltb _ _) eqn:Hlt; [|discriminate].
  cbn. intros H. inversion H; subst p. cbn [pat_variance pat_confidence].
  split; [exact Hlt | reflexivity].
Qed.

Lemma min2_one_le (q : float) : PrimFloat.leb (min2 1 q) 1 = true.
Proof.
  unfold min2. destruct (PrimFloat.ltb q 1) eqn:Hq; [now apply float_ltb_leb|].
  reflexivity.
Qed.

(** Every pattern the analyser returns has a variance above the share of
    the variance numpy returns for the values - a tenth for a daily, a
    twentieth for a weekly pattern - and the confidence
    min(1.0, variance / variance of the values), which is at most 1.  The
    variance of the values may be the double 0.0: float64 division then gives
    inf, not an exception, and the confidence is 1.0. *)
Theorem pattern_confidence_at_most_one (values : list float)
    (timestamps : list pydatetime) (p : Pattern) :
  In p (_detect_patterns values timestamps) ->
  let share := if String.eqb (pattern_type p) "daily" then 0.1%float else 0.05%float in
  PrimFloat.ltb (Np64.var values * share)%float (pat_variance p) = true
  /\ pat_confidence p = min2 1 (pat_variance p / Np64.var values)%float
  /\ PrimFloat.leb (pat_confidence p) 1 = true.
Proof.
  intros Hin share. unfold _detect_patterns in Hin.
  destruct (length values <? 24)%nat; [destruct Hin|].
  assert (Hp : (pattern_type p = "daily"
                /\ _detect_daily_pattern values timestamps = Some p)
               \/ (pattern_type p = "weekly"
                   /\ _detect_weekly_pattern values timestamps = Some p)).
  { pose proof (detect_grouped_pattern_name "daily" hour 12 0.1%float values timestamps)
      as Hd.
    pose proof (detect_grouped_pattern_name "weekly" weekday 4 0.05%float values
                  timestamps) as Hw.
    fold (_detect_daily_pattern values timestamps) in Hd.
    fold (_detect_weekly_pattern values timestamps) in Hw.
    destruct (_detect_daily_pattern values timestamps) as [d|];
      destruct (_detect_weekly_pattern values timestamps) as [w|]; cbn in Hin.
    - destruct Hin as [<-|[<-|[]]]; [left | right]; auto.
    - destruct Hin as [<-|[]]. left; auto.
    - destruct Hin as [<-|[]]. right; auto.
    - destruct Hin. }
  destruct Hp as [[Hname Hsome] | [Hname Hsome]];
    apply detect_grouped_pattern_fields in Hsome; destruct Hsome as [Hlt Hconf];
    subst share; rewrite Hname; cbn [String.eqb Ascii.eqb Bool.eqb];
    (split; [exact Hlt|]); (split; [exact Hconf|]);
    rewrite Hconf; apply min2_one_le.
Qed.

(** Thirty-two readings of 0.1 in hour groups of three and two: numpy's
    variance of the readings is 0.0, the hourly means differ in the last
    digit, and the daily pattern reported has confidence 1.0 from a division
    by 0.0. *)
Lemma pattern_confidence_at_most_one_witness :
  Np64.var uneven_values = 0%float
  /\ exists p,
       _detect_patterns uneven_values uneven_timestamps = [p]
       /\ pattern_type p = "daily"
       /\ pat_variance p = 3.8518598887744717e-34%float
       /\ (pat_variance p / Np64.var uneven_values)%float = infinity
       /\ pat_confidence p = 1%float
       /\ PrimFloat.leb (pat_confidence p) 1 = true.
Proof.
  split; [vm_compute; reflexivity|].
  assert (Hp : exists p, _detect_patterns uneven_values uneven_timestamps = [p]
                         /\ pattern_type p = "daily"
                         /\ pat_variance p = 3.8518598887744717e-34%float
                         /\ pat_confidence p = 1%float).
  { eexists. split; [vm_compute; reflexivity|]. repeat split. }
  destruct Hp as (p & Hp & Hname & Hvar & Hconf).
  exists p. split; [exact Hp|]. split; [exact Hname|]. split; [exact Hvar|].
  split; [rewrite Hvar; vm_compute; reflexivity|]. split; [exact Hconf|].
  apply (pattern_confidence_at_most_one uneven_values uneven_timestamps p).
  rewrite Hp. now left.
Defined.

(** ** Training: what a run leaves behind *)



Section TrainingOutcome.

Context {Regressor Scaler : Type} {L : Learning Regressor Scaler}.
Variable rt : Runtime.
Variable influx : InfluxStore.

(** The four ways a run of training ends, with the service it leaves. *)
Lemma train_outcomes (s : Service Regressor Scaler) (station_id sensor_id : string) :
  let data := training_rows rt influx station_id sensor_id in
  let key := model_key station_id sensor_id in
  let out := train_water_level_model rt influx s station_id sensor_id in
  out = (InsufficientData, s)
  \/ out = (InsufficientFeatures, s)
  \/ (exists message, out = (Error message, s))
  \/ (exists (df : list (FeatureRow * R)) (scaler : Scaler) (model : Regressor)
             (mae rmse : R),
        (100 <= length data)%nat
        /\ build_feature_table data = Py.Ok df
        /\ (50 <= length df)%nat
        /\ out = (Success mae rmse (4 * length df / 5) (length df - 4 * length df / 5),
                  _save_model rt
                    {| models := <[key := ORegressor model]> (models s);
                       scalers := <[key := OScaler scaler]> (scalers s);
                       disk := disk s |}
                    (ORegressor model) (OScaler scaler) key)).
Proof.
  intros data key out.
  pose proof (train_water_level_model_cases rt influx s station_id sensor_id) as Hout.
  cbv zeta in Hout. fold data in Hout. fold out in Hout. rewrite Hout. clear Hout.
  destruct (Nat.ltb_spec (length data) 100) as [|H100]; [now left|].
  rewrite _prepare_features_table.
  destruct data as [|r0 data0] eqn:Hdata; [right; now left|].
  rewrite <- Hdata in *. clear Hdata r0 data0.
  destruct (build_feature_table data) as [df|e0] eqn:Hdf; [|right; now left].
  destruct (length df <? 10)%nat; [right; now left|].
  rewrite !length_map.
  destruct (Nat.ltb_spec (length df) 50) as [|H50]; [right; now left|].
  rewrite split_idx_quotient.
  set (k := (4 * length df / 5)%nat).
  assert (Hk : (k <= length df)%nat).
  { unfold k. apply Nat.Div0.div_le_upper_bound. lia. }
  right. right.
  destruct (scaler_fit _) as [scaler|e]; [|left; eexists; reflexivity].
  cbn [Py.bind].
  destruct (scaler_transform scaler (firstn k _)) as [Xtr|e];
    [|left; eexists; reflexivity].
  cbn [Py.bind].
  destruct (scaler_transform scaler (skipn k _)) as [Xte|e];
    [|left; eexists; reflexivity].
  cbn [Py.bind].
  destruct (regressor_fit Xtr _) as [model|e]; [|left; eexists; reflexivity].
  cbn [Py.bind].
  destruct (regressor_predict model Xte) as [y_pred|e]; [|left; eexists; reflexivity].
  cbn [Py.bind Py.try_except]. right.
  exists df, scaler, model. do 2 eexists.
  split; [exact H100|]. split; [reflexivity|]. split; [exact H50|].
  rewrite length_firstn, length_skipn, length_map.
  replace (Nat.min k (length df)) with k by lia. reflexivity.
Qed.

(** A run that does not succeed leaves the service as it was.  A run that
    succeeds leaves the fitted regressor and scaler under the sensor's key in
    the registry, every other key as before.  Saving is best effort: each of
    the key's two artifact files holds the object just fitted or is as it
    was, and every other file is as before; both hold the objects when the
    directory can be made and both files created; and when the model file
    cannot be created (a sensor id with a '/'), the run still succeeds and
    no file is written. *)
Theorem train_registers_pair (s : Service Regressor Scaler)
    (station_id sensor_id : string) :
  let key := model_key station_id sensor_id in
  let out := train_water_level_model rt influx s station_id sensor_id in
  (status (fst out) <> "success" -> snd out = s)
  /\ (status (fst out) = "success" ->
      exists (model : Regressor) (scaler : Scaler),
        models (snd out) !! key = Some (ORegressor model)
        /\ scalers (snd out) !! key = Some (OScaler scaler)
        /\ (forall k, k <> key ->
              models (snd out) !! k = models s !! k
              /\ scalers (snd out) !! k = scalers s !! k)
        /\ (forall path, path <> model_file key -> path <> scaler_file key ->
              disk (snd out) !! path = disk s !! path)
        /\ (disk (snd out) !! model_file key = Some (ORegressor model)
            \/ disk (snd out) !! model_file key = disk s !! model_file key)
        /\ (disk (snd out) !! scaler_file key = Some (OScaler scaler)
            \/ disk (snd out) !! scaler_file key = disk s !! scaler_file key)
        /\ ((exists u, makedirs rt model_path = Py.Ok u) ->
            creatable rt (model_file key) = true ->
            creatable rt (scaler_file key) = true ->
            disk (snd out) !! model_file key = Some (ORegressor model)
            /\ disk (snd out) !! scaler_file key = Some (OScaler scaler))
        /\ (creatable rt (model_file key) = false -> disk (snd out) = disk s)).
Proof.
  intros key out.
  destruct (train_outcomes s station_id sensor_id)
    as [H | [H | [(message & H) | (df & scaler & model & mae & rmse & _ & _ & _ & H)]]];
    cbv zeta in H; fold key in H; fold out in H; rewrite H; cbn [fst snd status].
  - split; [reflexivity | discriminate].
  - split; [reflexivity | discriminate].
  - split; [reflexivity | discriminate].
  - split; [congruence|]. intros _. exists model, scaler.
    destruct (_save_model_spec rt
                {| models := <[key := ORegressor model]> (models s);
                   scalers := <[key := OScaler scaler]> (scalers s);
                   disk := disk s |}
                (ORegressor model) (OScaler scaler) key)
      as (Hmo & Hsc & Hother & Hmf & Hsf & Hboth & Hnone).
    cbv zeta in Hmo, Hsc, Hother, Hmf, Hsf, Hboth, Hnone.
    rewrite Hmo, Hsc. cbn [models scalers disk] in *.
    split; [apply lookup_insert_eq|]. split; [apply lookup_insert_eq|].
    split; [intros k Hk; split; now apply lookup_insert_ne|].
    split; [exact Hother|]. split; [exact Hmf|]. split; [exact Hsf|].
    split; [exact Hboth|]. intros Hc. now rewrite (Hnone Hc).
Qed.

(** The sample counts of a successful run: they add up to the number of
    feature rows, of which there are at least 50 (from at least 100 fetched
    rows); the training count is four fifths of it rounded down, so at least
    40 rows train the model, at least 10 evaluate it, and the evaluation
    rows are at most a quarter of the training rows plus one. *)
Theorem train_sample_counts (s s' : Service Regressor Scaler)
    (station_id sensor_id : string) (mae rmse : R) (n_train n_test : nat) :
  train_water_level_model rt influx s station_id sensor_id
  = (Success mae rmse n_train n_test, s') ->
  (100 <= length (training_rows rt influx station_id sensor_id))%nat
  /\ (50 <= n_train + n_test)%nat
  /\ n_train = (4 * (n_train + n_test) / 5)%nat
  /\ (40 <= n_train)%nat
  /\ (10 <= n_test)%nat
  /\ (4 * n_test <= n_train + 4)%nat.
Proof.
  intros Htrain.
  destruct (train_outcomes s station_id sensor_id)
    as [H | [H | [(message & H) | (df & scaler & model & mae' & rmse' & H100 & _ & H50 & H)]]];
    cbv zeta in H; rewrite Htrain in H; try discriminate.
  assert (Hntr : n_train = (4 * length df / 5)%nat) by congruence.
  assert (Hnte : n_test = (length df - 4 * length df / 5)%nat) by congruence.
  clear H Htrain. subst n_train n_test. set (n := length df) in *.
  pose proof (Nat.div_mod_eq (4 * n) 5) as Hdm.
  pose proof (Nat.mod_upper_bound (4 * n) 5 ltac:(lia)) as Hm.
  assert (Hsum : (4 * n / 5 + (n - 4 * n / 5) = n)%nat).
  { assert (4 * n / 5 <= n)%nat by (apply Nat.Div0.div_le_upper_bound; lia). lia. }
  rewrite Hsum. repeat split; try lia; exact H100.
Qed.

End TrainingOutcome.

(** On the bench a hundred rows give 80 training and 20 evaluation rows. *)
Lemma train_sample_counts_witness :
  exists mae rmse s',
    train_water_level_model (L := demo_learning) demo_runtime
      (demo_store flat_levels []) empty_service "S1" "W1"
    = (Success mae rmse 80 20, s')
    /\ (50 <= 80 + 20)%nat /\ (40 <= 80)%nat /\ (10 <= 20)%nat.
Proof.
  destruct train_on_flat_levels as (mae & rmse & s' & Htrain).
  exists mae, rmse, s'. split; [exact Htrain|].
  destruct (train_sample_counts (L := demo_learning) demo_runtime
              (demo_store flat_levels []) empty_service s' "S1" "W1"
              mae rmse 80 20 Htrain) as (_ & H50 & _ & H40 & H10 & _).
  repeat split; assumption.
Defined.

(** ** The rows training reads *)

Lemma upsert_In_sorted {V : Type} (k : Z) (v : V) (d : list (Z * V)) (k0 : Z) (v0 : V) :
  StronglySorted Z.lt (map fst d) ->
  In (k0, v0) (upsert k v d) ->
  (k0 = k /\ v0 = v) \/ (k0 <> k /\ In (k0, v0) d).
Proof.
  induction d as [|[k' v'] d IH]; intros Hs Hin; simpl in Hin.
  - destruct Hin as [Hin|[]]. left. split; congruence.
  - inversion Hs as [|? ? Hs' Hall]; subst.
    assert (Hkeys : forall a b, In (a, b) d -> (k' < a)%Z).
    { intros a b Hab. rewrite List.Forall_forall in Hall. apply Hall.
      apply in_map_iff. exists (a, b). split; [reflexivity | exact Hab]. }
    destruct (Z.ltb_spec k k') as [Hlt|Hge].
    + destruct Hin as [Hin|[Hin|Hin]].
      * left. split; congruence.
      * right. split; [|left; exact Hin]. inversion Hin; subst. lia.
      * right. split; [|right; exact Hin]. apply Hkeys in Hin. lia.
    + destruct (Z.eqb_spec k k') as [->|Hne].
      * destruct Hin as [Hin|Hin].
        -- left. split; congruence.
        -- right. split; [|right; exact Hin]. apply Hkeys in Hin. lia.
      * destruct Hin as [Hin|Hin].
        -- right. split; [|left; exact Hin]. inversion Hin; subst. lia.
        -- destruct (IH Hs' Hin) as [Heq|[Hne' Hd]]; [now left|].
           right. split; [exact Hne' | right; exact Hd].
Qed.

Lemma upsert_keys {V : Type} (k : Z) (v : V) (d : list (Z * V)) (k0 : Z) :
  k0 = k \/ In k0 (map fst d) -> In k0 (map fst (upsert k v d)).
Proof.
  induction d as [|[k' v'] d IH]; simpl; intros H.
  - left. destruct H as [H|[]]. congruence.
  - destruct (Z.ltb_spec k k'); [simpl; intuition congruence|].
    destruct (Z.eqb_spec k k'); simpl; [intuition congruence|].
    destruct H as [H|[H|H]]; auto.
Qed.

(** The dict of readings after the store's answer, stated from the answer:
    a reading is in it when it is the last the store gave for its
    timestamp. *)
Lemma fold_upsert_last {V : Type} (recs : list (Z * V)) (k0 : Z) (v0 : V) :
  In (k0, v0) (fold_left (fun d rec => upsert (fst rec) (snd rec) d) recs []) ->
  exists before after,
    recs = before ++ (k0, v0) :: after /\ ~ In k0 (map fst after).
Proof.
  induction recs as [|[k v] recs IH] using rev_ind; [intros []|].
  rewrite fold_left_app. cbn [fold_left fst snd]. intros Hin.
  apply upsert_In_sorted in Hin;
    [|apply (fold_upsert_sorted recs []); constructor].
  destruct Hin as [[-> ->]|[Hne Hin]].
  - exists recs, []. split; [reflexivity | intros []].
  - destruct (IH Hin) as (before & after & -> & Hafter).
    exists before, (after ++ [(k, v)]). split.
    + rewrite <- app_assoc. reflexivity.
    + rewrite map_app, in_app_iff. simpl. intuition congruence.
Qed.

Lemma fold_upsert_keys {V : Type} (recs d : list (Z * V)) (k0 : Z) :
  In k0 (map fst recs) \/ In k0 (map fst d) ->
  In k0 (map fst (fold_left (fun d rec => upsert (fst rec) (snd rec) d) recs d)).
Proof.
  revert d. induction recs as [|[k v] recs IH]; intros d H; simpl.
  - destruct H as [[]|H]. exact H.
  - apply IH. simpl in H. destruct H as [[H|H]|H]; [right| now left |right].
    + apply upsert_keys. now left.
    + apply upsert_keys. now right.
Qed.

Lemma lookup_ts_upsert {V : Type} (t k : Z) (v : V) (d : list (Z * V)) :
  lookup_ts t (upsert k v d) = if (t =? k)%Z then Some v else lookup_ts t d.
Proof.
  induction d as [|[k' v'] d IH]; simpl; [reflexivity|].
  destruct (Z.ltb_spec k k'); [reflexivity|].
  destruct (Z.eqb_spec k k') as [->|Hne]; simpl.
  - destruct (t =? k')%Z; reflexivity.
  - rewrite IH. destruct (Z.eqb_spec t k') as [->|]; [|reflexivity].
    destruct (Z.eqb_spec k' k); [congruence | reflexivity].
Qed.

Lemma get_set_field {V : Type} (f g : string) (v : V) (fs : list (string * V)) :
  get_field f (set_field g v fs) = if String.eqb f g then Some v else get_field f fs.
Proof.
  induction fs as [|[f' v'] fs IH]; simpl; [reflexivity|].
  destruct (String.eqb_spec g f') as [->|Hne]; simpl.
  - destruct (String.eqb f f'); reflexivity.
  - rewrite IH. destruct (String.eqb_spec f f') as [->|]; [|reflexivity].
    destruct (String.eqb_spec f' g); [congruence | reflexivity].
Qed.

Lemma set_field_keys {V : Type} (g : string) (v : V) (fs : list (string * V)) (k : string) :
  In k (map fst (set_field g v fs)) -> k = g \/ In k (map fst fs).
Proof.
  induction fs as [|[f' v'] fs IH]; simpl.
  - intros [H|[]]. now left.
  - destruct (String.eqb_spec g f') as [->|Hne]; simpl; intros [H|H]; auto.
    destruct (IH H); auto.
Qed.

Lemma set_field_NoDup {V : Type} (g : string) (v : V) (fs : list (string * V)) :
  List.NoDup (map fst fs) -> List.NoDup (map fst (set_field g v fs)).
Proof.
  induction fs as [|[f' v'] fs IH]; simpl; intros Hnd.
  - constructor; [intros [] | constructor].
  - inversion Hnd as [|? ? Hnin Hnd']; subst.
    destruct (String.eqb_spec g f') as [->|Hne]; simpl; [exact Hnd|].
    constructor; [|now apply IH].
    intros Hin. apply set_field_keys in Hin. destruct Hin as [->|Hin]; auto.
Qed.

Lemma get_field_None {V : Type} (f : string) (fs : list (string * V)) :
  ~ In f (map fst fs) -> get_field f fs = None.
Proof.
  induction fs as [|[f' v'] fs IH]; simpl; intros Hnin; [reflexivity|].
  destruct (String.eqb_spec f f') as [->|Hne]; [exfalso; auto|].
  apply IH. auto.
Qed.

(** A key of the weather dict takes the place of the row's value, every
    other key of the row keeps its value. *)
Lemma get_dict_update (f : string) (fields : list (string * R)) (row : TrainRow) :
  List.NoDup (map fst fields) ->
  get_field f (dict_update row fields)
  = match get_field f fields with
    | Some x => Some (CNum x)
    | None => get_field f row
    end.
Proof.
  unfold dict_update. revert row.
  induction fields as [|[g x] fields IH]; intros row Hnd; [reflexivity|].
  inversion Hnd as [|? ? Hnin Hnd']; subst.
  cbn [fold_left fst snd get_field]. rewrite (IH _ Hnd'), get_set_field.
  destruct (String.eqb_spec f g) as [->|Hne]; [|reflexivity].
  now rewrite (get_field_None g fields Hnin).
Qed.

Lemma field_of_weather (t : Z) (f : string)
    (recs : list (datetime * (string * R))) (d : list (Z * list (string * R))) :
  field_of t f (fold_left (fun d rec => add_weather rec d) recs d)
  = fold_left (fun acc rec =>
                 if (t =? fst rec)%Z && String.eqb f (fst (snd rec))
                 then Some (snd (snd rec)) else acc)
              recs (field_of t f d).
Proof.
  revert d. induction recs as [|[k [g x]] recs IH]; intros d; [reflexivity|].
  cbn [fold_left fst snd]. rewrite IH. f_equal.
  unfold field_of, add_weather. cbn [fst snd]. rewrite lookup_ts_upsert.
  destruct (Z.eqb_spec t k) as [->|Hne]; [|reflexivity].
  rewrite get_set_field. cbn [andb].
  destruct (String.eqb f g); [reflexivity|].
  destruct (lookup_ts k d); reflexivity.
Qed.

Lemma weather_fields_NoDup (recs : list (datetime * (string * R)))
    (d : list (Z * list (string * R))) :
  (forall t fs, lookup_ts t d = Some fs -> List.NoDup (map fst fs)) ->
  forall t fs,
    lookup_ts t (fold_left (fun d rec => add_weather rec d) recs d) = Some fs ->
    List.NoDup (map fst fs).
Proof.
  revert d. induction recs as [|[k [g x]] recs IH]; intros d Hd; [exact Hd|].
  cbn [fold_left]. apply IH. intros t fs. unfold add_weather. cbn [fst snd].
  rewrite lookup_ts_upsert. destruct (t =? k)%Z; [|apply Hd].
  intros [= <-]. apply set_field_NoDup.
  destruct (lookup_ts k d) as [fs0|] eqn:Hk; [now apply (Hd k) | constructor].
Qed.

(** The row of a reading, column by column: a weather field of the
    reading's timestamp is in the row with the value the store gave last,
    also under the names ['timestamp'] and ['water_level']; what the weather
    does not name is the reading's. *)
Lemma get_data_point (timestamp : datetime) (water_level : R)
    (weather_result : list (datetime * (string * R))) (f : string) :
  get_field f (data_point timestamp water_level
                 (fold_left (fun d rec => add_weather rec d) weather_result []))
  = match weather_value timestamp f weather_result with
    | Some x => Some (CNum x)
    | None => get_field f [("timestamp", CTime timestamp);
                           ("water_level", CNum water_level)]
    end.
Proof.
  unfold weather_value.
  pose proof (field_of_weather timestamp f weather_result []) as Hfold.
  change (field_of timestamp f []) with (@None R) in Hfold. rewrite <- Hfold.
  clear Hfold. unfold data_point, field_of.
  destruct (lookup_ts timestamp _) as [fields|] eqn:Hfields; [|reflexivity].
  apply get_dict_update.
  apply (weather_fields_NoDup weather_result [] ltac:(discriminate) _ _ Hfields).
Qed.

(** [_get_training_data]: one row per timestamp of the store's readings,
    in increasing order of time, built from the last reading the store gave
    for the timestamp.  Column by column the row holds the weather field of
    that name and timestamp if the store gave one - so a weather field named
    ['water_level'] or ['timestamp'] takes the place of the reading's - and
    the reading's timestamp and level otherwise.  When either query fails
    there is no row at all. *)
Theorem training_rows_from_store (rt : Runtime) (influx : InfluxStore)
    (station_id sensor_id : string) :
  let start_time := (now rt - 365 * seconds_per_day)%Z in
  let rows := training_rows rt influx station_id sensor_id in
  _get_training_data rt influx station_id sensor_id [("days", 365%Z)] = Py.Ok rows
  /\ (forall sensor_result weather_result,
        query_sensor_data influx station_id sensor_id start_time = Py.Ok sensor_result ->
        query_weather_data influx station_id start_time = Py.Ok weather_result ->
        exists readings : list (datetime * R),
          StronglySorted Z.lt (map fst readings)
          /\ (forall t, In t (map fst readings) <-> In t (map fst sensor_result))
          /\ (forall t v, In (t, v) readings ->
                exists before after,
                  sensor_result = before ++ (t, v) :: after
                  /\ ~ In t (map fst after))
          /\ Forall2 (fun reading row =>
                        forall f,
                          get_field f row
                          = match weather_value (fst reading) f weather_result with
                            | Some x => Some (CNum x)
                            | None =>
                                get_field f [("timestamp", CTime (fst reading));
                                             ("water_level", CNum (snd reading))]
                            end)
               readings rows)
  /\ (forall e, query_sensor_data influx station_id sensor_id start_time = Py.Raise e ->
                rows = [])
  /\ (forall e, query_weather_data influx station_id start_time = Py.Raise e ->
                rows = []).
Proof.
  intros start_time rows.
  split; [reflexivity|].
  unfold rows, training_rows. fold start_time.
  split; [|split].
  - intros sensor_result weather_result -> ->. cbn [Py.bind Py.try_except].
    set (sensor_data := fold_left (fun d rec => upsert (fst rec) (snd rec) d)
                          sensor_result []).
    exists sensor_data.
    split; [apply (fold_upsert_sorted sensor_result []); constructor|].
    split; [|split].
    + intros t. split.
      * intros Ht. apply in_map_iff in Ht. destruct Ht as ([t' v] & <- & Hin).
        apply fold_upsert_last in Hin. destruct Hin as (before & after & -> & _).
        rewrite map_app, in_app_iff. right. now left.
      * intros Ht. apply (fold_upsert_keys sensor_result []). now left.
    + intros t v Hin. now apply fold_upsert_last.
    + induction sensor_data as [|[t v] readings IH]; cbn [map]; constructor;
        [|exact IH].
      intros f. cbn [fst snd]. apply get_data_point.
  - intros e ->. reflexivity.
  - intros e ->. destruct (query_sensor_data influx station_id sensor_id start_time);
      reflexivity.
Qed.

(** ** Predicting: horizons, and what is stored *)

Section PredictingMore.

Context {Regressor Scaler : Type} {L : Learning Regressor Scaler}.
Variable rt : Runtime.
Variable influx : InfluxStore.
Variable module_globals : list string.

(** The point of a round of the loop that did not break. *)
Lemma forecast_loop_point (model scaler : pyobj Regressor Scaler)
    (hour : Z) (rest : list Z) (predictions out : list ForecastPoint)
    (current_data : list LevelRow) :
  forecast_loop rt model scaler (hour :: rest) predictions current_data = Py.Ok out ->
  out = predictions
  \/ exists p,
       horizon_hours p = hour
       /\ fp_timestamp p = isoformat rt (now rt + hour * seconds_per_hour)%Z
       /\ forecast_loop rt model scaler rest (predictions ++ [p])
            (current_data ++ [context_row rt p]) = Py.Ok out.
Proof.
  cbn [forecast_loop].
  destruct (_prepare_prediction_features rt current_data hour) as [X|].
  - destruct (transform scaler [X]) as [X_scaled|e]; [|discriminate].
    cbn [Py.bind]. destruct (predict model X_scaled) as [ys|e]; [|discriminate].
    cbn [Py.bind]. destruct (item0 ys) as [prediction|e]; [|discriminate].
    cbn [Py.bind]. intros Hloop. right. eexists.
    split; [|split; [|exact Hloop]]; reflexivity.
  - intros H. left. now inversion H.
Qed.

Lemma forecast_loop_horizons (model scaler : pyobj Regressor Scaler)
    (hours : list Z) (predictions out : list ForecastPoint)
    (current_data : list LevelRow) :
  forecast_loop rt model scaler hours predictions current_data = Py.Ok out ->
  exists new,
    out = predictions ++ new
    /\ map horizon_hours new = firstn (length new) hours
    /\ Forall (fun p => fp_timestamp p
                        = isoformat rt (now rt + horizon_hours p * seconds_per_hour)%Z)
         new.
Proof.
  revert predictions current_data.
  induction hours as [|hour rest IH]; intros predictions current_data Hloop.
  - cbn in Hloop. inversion Hloop; subst. exists []. rewrite app_nil_r.
    split; [reflexivity|]. split; [reflexivity | constructor].
  - apply forecast_loop_point in Hloop.
    destruct Hloop as [->|(p & Hh & Hts & Hrest)].
    + exists []. rewrite app_nil_r. split; [reflexivity|].
      split; [reflexivity | constructor].
    + destruct (IH _ _ Hrest) as (new & -> & Hmap & Hall).
      exists (p :: new). rewrite <- app_assoc. split; [reflexivity|].
      split.
      * cbn [map length firstn]. rewrite Hh, Hmap. reflexivity.
      * constructor; [rewrite Hh; exact Hts | exact Hall].
Qed.

(** [load_model] never writes to the artifact directory. *)
Lemma load_model_disk (s : Service Regressor Scaler) (station_id sensor_id : string) :
  disk (snd (load_model module_globals s station_id sensor_id)) = disk s.
Proof.
  unfold load_model.
  destruct (lookup_global module_globals "os"); [|reflexivity].
  cbn [Py.bind]. destruct (_ && _); [|reflexivity].
  destruct (joblib_load s _); [|reflexivity]. cbn [Py.bind].
  destruct (joblib_load s _); reflexivity.
Qed.

(** The two ways [predict_water_level] ends: with no point and an
    untouched relational store, or with the points of the loop handed to
    [_store_predictions]. *)
Lemma predict_water_level_result
    (s : Service Regressor Scaler) (db : RelDb) (station_id sensor_id : string)
    (horizon_hours : Z) :
  let res := predict_water_level rt influx module_globals s db station_id sensor_id
               horizon_hours in
  disk (snd (fst res)) = disk s
  /\ ((fst (fst res) = [] /\ snd res = db)
      \/ exists model scaler rows,
           forecast_loop rt model scaler (hours_range horizon_hours) [] rows
           = Py.Ok (fst (fst res))
           /\ snd res = _store_predictions rt db station_id sensor_id (fst (fst res))).
Proof.
  intros res. unfold res, predict_water_level.
  pose proof (load_model_disk s station_id sensor_id) as Hdisk.
  destruct (bool_decide (is_Some (models s !! model_key station_id sensor_id))).
  2:{ destruct (load_model module_globals s station_id sensor_id) as [loaded s1].
      cbn [snd] in Hdisk. destruct loaded; cbn [negb].
      - destruct (getitem (models s1) _) as [model|e]; [|split; [exact Hdisk | now left]].
        cbn [Py.bind].
        destruct (getitem (scalers s1) _) as [scaler|e]; [|split; [exact Hdisk | now left]].
        cbn [Py.bind].
        destruct (_get_recent_data rt influx station_id sensor_id _) as [rows|e];
          [|split; [exact Hdisk | now left]].
        cbn [Py.bind]. destruct (Py.not_ rows); [split; [exact Hdisk | now left]|].
        destruct (forecast_loop rt model scaler (hours_range horizon_hours) [] rows)
          as [predictions|e] eqn:Hloop; [|split; [exact Hdisk | now left]].
        cbn. split; [exact Hdisk|]. right. eauto.
      - split; [exact Hdisk | now left]. }
  cbn [negb].
  destruct (getitem (models s) _) as [model|e]; [|split; [reflexivity | now left]].
  cbn [Py.bind].
  destruct (getitem (scalers s) _) as [scaler|e]; [|split; [reflexivity | now left]].
  cbn [Py.bind].
  destruct (_get_recent_data rt influx station_id sensor_id _) as [rows|e];
    [|split; [reflexivity | now left]].
  cbn [Py.bind]. destruct (Py.not_ rows); [split; [reflexivity | now left]|].
  destruct (forecast_loop rt model scaler (hours_range horizon_hours) [] rows)
    as [predictions|e] eqn:Hloop; [|split; [reflexivity | now left]].
  cbn. split; [reflexivity|]. right. eauto.
Qed.

Lemma firstn_of_seq (k start len : nat) :
  firstn k (seq start len) = seq start (Nat.min k len).
Proof.
  revert start len. induction k as [|k IH]; intros start [|len]; simpl; try reflexivity.
  now rewrite IH.
Qed.

(** The points come back in the order of their hours, 1, 2, ... up to the
    number of points, which is at most the horizon (none for a horizon of 0
    or less); each is stamped with the clock plus its hours. *)
Theorem predict_horizons_consecutive
    (s : Service Regressor Scaler) (db : RelDb) (station_id sensor_id : string)
    (horizon_hours0 : Z) :
  let out := fst (fst (predict_water_level rt influx module_globals s db
                         station_id sensor_id horizon_hours0)) in
  map horizon_hours out = map Z.of_nat (seq 1 (length out))
  /\ (Z.of_nat (length out) <= Z.max 0 horizon_hours0)%Z
  /\ Forall (fun p => fp_timestamp p
                      = isoformat rt (now rt + horizon_hours p * seconds_per_hour)%Z)
       out.
Proof.
  intros out.
  destruct (predict_water_level_result s db station_id sensor_id horizon_hours0)
    as (_ & [[Hnil _] | (model & scaler & rows & Hloop & _)]);
    cbv zeta in *; fold out in Hnil || fold out in Hloop.
  - rewrite Hnil. split; [reflexivity|]. split; [simpl; lia | constructor].
  - pose proof (forecast_loop_length rt _ _ _ _ _ _ Hloop) as Hlen.
    apply forecast_loop_horizons in Hloop.
    destruct Hloop as (new & Hout & Hmap & Hall). simpl in Hout. subst new.
    unfold hours_range in *. rewrite length_map, length_seq in Hlen. simpl in Hlen.
    split; [|split; [lia | exact Hall]].
    rewrite Hmap, firstn_map, firstn_of_seq.
    replace (Nat.min (length out) (Z.to_nat horizon_hours0)) with (length out) by lia.
    reflexivity.
Qed.

Lemma forecast_rows_match (station_id : string) (predictions : list ForecastPoint)
    (rows : list WaterLevelForecast) :
  forecast_rows rt station_id predictions = Py.Ok rows ->
  Forall2 (row_of_point rt station_id) predictions rows.
Proof.
  revert rows. induction predictions as [|p ps IH]; intros rows Hrows.
  - cbn in Hrows. inversion Hrows. constructor.
  - cbn [forecast_rows] in Hrows.
    destruct (fromisoformat rt (Py.replace_Z (fp_timestamp p))) as [date|e] eqn:Hdate;
      [|discriminate].
    cbn [Py.bind] in Hrows.
    destruct (forecast_rows rt station_id ps) as [rows'|e]; [|discriminate].
    cbn [Py.bind] in Hrows. inversion Hrows; subst rows. clear Hrows.
    constructor; [|apply IH; reflexivity].
    unfold row_of_point. cbn. repeat split. exact Hdate.
Qed.

(** Whatever [predict_water_level] stores answers the points it returns:
    either one forecast row per returned point, in order, dated with the
    datetime the point's timestamp parses to, with the point's level and
    band, the model name 'random_forest' and the horizon in days; or nothing
    (when a timestamp fails to parse, or there is no point).  No other table
    and no artifact file is touched. *)
Theorem predict_stores_what_it_returns
    (s : Service Regressor Scaler) (db : RelDb) (station_id sensor_id : string)
    (horizon_hours0 : Z) :
  let res := predict_water_level rt influx module_globals s db station_id sensor_id
               horizon_hours0 in
  (water_level_forecasts (snd res) = water_level_forecasts db
   \/ exists rows,
        water_level_forecasts (snd res) = water_level_forecasts db ++ rows
        /\ Forall2 (row_of_point rt station_id) (fst (fst res)) rows)
  /\ anomaly_detections (snd res) = anomaly_detections db
  /\ alerts (snd res) = alerts db
  /\ drought_risk_assessments (snd res) = drought_risk_assessments db
  /\ recharge_estimates (snd res) = recharge_estimates db
  /\ disk (snd (fst res)) = disk s.
Proof.
  intros res.
  destruct (predict_water_level_result s db station_id sensor_id horizon_hours0)
    as (Hdisk & [[_ Hdb] | (model & scaler & rows & _ & Hdb)]);
    cbv zeta in *; fold res in Hdisk, Hdb; rewrite Hdb.
  - split; [now left|]. repeat split; exact Hdisk.
  - unfold _store_predictions.
    destruct (forecast_rows rt station_id (fst (fst res))) as [frows|e] eqn:Hrows.
    + cbn [Py.bind Py.try_except]. split; [|repeat split; exact Hdisk].
      right. exists frows. split; [reflexivity|]. now apply forecast_rows_match.
    + cbn. split; [now left|]. repeat split; exact Hdisk.
Qed.

End PredictingMore.

(** With the feature code that raises on every call no point comes back,
    even from a service that holds a fitted pair and a store that holds
    rows. *)
Lemma predict_water_level_without_features_witness :
  (forall data pred_time,
     exists e, prediction_features (Learning := featureless_learning) data pred_time
               = Py.Raise e)
  /\ fst (fst (predict_water_level (L := featureless_learning) demo_runtime
                 (demo_store [3; 1] []) ml_forecasting_globals trained_service
                 empty_db "S1" "W1" 24)) = [].
Proof.
  assert (H : forall data pred_time,
             exists e, prediction_features (Learning := featureless_learning)
                         data pred_time = Py.Raise e).
  { intros data pred_time. eexists. reflexivity. }
  split; [exact H|].
  exact (predict_water_level_without_features (L := featureless_learning)
           demo_runtime (demo_store [3; 1] []) ml_forecasting_globals
           trained_service empty_db "S1" "W1" 24 H).
Defined.

(** ** Drought risk and recharge: what the blocks store *)

Lemma Int_part_nonneg (x : R) : 0 <= x -> (0 <= Int_part x)%Z.
Proof.
  intros Hx. unfold Int_part. destruct (archimed x) as [Hup _].
  assert (H0 : (0 < up x)%Z) by (apply lt_IZR; lra). lia.
Qed.

Lemma py_int_nonneg (x : R) : 0 <= x -> (0 <= py_int x)%Z.
Proof.
  intros Hx. unfold py_int. destruct (Rle_dec 0 x); [|contradiction].
  now apply Int_part_nonneg.
Qed.

Lemma fold_min_le (d : R) (l : list R) (x : R) :
  In x l -> fold_right Rmin d l <= x.
Proof.
  induction l as [|y l IH]; intros Hx; [destruct Hx|]. simpl.
  destruct Hx as [->|Hx].
  - apply Rmin_l.
  - eapply Rle_trans; [apply Rmin_r | now apply IH].
Qed.

Lemma min_le_In (l : list R) (x : R) : In x l -> Np.min l <= x.
Proof. apply fold_min_le. Qed.

Lemma last_In {A : Type} (l : list A) (d : A) : l <> [] -> In (List.last l d) l.
Proof.
  induction l as [|x l IH]; [congruence|]. intros _.
  destruct l as [|y l]; [now left|]. right. apply IH. discriminate.
Qed.

Section BlocksStore.

Variable rt : Runtime.

(** The assessment of fetched rows stores one snapshot that says what the
    result says (level, score, days, current level, average, trend); the
    current level is a level of the window and not below its minimum, and
    the days to drought are never negative.  Without rows the result is
    'unknown' with score 0 and nothing is stored. *)
Theorem assess_recent_data_persists_result (db : RelDb) (station_id : string)
    (recent_data : list LevelRow) :
  let out := assess_recent_data rt db station_id recent_data in
  (recent_data = [] -> out = (unknown_risk, db))
  /\ (recent_data <> [] ->
      exists a d,
        drought_risk_assessments (snd out) = drought_risk_assessments db ++ [a]
        /\ risk_details (fst out) = Some d
        /\ dr_station_id a = station_id
        /\ dr_risk_level a = risk_level (fst out)
        /\ dr_risk_score a = risk_score (fst out)
        /\ dr_days_to_drought a = days_to_drought d
        /\ dr_current_level_m a = current_level d
        /\ dr_historical_average_m a = historical_average d
        /\ dr_trend a = trend d
        /\ In (current_level d) (map lv_water_level recent_data)
        /\ Np.min (map lv_water_level recent_data) <= current_level d
        /\ (0 <= days_to_drought d)%Z).
Proof.
  intros out. subst out. unfold assess_recent_data. split.
  - intros ->. reflexivity.
  - intros Hne. destruct recent_data as [|r0 rest] eqn:Hrows; [congruence|].
    rewrite <- Hrows in *. assert (Hne' : recent_data <> []) by congruence.
    replace (Py.not_ recent_data) with false by (rewrite Hrows; reflexivity).
    clear Hrows r0 rest Hne.
    set (current := lv_water_level
                      (List.last recent_data {| lv_timestamp := 0%Z; lv_water_level := 0 |})).
    set (levels := map lv_water_level recent_data).
    assert (Hin : In current levels).
    { unfold current, levels. apply in_map. now apply last_In. }
    pose proof (min_le_In levels current Hin) as Hmin.
    do 2 eexists. cbn [fst snd risk_details risk_level risk_score].
    split; [reflexivity|]. split; [reflexivity|]. cbn.
    repeat split; try assumption.
    unfold days_to_drought_of, Rltb.
    destruct (Rlt_dec (recent_trend_of levels) 0) as [Hneg|_]; [|lia].
    apply py_int_nonneg.
    assert (0 < Rabs (recent_trend_of levels)) by (apply Rabs_pos_lt; lra).
    apply Rmult_le_pos; [|lra].
    apply Rmult_le_pos; [lra|]. left. now apply Rinv_0_lt_compat.
Qed.

(** The estimate from fetched rows stores one snapshot with the recharge
    and the rainfall the result reports, by water balance, with confidence
    0.7 and no pumping or evapotranspiration; the recharge is never below the
    rainfall total (a falling level adds nothing).  With fewer than seven
    level rows nothing is stored. *)
Theorem recharge_from_data_stores_estimate (db : RelDb) (station_id : string)
    (days : Z) (water_data : list LevelRow) (rainfall_data : list (datetime * R)) :
  let out := recharge_from_data rt db station_id days water_data rainfall_data in
  ((length water_data < 7)%nat -> snd out = db)
  /\ ((7 <= length water_data)%nat ->
      exists e d,
        recharge_estimates (snd out) = recharge_estimates db ++ [e]
        /\ recharge_details (fst out) = Some d
        /\ re_station_id e = station_id
        /\ re_recharge_mm e = recharge_mm (fst out)
        /\ re_rainfall_mm e = rainfall_mm d
        /\ re_method e = "water_balance"
        /\ re_confidence_score e = 0.7
        /\ re_pumping_mm e = 0 /\ re_evapotranspiration_mm e = 0
        /\ rainfall_mm d = Np.sum (map snd rainfall_data)
        /\ period_days d = days
        /\ rainfall_mm d <= recharge_mm (fst out)
        /\ (0 < level_change_m d ->
            recharge_mm (fst out) = level_change_m d * 1000 + rainfall_mm d)
        /\ (level_change_m d <= 0 -> recharge_mm (fst out) = rainfall_mm d)).
Proof.
  intros out. subst out. unfold recharge_from_data. split; intros Hlen.
  - destruct water_data as [|x l]; [reflexivity|]. cbn [Py.not_ orb].
    destruct (Nat.ltb_spec (length (x :: l)) 7); [reflexivity | lia].
  - destruct water_data as [|x l] eqn:Hw; [simpl in Hlen; lia|].
    rewrite <- Hw in *. replace (Py.not_ water_data) with false by (rewrite Hw; reflexivity).
    cbn [orb]. destruct (Nat.ltb_spec (length water_data) 7); [lia|].
    set (levels := map lv_water_level water_data).
    set (change := List.last levels 0 - List.hd 0 levels).
    assert (Hrain : (if Py.not_ rainfall_data then 0 else Np.sum (map snd rainfall_data))
                    = Np.sum (map snd rainfall_data)).
    { destruct rainfall_data; reflexivity. }
    rewrite Hrain.
    do 2 eexists. cbn [fst snd recharge_details recharge_mm].
    split; [reflexivity|]. split; [reflexivity|]. cbn.
    repeat split.
    + pose proof (Rmax_l 0 (change * 1000)). lra.
    + intros Hpos. rewrite Rmax_right by lra. reflexivity.
    + intros Hneg. rewrite Rmax_left by lra. lra.
Qed.

End BlocksStore.

(** The assessment of the levels 3 and 1: below the mean 2 and within a
    tenth of the minimum 1, on a flat trend. *)
Lemma assess_recent_data_score_witness :
  level_rows [3; 1] <> []
  /\ risk_score (fst (assess_recent_data demo_runtime empty_db "S1" (level_rows [3; 1])))
     = level_signal 1 2 1 + trend_signal 0 + minimum_signal 1 1.
Proof.
  split; [discriminate|].
  destruct (assess_recent_data_score demo_runtime empty_db "S1" (level_rows [3; 1]))
    as (Hscore & _); [discriminate|].
  change (map lv_water_level (level_rows [3; 1])) with [3; 1] in Hscore.
  rewrite mean_3_1, std_3_1, min_3_1 in Hscore. exact Hscore.
Defined.

(** ** The analytics endpoints *)

Section Endpoints.

Context {Regressor Scaler : Type} {L : Learning Regressor Scaler}.
Variable rt : Runtime.
Variable influx : InfluxStore.

(** Training reads the registry and the disk only to write to them: two
    services are trained to the same result, and on success the same pair is
    put into either. *)
Lemma train_of_any_service (s s' : Service Regressor Scaler)
    (station_id sensor_id : string) :
  let key := model_key station_id sensor_id in
  let out := train_water_level_model rt influx s station_id sensor_id in
  let out' := train_water_level_model rt influx s' station_id sensor_id in
  fst out = fst out'
  /\ ((status (fst out) <> "success" /\ snd out = s /\ snd out' = s')
      \/ (status (fst out) = "success"
          /\ exists model scaler,
               let put (s0 : Service Regressor Scaler) :=
                 _save_model rt
                   {| models := <[key := ORegressor model]> (models s0);
                      scalers := <[key := OScaler scaler]> (scalers s0);
                      disk := disk s0 |}
                   (ORegressor model) (OScaler scaler) key in
               snd out = put s /\ snd out' = put s')).
Proof.
  intros key out out'. subst out out'.
  rewrite !train_water_level_model_cases. cbv zeta.
  destruct (length (training_rows rt influx station_id sensor_id) <? 100)%nat;
    [split; [reflexivity | left; repeat split; discriminate]|].
  destruct (_prepare_features _) as [[X y]|];
    [|split; [reflexivity | left; repeat split; discriminate]].
  destruct (length X <? 50)%nat;
    [split; [reflexivity | left; repeat split; discriminate]|].
  destruct (scaler_fit _) as [scaler|e];
    [|split; [reflexivity | left; repeat split; discriminate]]. cbn [Py.bind].
  destruct (scaler_transform scaler (firstn _ X)) as [Xtr|e];
    [|split; [reflexivity | left; repeat split; discriminate]]. cbn [Py.bind].
  destruct (scaler_transform scaler (skipn _ X)) as [Xte|e];
    [|split; [reflexivity | left; repeat split; discriminate]]. cbn [Py.bind].
  destruct (regressor_fit _ _) as [model|e];
    [|split; [reflexivity | left; repeat split; discriminate]]. cbn [Py.bind].
  destruct (regressor_predict _ _) as [y_pred|e];
    [|split; [reflexivity | left; repeat split; discriminate]].
  split; [reflexivity|]. right. split; [reflexivity|].
  exists model, scaler. split; reflexivity.
Qed.

(** With the pair in the registry a forecast reads the registry and never
    the disk. *)
Lemma predict_of_registered (module_globals : list string)
    (s s' : Service Regressor Scaler) (db : RelDb)
    (station_id sensor_id : string) (horizon_hours : Z) :
  models s = models s' -> scalers s = scalers s' ->
  is_Some (models s !! model_key station_id sensor_id) ->
  let out := predict_water_level rt influx module_globals s db station_id sensor_id
               horizon_hours in
  let out' := predict_water_level rt influx module_globals s' db station_id sensor_id
                horizon_hours in
  fst (fst out) = fst (fst out') /\ snd out = snd out'
  /\ snd (fst out) = s /\ snd (fst out') = s'.
Proof.
  intros Hm Hs Hkey out out'. subst out out'. unfold predict_water_level.
  rewrite <- Hm, (bool_decide_eq_true_2 _ Hkey). cbn [negb].
  rewrite <- ?Hm, <- ?Hs.
  destruct (getitem (models s) _) as [model|e]; [|now cbn]. cbn [Py.bind].
  destruct (getitem (scalers s) _) as [scaler|e]; [|now cbn]. cbn [Py.bind].
  destruct (_get_recent_data rt influx station_id sensor_id _) as [rows|e]; [|now cbn].
  cbn [Py.bind]. destruct (Py.not_ rows); [now cbn|].
  destruct (forecast_loop rt model scaler _ [] rows) as [predictions|e]; now cbn.
Qed.

(** The drought-risk and the recharge endpoint answer every request with
    404, whatever the station, the sensor, the period and the stores hold,
    and store nothing. *)
Theorem estimator_endpoints_always_404 (db : RelDb) (station_id sensor_id : string)
    (days : Z) :
  get_drought_risk_assessment rt influx db station_id sensor_id
  = (HTTPException 404 "Drought risk assessment not available", db)
  /\ get_recharge_estimate rt influx db station_id days
     = (HTTPException 404 "Recharge estimate not available", db).
Proof. split; reflexivity. Qed.

(** As the module is written, the forecast endpoint trains on every
    request: model files on disk have no say in the answer or in what is
    stored, a training that does not succeed ends the request in 400 with the
    training's message and nothing changed, and a body that is returned is
    not empty. *)
Theorem forecast_endpoint_trains_every_request
    (files : gmap string (pyobj Regressor Scaler)) (db : RelDb)
    (station_id sensor_id : string) (horizon_days : Z) :
  let out := get_water_level_forecast rt influx ml_forecasting_globals files db
               station_id sensor_id horizon_days in
  let fresh := get_water_level_forecast rt influx ml_forecasting_globals ∅ db
                 station_id sensor_id horizon_days in
  let training_result :=
    fst (train_water_level_model rt influx (new_MLForecastingService ∅)
           station_id sensor_id) in
  fst (fst out) = fst (fst fresh)
  /\ snd out = snd fresh
  /\ (status training_result <> "success" ->
      out = (HTTPException 400
               ("Failed to train model: "
                ++ get_message training_result "Unknown error")%string,
             files, db))
  /\ (forall body, fst (fst out) = Respond body ->
      status training_result = "success" /\ body <> []).
Proof.
  intros out fresh training_result. subst out fresh training_result.
  unfold get_water_level_forecast. rewrite !load_model_as_written. cbn [negb].
  destruct (train_of_any_service (new_MLForecastingService files)
              (new_MLForecastingService ∅) station_id sensor_id)
    as (Hres & [(Hfail & Hs & Hs') | (Hok & model & scaler & Hs & Hs')]);
    cbv zeta in *.
  - destruct (train_water_level_model rt influx (new_MLForecastingService files) _ _)
      as [r s2].
    destruct (train_water_level_model rt influx (new_MLForecastingService ∅) _ _)
      as [r' s2'].
    cbn [fst snd] in *. subst r' s2 s2'.
    destruct (String.eqb_spec (status r) "success") as [Heq|_]; [contradiction|].
    cbn [negb fst snd new_MLForecastingService disk].
    repeat split; try reflexivity; intros; discriminate.
  - destruct (train_water_level_model rt influx (new_MLForecastingService files) _ _)
      as [r s2].
    destruct (train_water_level_model rt influx (new_MLForecastingService ∅) _ _)
      as [r' s2'].
    cbn [fst snd] in *. subst r'. rewrite Hok. cbn [String.eqb Ascii.eqb Bool.eqb negb].
    assert (Hmo : models s2 = <[model_key station_id sensor_id := ORegressor model]> ∅
                  /\ scalers s2 = <[model_key station_id sensor_id := OScaler scaler]> ∅).
    { rewrite Hs.
      match goal with
      | |- context [_save_model rt ?s0 ?m ?c ?k] =>
          destruct (_save_model_spec rt s0 m c k) as (H1 & H2 & _)
      end.
      cbv zeta in H1, H2. rewrite H1, H2. split; reflexivity. }
    assert (Hmo' : models s2' = <[model_key station_id sensor_id := ORegressor model]> ∅
                   /\ scalers s2' = <[model_key station_id sensor_id := OScaler scaler]> ∅).
    { rewrite Hs'.
      match goal with
      | |- context [_save_model rt ?s0 ?m ?c ?k] =>
          destruct (_save_model_spec rt s0 m c k) as (H1 & H2 & _)
      end.
      cbv zeta in H1, H2. rewrite H1, H2. split; reflexivity. }
    destruct Hmo as (Hmo & Hsc). destruct Hmo' as (Hmo' & Hsc').
    assert (Hkey : is_Some (models s2 !! model_key station_id sensor_id)).
    { rewrite Hmo. rewrite lookup_insert_eq. eauto. }
    destruct (predict_of_registered ml_forecasting_globals s2 s2' db station_id
                sensor_id (horizon_days * 24) ltac:(now rewrite Hmo, Hmo')
                ltac:(now rewrite Hsc, Hsc') Hkey) as (Hpts & Hdb & _ & _).
    cbv zeta in Hpts, Hdb.
    destruct (predict_water_level rt influx ml_forecasting_globals s2 _ _ _ _)
      as [[predictions s3] db1].
    destruct (predict_water_level rt influx ml_forecasting_globals s2' _ _ _ _)
      as [[predictions' s3'] db1'].
    cbn [fst snd] in Hpts, Hdb. subst predictions' db1'.
    destruct predictions as [|p predictions]; cbn [Py.not_ fst snd].
    + repeat split; try reflexivity; intros; try contradiction; discriminate.
    + repeat split; try reflexivity; intros; try contradiction.
      inversion H. discriminate.
Qed.

End Endpoints.

Section EndpointsMore.

Context {Regressor Scaler : Type} {L : Learning Regressor Scaler}.
Variable rt : Runtime.
Variable influx : InfluxStore.

(** As the module is written, the training endpoint trains whatever
    [force_retrain] says and whatever is on disk: it never answers that the
    model exists.  A training that does not succeed gives 400 with the
    training's message and leaves the files alone; a successful one gives the
    body with the training's four metrics and touches no file but the
    sensor's two.  Those two are on disk afterwards when the directory can be
    made and both files created; when the model file cannot be created the
    answer is the same and the files are as they were. *)
Theorem train_endpoint_ignores_force_retrain
    (files : gmap string (pyobj Regressor Scaler))
    (station_id sensor_id : string) (force_retrain : bool) :
  let out := train_forecasting_model rt influx ml_forecasting_globals files
               station_id sensor_id force_retrain in
  let result := fst (train_water_level_model rt influx (new_MLForecastingService files)
                       station_id sensor_id) in
  let key := model_key station_id sensor_id in
  out = train_forecasting_model rt influx ml_forecasting_globals files
          station_id sensor_id (negb force_retrain)
  /\ fst out <> HTTPException 400 "Model already exists. Use force_retrain=true to retrain."
  /\ match result with
     | Success mae rmse training_samples test_samples =>
         fst out = Respond {| resp_message := "Model trained successfully";
                              resp_station_id := station_id;
                              resp_sensor_id := sensor_id;
                              training_metrics :=
                                {| tm_mae := Some mae;
                                   tm_rmse := Some rmse;
                                   tm_training_samples := Some training_samples;
                                   tm_test_samples := Some test_samples |} |}
         /\ (forall path, path <> model_file key -> path <> scaler_file key ->
               snd out !! path = files !! path)
         /\ ((exists u, makedirs rt model_path = Py.Ok u) ->
             creatable rt (model_file key) = true ->
             creatable rt (scaler_file key) = true ->
             is_Some (snd out !! model_file key)
             /\ is_Some (snd out !! scaler_file key))
         /\ (creatable rt (model_file key) = false -> snd out = files)
     | _ =>
         out = (HTTPException 400
                  ("Model training failed: " ++ get_message result "Unknown error")%string,
                files)
     end.
Proof.
  intros out result key. subst out result key.
  unfold train_forecasting_model.
  assert (Hload : (if negb force_retrain
                   then load_model ml_forecasting_globals (new_MLForecastingService files)
                          station_id sensor_id
                   else (false, new_MLForecastingService files))
                  = (false, new_MLForecastingService files)).
  { destruct force_retrain; reflexivity. }
  assert (Hload' : (if negb (negb force_retrain)
                    then load_model ml_forecasting_globals (new_MLForecastingService files)
                           station_id sensor_id
                    else (false, new_MLForecastingService files))
                   = (false, new_MLForecastingService files)).
  { destruct force_retrain; reflexivity. }
  rewrite Hload, Hload'. clear Hload Hload'.
  split; [reflexivity|].
  destruct (train_outcomes rt influx (new_MLForecastingService files) station_id sensor_id)
    as [H | [H | [(m & H) | (df & sc & mo & mae & rmse & _ & _ & _ & H)]]];
    cbv zeta in H; rewrite H; cbn [fst snd status String.eqb Ascii.eqb Bool.eqb negb];
    (split; [discriminate|]); try reflexivity.
  cbn [get_mae get_rmse get_training_samples get_test_samples].
  split; [reflexivity|].
  match goal with
  | |- context [_save_model rt ?s0 ?m ?c ?k] =>
      destruct (_save_model_spec rt s0 m c k) as (_ & _ & Hother & _ & _ & Hboth & Hnone)
  end.
  cbv zeta in Hother, Hboth, Hnone.
  cbn [new_MLForecastingService models scalers disk] in *.
  split; [exact Hother|]. split.
  - intros Hdir Hm Hs. destruct (Hboth Hdir Hm Hs) as [-> ->]. split; eauto.
  - intros Hc. now rewrite (Hnone Hc).
Qed.

(** When the feature code raises for every context and time - as the
    [dayofyear] of a [datetime.datetime] does - the forecast endpoint never
    returns a forecast: the request ends in 400 (training failed) or in 404
    (no forecast data), and no forecast row is stored. *)
Theorem forecast_endpoint_without_features (module_globals : list string)
    (files : gmap string (pyobj Regressor Scaler)) (db : RelDb)
    (station_id sensor_id : string) (horizon_days : Z) :
  (forall data pred_time, exists e, prediction_features data pred_time = Py.Raise e) ->
  let out := get_water_level_forecast rt influx module_globals files db
               station_id sensor_id horizon_days in
  snd out = db
  /\ ((exists detail, fst (fst out) = HTTPException 400 detail)
      \/ fst (fst out) = HTTPException 404 "No forecast data available").
Proof.
  intros Hraise out. subst out. unfold get_water_level_forecast.
  destruct (load_model module_globals _ station_id sensor_id) as [model_loaded s1].
  assert (Hpred : forall s,
             let res := predict_water_level rt influx module_globals s db station_id
                          sensor_id (horizon_days * 24) in
             fst (fst res) = [] /\ snd res = db).
  { intros s res.
    pose proof (predict_water_level_without_features rt influx module_globals s db
                  station_id sensor_id (horizon_days * 24) Hraise) as Hnil.
    fold res in Hnil. split; [exact Hnil|].
    destruct (predict_water_level_result rt influx module_globals s db station_id
                sensor_id (horizon_days * 24))
      as (_ & [[_ Hdb] | (model & scaler & rows & _ & Hdb)]);
      cbv zeta in Hdb; fold res in Hdb; [exact Hdb|].
    rewrite Hdb, Hnil. unfold _store_predictions. cbn. unfold add_forecasts.
    destruct db; cbn. now rewrite app_nil_r. }
  destruct model_loaded; cbn [negb].
  - destruct (Hpred s1) as [Hnil Hdb]. cbv zeta in Hnil, Hdb.
    destruct (predict_water_level _ _ _ s1 _ _ _ _) as [[predictions s3] db1].
    cbn [fst snd] in Hnil, Hdb. subst. cbn. split; [reflexivity | now right].
  - destruct (train_water_level_model rt influx s1 station_id sensor_id)
      as [training_result s2].
    destruct (negb (String.eqb (status training_result) "success")).
    + cbn. split; [reflexivity | left; eauto].
    + destruct (Hpred s2) as [Hnil Hdb]. cbv zeta in Hnil, Hdb.
      destruct (predict_water_level _ _ _ s2 _ _ _ _) as [[predictions s3] db1].
      cbn [fst snd] in Hnil, Hdb. subst. cbn. split; [reflexivity | now right].
Qed.

End EndpointsMore.

(** A request for the forecast of S1/W1 where the feature code raises. *)
Lemma forecast_endpoint_without_features_witness :
  (forall data pred_time,
     exists e, prediction_features (Learning := featureless_learning) data pred_time
               = Py.Raise e)
  /\ snd (get_water_level_forecast (L := featureless_learning) demo_runtime
            (demo_store [3; 1] []) ml_forecasting_globals ∅ empty_db "S1" "W1" 7)
     = empty_db.
Proof.
  assert (H : forall data pred_time,
             exists e, prediction_features (Learning := featureless_learning)
                         data pred_time = Py.Raise e).
  { intros data pred_time. eexists. reflexivity. }
  split; [exact H|].
  exact (proj1 (forecast_endpoint_without_features (L := featureless_learning)
                  demo_runtime (demo_store [3; 1] []) ml_forecasting_globals ∅
                  empty_db "S1" "W1" 7 H)).
Defined.

(** * Batches of readings: grouping and what is never stored *)

(** ** Splitting a key at the underscore *)

Lemma split_nonempty (sep : ascii) (s : string) : split sep s <> [].
Proof.
  induction s as [|c s IH]; simpl; [discriminate|].
  destruct (Ascii.eqb c sep); [discriminate|].
  destruct (split sep s); [contradiction | discriminate].
Qed.

Lemma split_plain (s : string) : has_underscore s = false -> split "_" s = [s].
Proof.
  induction s as [|c s IH]; simpl; [reflexivity|].
  intros H. apply orb_false_iff in H as [Hc Hs]. rewrite Hc, (IH Hs). reflexivity.
Qed.

Lemma append_empty (b : string) : ("" ++ b)%string = b.
Proof. reflexivity. Qed.

Lemma append_String (c : ascii) (a b : string) :
  (String c a ++ b)%string = String c (a ++ b)%string.
Proof. reflexivity. Qed.

(** The round trip of the key: ids without an underscore come back. *)
Lemma split_batch_key (a b : string) :
  has_underscore a = false -> has_underscore b = false ->
  split "_" (a ++ "_" ++ b) = [a; b].
Proof.
  intros Ha Hb. induction a as [|c a IH].
  - rewrite append_empty, append_String, append_empty. simpl.
    now rewrite (split_plain b Hb).
  - simpl in Ha. apply orb_false_iff in Ha as [Hc Ha].
    rewrite append_String. simpl. rewrite Hc, (IH Ha). reflexivity.
Qed.

Lemma split_length_app (a b : string) :
  length (split "_" (a ++ "_" ++ b))
  = (length (split "_" a) + length (split "_" b))%nat.
Proof.
  induction a as [|c a IH].
  - rewrite append_empty, append_String, append_empty. reflexivity.
  - rewrite append_String. simpl.
    destruct (Ascii.eqb c "_"); simpl; [now rewrite IH|].
    pose proof (split_nonempty "_" (a ++ "_" ++ b)) as Hne.
    pose proof (split_nonempty "_" a) as Hne'.
    destruct (split "_" (a ++ "_" ++ b)); [contradiction|].
    destruct (split "_" a); [contradiction|]. simpl in *. exact IH.
Qed.

Lemma split_length_underscore (s : string) :
  has_underscore s = true -> (2 <= length (split "_" s))%nat.
Proof.
  induction s as [|c s IH]; simpl; [discriminate|].
  pose proof (split_nonempty "_" s) as Hne.
  destruct (Ascii.eqb c "_"); simpl.
  - intros _. destruct (split "_" s); [contradiction | simpl; lia].
  - intros Hs. specialize (IH Hs). destruct (split "_" s); simpl in *; lia.
Qed.

Lemma split_length_pos (s : string) : (1 <= length (split "_" s))%nat.
Proof.
  pose proof (split_nonempty "_" s). destruct (split "_" s); [contradiction | simpl; lia].
Qed.

(** A key splits into two parts only when neither id has an underscore. *)
Lemma batch_key_parts (d : BatchReading) :
  if plain_ids d
  then split "_" (batch_key d) = [b_station_id d; b_sensor_id d]
  else (3 <= length (split "_" (batch_key d)))%nat.
Proof.
  unfold plain_ids, batch_key.
  destruct (has_underscore (b_station_id d)) eqn:Ha; simpl.
  - rewrite split_length_app. apply split_length_underscore in Ha.
    pose proof (split_length_pos (b_sensor_id d)). lia.
  - destruct (has_underscore (b_sensor_id d)) eqn:Hb; simpl.
    + rewrite split_length_app. apply split_length_underscore in Hb.
      pose proof (split_length_pos (b_station_id d)). lia.
    + now apply split_batch_key.
Qed.

(** Two readings with the key of a reading with plain ids are of the same
    sensor. *)
Lemma batch_key_same_sensor (d d' : BatchReading) :
  plain_ids d = true ->
  String.eqb (batch_key d') (batch_key d) = same_sensor d d'.
Proof.
  intros Hd. pose proof (batch_key_parts d) as Hparts. rewrite Hd in Hparts.
  unfold same_sensor.
  destruct (String.eqb_spec (batch_key d') (batch_key d)) as [Heq|Hne].
  - pose proof (batch_key_parts d') as Hparts'. rewrite Heq, Hparts in Hparts'.
    destruct (plain_ids d'); [|simpl in Hparts'; lia].
    inversion Hparts' as [[Ha Hb]]. now rewrite !String.eqb_refl.
  - destruct (String.eqb_spec (b_station_id d') (b_station_id d)) as [Ha|]; [|reflexivity].
    destruct (String.eqb_spec (b_sensor_id d') (b_sensor_id d)) as [Hb|]; [|reflexivity].
    exfalso. apply Hne. unfold batch_key. now rewrite Ha, Hb.
Qed.

(** ** The dict of the first loop *)

Lemma distinct_keys_In (ks : list string) (k : string) :
  In k (distinct_keys ks) <-> In k ks.
Proof.
  induction ks as [|k0 ks IH]; [tauto|]. simpl.
  rewrite filter_In, IH. destruct (String.eqb_spec k k0); simpl; intuition congruence.
Qed.

Lemma distinct_keys_NoDup (ks : list string) : List.NoDup (distinct_keys ks).
Proof.
  induction ks as [|k0 ks IH]; simpl; constructor.
  - rewrite filter_In. intros [_ H]. rewrite String.eqb_refl in H. discriminate.
  - now apply List.NoDup_filter.
Qed.

Lemma filter_twice {A : Type} (p q : A -> bool) (l : list A) :
  List.filter p (List.filter q l) = List.filter (fun x => q x && p x) l.
Proof.
  induction l as [|x l IH]; [reflexivity|]. simpl.
  destruct (q x); simpl; [destruct (p x); now rewrite IH | exact IH].
Qed.

Lemma distinct_keys_app (l1 l2 : list string) :
  distinct_keys (l1 ++ l2)
  = distinct_keys l1
    ++ List.filter (fun k => negb (existsb (String.eqb k) l1)) (distinct_keys l2).
Proof.
  induction l1 as [|a l1 IH]; simpl.
  - symmetry. apply forallb_filter_id. now apply forallb_forall.
  - f_equal. rewrite IH, List.filter_app, filter_twice. f_equal.
    apply filter_ext. intros k. destruct (String.eqb k a); simpl;
      [now rewrite andb_false_r | now rewrite andb_true_r].
Qed.

Lemma readings_of_key_absent (k : string) (batch : list BatchReading) :
  ~ In k (map batch_key batch) -> readings_of_key k batch = [].
Proof.
  unfold readings_of_key. induction batch as [|d batch IH]; [reflexivity|].
  simpl. intros Hn. destruct (String.eqb_spec (batch_key d) k); [tauto|].
  apply IH. tauto.
Qed.

Lemma grouped_append_map (f : string -> list BatchReading) (k : string)
    (d : BatchReading) (ks : list string) :
  List.NoDup ks ->
  (~ In k ks -> f k = []) ->
  grouped_append k d (map (fun k' => (k', f k')) ks)
  = map (fun k' => (k', f k' ++ (if String.eqb k' k then [d] else [])))
      (if existsb (String.eqb k) ks then ks else ks ++ [k]).
Proof.
  intros Hnd Hfresh. induction ks as [|k0 ks IH].
  - simpl. rewrite String.eqb_refl, Hfresh by tauto. reflexivity.
  - inversion Hnd as [|? ? Hk0 Hnd']; subst. simpl.
    destruct (String.eqb_spec k k0) as [->|Hne]; simpl.
    + rewrite String.eqb_refl. f_equal. apply map_ext_in. intros a Ha.
      destruct (String.eqb_spec a k0) as [->|_]; [contradiction|]. now rewrite app_nil_r.
    + rewrite IH; [| assumption | intros Hn; apply Hfresh; simpl; intuition congruence].
      destruct (existsb (String.eqb k) ks); simpl;
        (destruct (String.eqb_spec k0 k) as [Heq|_]; [congruence|]);
        rewrite app_nil_r; reflexivity.
Qed.

Lemma distinct_keys_snoc (ks : list string) (k : string) :
  distinct_keys (ks ++ [k]) = if existsb (String.eqb k) ks then distinct_keys ks
                              else distinct_keys ks ++ [k].
Proof.
  rewrite distinct_keys_app. simpl.
  destruct (existsb (String.eqb k) ks); simpl; [apply app_nil_r | reflexivity].
Qed.

Lemma existsb_distinct_keys (k : string) (ks : list string) :
  existsb (String.eqb k) (distinct_keys ks) = existsb (String.eqb k) ks.
Proof.
  apply eq_true_iff_eq. rewrite !existsb_exists. split; intros (x & Hx & Hk).
  - exists x. split; [now apply distinct_keys_In | exact Hk].
  - exists x. split; [now apply distinct_keys_In | exact Hk].
Qed.

(** The first loop files every reading under its key, the keys in order
    of first appearance and the readings of a key in batch order. *)
Lemma group_batch_grouped (batch : list BatchReading) :
  group_batch batch = grouped_batch batch.
Proof.
  unfold group_batch. induction batch as [|d batch IH] using rev_ind; [reflexivity|].
  rewrite fold_left_app. simpl. rewrite IH. unfold grouped_batch.
  rewrite (grouped_append_map (fun k => readings_of_key k batch)).
  - rewrite map_app. simpl. rewrite distinct_keys_snoc, existsb_distinct_keys.
    apply map_ext. intros k. unfold readings_of_key. rewrite List.filter_app. simpl.
    now rewrite (String.eqb_sym k).
  - apply distinct_keys_NoDup.
  - intros Hn. apply readings_of_key_absent. now rewrite <- distinct_keys_In.
Qed.

(** ** Which groups a batch processes *)

Lemma first_readings_In (l : list BatchReading) (d : BatchReading) :
  In d (first_readings l) -> In d l.
Proof.
  revert d. induction l as [|x l IH]; intros d; simpl; [tauto|].
  intros [->|Hd]; [now left|]. apply filter_In in Hd as [Hd _]. right. now apply IH.
Qed.

Lemma plain_prefix_plain (l : list BatchReading) (d : BatchReading) :
  In d (plain_prefix l) -> plain_ids d = true.
Proof.
  induction l as [|x l IH]; simpl; [tauto|].
  destruct (plain_ids x) eqn:Hx; [|intros []].
  intros [<-|Hd]; [exact Hx | now apply IH].
Qed.

Lemma plain_prefix_split (l : list BatchReading) :
  exists rest,
    l = plain_prefix l ++ rest
    /\ (rest = [] \/ exists d0 rest', rest = d0 :: rest' /\ plain_ids d0 = false).
Proof.
  induction l as [|x l (rest & Hl & Hrest)]; simpl.
  - exists []. split; [reflexivity | now left].
  - destruct (plain_ids x) eqn:Hx.
    + exists rest. split; [simpl; now rewrite <- Hl | exact Hrest].
    + exists (x :: l). split; [reflexivity | right; eauto].
Qed.

Lemma filter_map_comm {A B : Type} (f : A -> B) (p : B -> bool) (l : list A) :
  List.filter p (map f l) = map f (List.filter (fun x => p (f x)) l).
Proof.
  induction l as [|x l IH]; [reflexivity|]. simpl.
  destruct (p (f x)); simpl; now rewrite IH.
Qed.

Lemma distinct_keys_plain (l : list BatchReading) :
  (forall d, In d l -> plain_ids d = true) ->
  distinct_keys (map batch_key l) = map batch_key (first_readings l).
Proof.
  induction l as [|x l IH]; intros Hplain; [reflexivity|]. simpl.
  rewrite IH by (intros d Hd; apply Hplain; now right).
  rewrite filter_map_comm. do 2 f_equal. apply filter_ext. intros d.
  rewrite batch_key_same_sensor by (apply Hplain; now left). reflexivity.
Qed.

Lemma fold_left_ext_in {A B : Type} (f g : A -> B -> A) (l : list B) (a : A) :
  (forall a x, In x l -> f a x = g a x) -> fold_left f l a = fold_left g l a.
Proof.
  revert a. induction l as [|x l IH]; intros a H; [reflexivity|]. simpl.
  rewrite H by now left. apply IH. intros a' y Hy. apply H. now right.
Qed.

Section Batches.

Variable rt : Runtime.
Variable module_globals : list string.
Variable write_api_write : InfluxPoint -> Py.result unit.
Variable np_polyfit_slope : list float -> list float -> Py.result float.
Variable np_corrcoef : list float -> list float -> float.

Lemma process_groups_plain (f : BatchReading -> list BatchReading)
    (ds : list BatchReading) (tail : list (string * list BatchReading)) (st : Stores) :
  (forall d, In d ds -> plain_ids d = true) ->
  process_groups rt module_globals write_api_write np_polyfit_slope np_corrcoef st
    (map (fun d => (batch_key d, f d)) ds ++ tail)
  = process_groups rt module_globals write_api_write np_polyfit_slope np_corrcoef
      (fold_left
         (fun st d =>
            _process_sensor_group rt module_globals write_api_write np_polyfit_slope np_corrcoef st
              (b_station_id d) (b_sensor_id d) (f d))
         ds st)
      tail.
Proof.
  revert st. induction ds as [|d ds IH]; intros st Hplain; [reflexivity|].
  simpl. pose proof (batch_key_parts d) as Hparts.
  rewrite (Hplain d) in Hparts by now left. rewrite Hparts.
  apply IH. intros d' Hd'. apply Hplain. now right.
Qed.

Lemma process_groups_stops (st : Stores) (d0 : BatchReading)
    (group_data : list BatchReading) (rest : list (string * list BatchReading)) :
  plain_ids d0 = false ->
  process_groups rt module_globals write_api_write np_polyfit_slope np_corrcoef st ((batch_key d0, group_data) :: rest)
  = st.
Proof.
  intros Hd0. simpl. pose proof (batch_key_parts d0) as Hparts. rewrite Hd0 in Hparts.
  destruct (split "_" (batch_key d0)) as [|a [|b [|c l]]]; simpl in Hparts; try lia.
  reflexivity.
Qed.

(** [process_batch_data] processes the sensors that first appear before
    the first reading with an underscore in its station or sensor id, in the
    order of their first readings, each one under its own station and sensor
    id and with all of its readings of the whole batch in batch order.  From
    the sensor of that reading on, nothing is processed. *)
Theorem process_batch_data_groups (st : Stores) (data_batch : list BatchReading) :
  process_batch_data rt module_globals write_api_write np_polyfit_slope np_corrcoef st data_batch
  = fold_left
      (fun st d =>
         _process_sensor_group rt module_globals write_api_write np_polyfit_slope np_corrcoef st
           (b_station_id d) (b_sensor_id d) (List.filter (same_sensor d) data_batch))
      (first_readings (plain_prefix data_batch)) st.
Proof.
  unfold process_batch_data. rewrite group_batch_grouped. unfold grouped_batch.
  assert (Hplain : forall d, In d (first_readings (plain_prefix data_batch)) ->
                             plain_ids d = true).
  { intros d Hd. apply first_readings_In in Hd. eapply plain_prefix_plain, Hd. }
  assert (Hks : exists tail,
             distinct_keys (map batch_key data_batch)
             = map batch_key (first_readings (plain_prefix data_batch)) ++ tail
             /\ (tail = [] \/ exists d0 tail', tail = batch_key d0 :: tail'
                                               /\ plain_ids d0 = false)).
  { destruct (plain_prefix_split data_batch) as (rest & Hsplit & Hrest).
    pose proof (plain_prefix_plain data_batch) as Hpre.
    remember (plain_prefix data_batch) as pre eqn:Heqpre. clear Heqpre Hplain.
    rewrite Hsplit. rewrite map_app, distinct_keys_app.
    rewrite distinct_keys_plain by exact Hpre.
    eexists. split; [reflexivity|].
    destruct Hrest as [->|(d0 & rest' & -> & Hd0)]; [now left|].
    right. exists d0. simpl.
    destruct (existsb (String.eqb (batch_key d0)) (map batch_key pre)) eqn:Hex.
    - exfalso. apply existsb_exists in Hex as (k & Hk & Heq).
      apply in_map_iff in Hk as (d & <- & Hd).
      apply Hpre in Hd.
      rewrite batch_key_same_sensor in Heq by exact Hd.
      pose proof (batch_key_parts d) as Hp. rewrite Hd in Hp.
      pose proof (batch_key_parts d0) as Hp0. rewrite Hd0 in Hp0.
      unfold same_sensor in Heq. apply andb_true_iff in Heq as [Ha Hb].
      apply String.eqb_eq in Ha, Hb.
      assert (Hkey : batch_key d0 = batch_key d) by (unfold batch_key; now rewrite Ha, Hb).
      rewrite Hkey, Hp in Hp0. simpl in Hp0. lia.
    - simpl. eauto. }
  destruct Hks as (tail & Hks & Htail). rewrite Hks, map_app, map_map.
  rewrite (process_groups_plain (fun d => readings_of_key (batch_key d) data_batch))
    by exact Hplain.
  assert (Hstop : forall st',
             process_groups rt module_globals write_api_write np_polyfit_slope np_corrcoef st'
               (map (fun k => (k, readings_of_key k data_batch)) tail) = st').
  { intros st'. destruct Htail as [->|(d0 & tail' & -> & Hd0)]; [reflexivity|].
    simpl map. now apply process_groups_stops. }
  rewrite Hstop. apply fold_left_ext_in. intros st' d Hd.
  f_equal. unfold readings_of_key. apply filter_ext. intros d'.
  apply batch_key_same_sensor. now apply Hplain.
Qed.

End Batches.

(** ** Sorting a group by timestamp *)

Lemma insert_by_timestamp_In (d x : BatchReading) (l : list BatchReading) :
  In x (insert_by_timestamp d l) <-> x = d \/ In x l.
Proof.
  induction l as [|y l IH]; simpl; [intuition|].
  destruct (String.ltb (b_timestamp d) (b_timestamp y)); simpl; [intuition|].
  rewrite IH. intuition.
Qed.

Lemma sort_by_timestamp_acc_In (x : BatchReading) (l acc : list BatchReading) :
  In x (fold_left (fun sorted d => insert_by_timestamp d sorted) l acc)
  <-> In x l \/ In x acc.
Proof.
  revert acc. induction l as [|d l IH]; intros acc; simpl; [tauto|].
  rewrite IH, insert_by_timestamp_In. intuition.
Qed.

Lemma sort_by_timestamp_In (x : BatchReading) (l : list BatchReading) :
  In x (sort_by_timestamp l) <-> In x l.
Proof. unfold sort_by_timestamp. rewrite sort_by_timestamp_acc_In. simpl. tauto. Qed.

(** ** What a group leaves behind *)

Section SensorGroups.

Variable rt : Runtime.
Variable module_globals : list string.
Variable write_api_write : InfluxPoint -> Py.result unit.
Variable np_polyfit_slope : list float -> list float -> Py.result float.
Variable np_corrcoef : list float -> list float -> float.

Lemma parse_timestamps_Raise (data : list BatchReading) (d : BatchReading) (e : Py.exn) :
  In d data ->
  fromisoformat rt (Py.replace_Z (b_timestamp d)) = Py.Raise e ->
  exists e', parse_timestamps rt data = Py.Raise e'.
Proof.
  induction data as [|x data IH]; intros Hd He; [destruct Hd|]. simpl.
  destruct Hd as [->|Hd].
  - rewrite He. eexists. reflexivity.
  - destruct (fromisoformat rt (Py.replace_Z (b_timestamp x))) as [t|e0];
      [|eexists; reflexivity].
    destruct (IH Hd He) as [e' ->]. eexists. reflexivity.
Qed.

(** One timestamp that does not parse and the whole group is dropped:
    no trend, no pattern and no health hash, and no exception either. *)
Theorem sensor_group_bad_timestamp (st : Stores) (station_id sensor_id : string)
    (data : list BatchReading) (d : BatchReading) (e : Py.exn) :
  In d data ->
  fromisoformat rt (Py.replace_Z (b_timestamp d)) = Py.Raise e ->
  _process_sensor_group rt module_globals write_api_write np_polyfit_slope np_corrcoef st station_id sensor_id data = st.
Proof.
  intros Hd He. unfold _process_sensor_group.
  destruct (parse_timestamps_Raise (sort_by_timestamp data) d e) as [e' ->];
    [now apply sort_by_timestamp_In | exact He | reflexivity].
Qed.

End SensorGroups.

(** ** The points that are never written *)

Section NoPoints.

Variable rt : Runtime.
Variable write_api_write : InfluxPoint -> Py.result unit.
Variable np_polyfit_slope : list float -> list float -> Py.result float.
Variable np_corrcoef : list float -> list float -> float.
Variable query_downsampled :
  string -> string -> string -> datetime -> datetime
  -> Py.result (list (datetime * float)).

Lemma _store_trend_data_unbound (st : Stores) (station_id sensor_id : string)
    (trend : option Trend) :
  _store_trend_data rt data_processing_globals write_api_write st station_id sensor_id
    trend = st.
Proof. reflexivity. Qed.

Lemma _store_pattern_data_unbound (st : Stores) (station_id sensor_id : string)
    (patterns : list Pattern) :
  _store_pattern_data rt data_processing_globals write_api_write st station_id
    sensor_id patterns = st.
Proof. destruct patterns; reflexivity. Qed.

Lemma _update_sensor_health_unbound (st : Stores) (station_id sensor_id : string)
    (data : list BatchReading) :
  _update_sensor_health rt data_processing_globals st station_id sensor_id data = st.
Proof. reflexivity. Qed.

Lemma _process_sensor_group_unbound (st : Stores) (station_id sensor_id : string)
    (data : list BatchReading) :
  _process_sensor_group rt data_processing_globals write_api_write np_polyfit_slope
    np_corrcoef st station_id sensor_id data = st.
Proof.
  unfold _process_sensor_group. destruct (parse_timestamps rt _); [|reflexivity].
  rewrite _store_trend_data_unbound, _store_pattern_data_unbound.
  destruct (1 <? _)%nat; destruct (Py.not_ _); apply _update_sensor_health_unbound.
Qed.

Lemma process_groups_unbound (st : Stores)
    (grouped_data : list (string * list BatchReading)) :
  process_groups rt data_processing_globals write_api_write np_polyfit_slope np_corrcoef
    st grouped_data = st.
Proof.
  revert st. induction grouped_data as [|[key group_data] groups IH]; intros st;
    [reflexivity|].
  simpl. destruct (split "_" key) as [|a [|b [|c l]]]; try reflexivity.
  rewrite IH. apply _process_sensor_group_unbound.
Qed.

(** As the module is written, nothing ever reaches the time-series store:
    storing a trend, storing patterns and downsampling leave everything as
    it was, a group and a batch leave no point, whatever the store answers
    and whatever the readings are. *)
Theorem data_processor_writes_no_point (st : Stores) (station_id sensor_id : string)
    (trend : option Trend) (patterns : list Pattern)
    (source_interval target_interval : string)
    (data data_batch : list BatchReading) :
  _store_trend_data rt data_processing_globals write_api_write st station_id sensor_id
    trend = st
  /\ _store_pattern_data rt data_processing_globals write_api_write st station_id
       sensor_id patterns = st
  /\ downsample_data rt data_processing_globals write_api_write query_downsampled st
       station_id sensor_id source_interval target_interval = st
  /\ written (_process_sensor_group rt data_processing_globals write_api_write
                np_polyfit_slope np_corrcoef st station_id sensor_id data) = written st
  /\ written (process_batch_data rt data_processing_globals write_api_write
                np_polyfit_slope np_corrcoef st data_batch)
     = written st.
Proof.
  split; [apply _store_trend_data_unbound|].
  split; [apply _store_pattern_data_unbound|]. split.
  { unfold downsample_data. destruct (query_downsampled _ _ _ _ _) as [[|r records]|];
      reflexivity. }
  split; [now rewrite _process_sensor_group_unbound|].
  unfold process_batch_data. now rewrite process_groups_unbound.
Qed.

(** As the module is written, the health of a sensor is never cached
    either: [get_redis_client] is called and bound nowhere, as [Point] is.
    The health update, a group and a whole batch leave the cache and the
    time-series store exactly as they were, whatever the readings are. *)
Theorem batch_processing_leaves_no_trace (st : Stores) (station_id sensor_id : string)
    (data data_batch : list BatchReading) :
  _update_sensor_health rt data_processing_globals st station_id sensor_id data = st
  /\ _process_sensor_group rt data_processing_globals write_api_write np_polyfit_slope
       np_corrcoef st station_id sensor_id data = st
  /\ process_batch_data rt data_processing_globals write_api_write np_polyfit_slope
       np_corrcoef st data_batch = st.
Proof.
  split; [apply _update_sensor_health_unbound|].
  split; [apply _process_sensor_group_unbound|].
  unfold process_batch_data. apply process_groups_unbound.
Qed.

End NoPoints.

(** A reading stamped 'yesterday' on the bench, which the bench runtime
    does not read. *)
Lemma sensor_group_bad_timestamp_witness :
  let late := {| b_station_id := "S1"; b_sensor_id := "W1";
                 b_timestamp := "yesterday"; b_value := 2%float |} in
  In late [bench_reading 1%float; late]
  /\ fromisoformat demo_runtime (Py.replace_Z (b_timestamp late))
     = Py.Raise (Py.Exn Py.ValueError "Invalid isoformat string")
  /\ _process_sensor_group demo_runtime data_processing_globals accept_point
       bench_polyfit bench_corrcoef empty_stores "S1" "W1" [bench_reading 1%float; late]
     = empty_stores.
Proof.
  intros late.
  assert (Hin : In late [bench_reading 1%float; late]) by (right; left; reflexivity).
  assert (Hraise : fromisoformat demo_runtime (Py.replace_Z (b_timestamp late))
                   = Py.Raise (Py.Exn Py.ValueError "Invalid isoformat string"))
    by reflexivity.
  split; [exact Hin|]. split; [exact Hraise|].
  exact (sensor_group_bad_timestamp demo_runtime data_processing_globals accept_point
           bench_polyfit bench_corrcoef empty_stores "S1" "W1"
           [bench_reading 1%float; late] late _ Hin Hraise).
Defined.
